(** * The SASU tax engine ([app/services/tax_calculator.py])

    A shallow embedding of [FrenchTaxCalculator] and the proofs of the
    properties stated for it.

    Numbers.  Every amount in the source is a Python [float] (the
    signatures and the request schemas say so), that is an IEEE 754
    binary64 value; they are modelled by Rocq's primitive [float], which is
    the same format with the same rounding.  The integer literals of the
    source ([0], [42500], [20], the loop index [i]) only ever meet floats in
    mixed arithmetic or comparisons, where Python converts them exactly;
    they are written as the floats they convert to.

    Dictionaries.  A [dict] with string keys is a [gmap string _]; a
    subscript [d[k]] on a missing key raises [KeyError].

    Errors.  Python exceptions are the [Raise] outcome of the [res] monad.
    The only unbounded loop of the source (the bisection of
    [optimize_remuneration]) is run with a fuel counter; [OutOfFuel] is the
    outcome of a run that needed more iterations than the fuel given.

    Callers.  The two endpoints of [app/api/api_v1/endpoints/tax.py] that
    calculate, [calculate_taxes] and [optimize_taxes], are modelled over
    the engine.  The database is what their one query returns, the
    settings are those of the environment, and an [HTTPException] is the
    left outcome of an endpoint. *)

From Stdlib Require Import Floats ZArith List.
From stdpp Require Import base option list gmap strings.
Import ListNotations.

Set Warnings "-inexact-float".
#[local] Open Scope float_scope.

(** ** Outcomes and the error monad *)

Inductive exn : Type :=
| ZeroDivisionError
| KeyError (key : string).

Inductive res (A : Type) : Type :=
| Ok (a : A)
| Raise (e : exn)
| OutOfFuel.

Arguments Ok {A} a.
Arguments Raise {A} e.
Arguments OutOfFuel {A}.

#[global] Instance res_ret : MRet res := fun A a => Ok a.
#[global] Instance res_bind : MBind res := fun A B f m =>
  match m with
  | Ok a => f a
  | Raise e => Raise e
  | OutOfFuel => OutOfFuel
  end.

(** ** Python primitives on floats *)

Module Py.

(** [x / y]: float division raises on a zero divisor (of either sign). *)
Definition div (x y : float) : res float :=
  if y =? 0 then Raise ZeroDivisionError else Ok (x / y).

(** [min(a, b)]: the first argument is kept unless the second is
    strictly smaller. *)
Definition min (a b : float) : float := if b <? a then b else a.

(** [max(a, b)]: the first argument is kept unless the second is
    strictly greater. *)
Definition max (a b : float) : float := if a <? b then b else a.

(** [float(n)] for a small natural number [n] (a loop index). *)
Definition of_nat (n : nat) : float := of_uint63 (Uint63.of_Z (Z.of_nat n)).

(** [d[k]] *)
Definition getitem {V} (d : gmap string V) (k : string) : res V :=
  match d !! k with
  | Some v => Ok v
  | None => Raise (KeyError k)
  end.

(** [d.get(k, default)] *)
Definition get {V} (d : gmap string V) (k : string) (default : V) : V :=
  match d !! k with
  | Some v => v
  | None => default
  end.

End Py.

Notation "d .[ k ]" := (Py.getitem d k) (at level 1, format "d .[ k ]").

(** ** Configuration ([app/core/config.py], the two settings the engine reads) *)

Record Settings : Type := {
  SMIC_HOURLY : float;
  PASS_ANNUAL : float
}.

Definition settings : Settings :=
  {| SMIC_HOURLY := 11.52; PASS_ANNUAL := 43992.0 |}.

(** ** The calculator object *)

Record FrenchTaxCalculator : Type := {
  social_charges_rates : gmap string (gmap string float);
  corporate_tax_rates : list (float * float);
  income_tax_brackets : list (float * float);
  vat_rates : gmap string float;
  smic_annual : float;
  pass_annual : float
}.

(** [FrenchTaxCalculator.__init__] *)
Definition init (settings : Settings) : FrenchTaxCalculator := {|
  social_charges_rates :=
    {[ "salary" := {[ "employer" := 0.42; "employee" := 0.22 ]};
       "dividends" := {[ "social" := 0.172; "pfu" := 0.128 ]} ]};
  corporate_tax_rates := [ (42500, 0.15); (infinity, 0.25) ];
  income_tax_brackets :=
    [ (11294, 0); (28797, 0.11); (82341, 0.30); (177106, 0.41);
      (infinity, 0.45) ];
  vat_rates :=
    {[ "standard" := 0.20; "intermediate" := 0.10; "reduced" := 0.055;
       "super_reduced" := 0.021 ]};
  smic_annual := SMIC_HOURLY settings * 35 * 52;
  pass_annual := PASS_ANNUAL settings
|}.

(** ** The engine *)

Section Engine.

Variable self : FrenchTaxCalculator.

Definition calculate_social_charges_on_salary (gross_salary : float)
  : res (gmap string float) :=
  salary_rates ← (social_charges_rates self).["salary"];
  employer_rate ← salary_rates.["employer"];
  let employer_charges := gross_salary * employer_rate in
  salary_rates ← (social_charges_rates self).["salary"];
  employee_rate ← salary_rates.["employee"];
  let employee_charges := gross_salary * employee_rate in
  let net_salary := gross_salary - employee_charges in
  let total_cost := gross_salary + employer_charges in
  mret {[ "gross_salary" := gross_salary;
          "employer_charges" := employer_charges;
          "employee_charges" := employee_charges;
          "total_social_charges" := employer_charges + employee_charges;
          "net_salary" := net_salary;
          "total_cost_to_company" := total_cost ]}.

(** [self.corporate_tax_rates[0][0]], read inside the loop over
    [self.corporate_tax_rates], hence on a non-empty list. *)
Definition first_threshold : float :=
  match corporate_tax_rates self with
  | (threshold, _) :: _ => threshold
  | [] => 0
  end.

(** The [for threshold, rate in self.corporate_tax_rates] loop, from the
    state [(tax, remaining_profit)]. *)
Fixpoint corporate_tax_loop (profit_before_tax : float)
    (rates : list (float * float)) (tax remaining_profit : float) : float :=
  match rates with
  | [] => tax
  | (threshold, rate) :: rates =>
      if remaining_profit <=? 0 then tax
      else
        let taxable_amount := Py.min remaining_profit threshold in
        let tax := tax + taxable_amount * rate in
        let remaining_profit := remaining_profit - taxable_amount in
        let remaining_profit :=
          if threshold =? first_threshold
          then (if threshold <? profit_before_tax
                then profit_before_tax - threshold else 0)
          else remaining_profit in
        corporate_tax_loop profit_before_tax rates tax remaining_profit
  end.

Definition calculate_corporate_tax (profit_before_tax : float) : float :=
  if profit_before_tax <=? 0 then 0
  else corporate_tax_loop profit_before_tax (corporate_tax_rates self)
         0 profit_before_tax.

(** The [for i, (threshold, rate) in enumerate(self.income_tax_brackets)]
    loop; [prev] is [None] at [i = 0] and
    [Some self.income_tax_brackets[i-1][0]] afterwards. *)
Fixpoint income_tax_loop (income_per_part : float) (prev : option float)
    (brackets : list (float * float)) (tax_per_part : float) : float :=
  match brackets with
  | [] => tax_per_part
  | (threshold, rate) :: brackets =>
      match prev with
      | None =>
          if income_per_part <=? threshold
          then tax_per_part + income_per_part * rate
          else income_tax_loop income_per_part (Some threshold) brackets
                 (tax_per_part + threshold * rate)
      | Some prev_threshold =>
          if income_per_part <=? threshold
          then tax_per_part + (income_per_part - prev_threshold) * rate
          else income_tax_loop income_per_part (Some threshold) brackets
                 (tax_per_part + (threshold - prev_threshold) * rate)
      end
  end.

Definition calculate_income_tax (taxable_income parts : float) : res float :=
  if taxable_income <=? 0 then mret 0
  else
    income_per_part ← Py.div taxable_income parts;
    let tax_per_part :=
      income_tax_loop income_per_part None (income_tax_brackets self) 0 in
    mret (tax_per_part * parts).

Definition calculate_dividends_taxation (dividends : float)
  : res (gmap string float) :=
  if dividends <=? 0
  then mret {[ "dividends" := 0;
               "social_charges" := 0;
               "income_tax" := 0;
               "total_tax" := 0;
               "net_dividends" := 0 ]}
  else
    dividend_rates ← (social_charges_rates self).["dividends"];
    social_rate ← dividend_rates.["social"];
    let social_charges := dividends * social_rate in
    dividend_rates ← (social_charges_rates self).["dividends"];
    pfu_rate ← dividend_rates.["pfu"];
    let income_tax := dividends * pfu_rate in
    let total_tax := social_charges + income_tax in
    let net_dividends := dividends - total_tax in
    effective_rate ←
      (if 0 <? dividends then Py.div total_tax dividends else mret 0);
    mret {[ "dividends" := dividends;
            "social_charges" := social_charges;
            "income_tax" := income_tax;
            "total_tax" := total_tax;
            "net_dividends" := net_dividends;
            "effective_rate" := effective_rate ]}.

Definition calculate_vat (revenue expenses vat_rate : float)
  : gmap string float :=
  let vat_collected := revenue * vat_rate in
  let vat_deductible := expenses * vat_rate in
  let vat_to_pay := Py.max 0 (vat_collected - vat_deductible) in
  {[ "vat_collected" := vat_collected;
     "vat_deductible" := vat_deductible;
     "vat_to_pay" := vat_to_pay;
     "vat_rate" := vat_rate ]}.

(** The default of the [vat_rate] and [parts] keyword arguments. *)
Definition default_vat_rate : float := 0.20.
Definition default_parts : float := 1.0.

Definition calculate_complete_taxation
    (gross_salary dividends revenue expenses vat_rate : float)
  : res (gmap string (gmap string float)) :=
  salary_charges ← calculate_social_charges_on_salary gross_salary;
  total_salary_cost ← salary_charges.["total_cost_to_company"];
  let profit_before_tax := revenue - expenses - total_salary_cost in
  let corporate_tax := calculate_corporate_tax profit_before_tax in
  let profit_after_tax := profit_before_tax - corporate_tax in
  let actual_dividends := Py.min dividends (Py.max 0 profit_after_tax) in
  dividend_tax ← calculate_dividends_taxation actual_dividends;
  net_salary ← salary_charges.["net_salary"];
  let taxable_salary := net_salary * 0.9 in
  income_tax_salary ← calculate_income_tax taxable_salary default_parts;
  let vat := calculate_vat revenue expenses vat_rate in
  salary_social ← salary_charges.["total_social_charges"];
  dividend_social ← dividend_tax.["social_charges"];
  let total_social_charges := salary_social + dividend_social in
  dividend_income_tax ← dividend_tax.["income_tax"];
  let total_income_tax := income_tax_salary + dividend_income_tax in
  salary_social ← salary_charges.["total_social_charges"];
  dividend_total_tax ← dividend_tax.["total_tax"];
  vat_to_pay ← vat.["vat_to_pay"];
  let total_taxes :=
    salary_social + corporate_tax + dividend_total_tax
    + income_tax_salary + vat_to_pay in
  net_salary ← salary_charges.["net_salary"];
  net_dividends ← dividend_tax.["net_dividends"];
  let net_income := net_salary - income_tax_salary + net_dividends in
  effective_tax_rate ←
    (if 0 <? revenue then Py.div total_taxes revenue else mret 0);
  vat_to_pay ← vat.["vat_to_pay"];
  mret {[ "input" := {[ "gross_salary" := gross_salary;
                        "dividends" := dividends;
                        "revenue" := revenue;
                        "expenses" := expenses ]};
          "salary" := salary_charges;
          "corporate" :=
            {[ "profit_before_tax" := profit_before_tax;
               "corporate_tax" := corporate_tax;
               "profit_after_tax" := profit_after_tax;
               "available_for_dividends" := Py.max 0 profit_after_tax ]};
          "dividends" := dividend_tax;
          "income_tax" := {[ "taxable_salary" := taxable_salary;
                             "tax_on_salary" := income_tax_salary;
                             "total" := total_income_tax ]};
          "vat" := vat;
          "summary" :=
            {[ "total_social_charges" := total_social_charges;
               "total_corporate_tax" := corporate_tax;
               "total_income_tax" := total_income_tax;
               "total_vat" := vat_to_pay;
               "total_taxes" := total_taxes;
               "net_income" := net_income;
               "effective_tax_rate" := effective_tax_rate ]} ]}.

End Engine.

(** [result[section][key]] on a nested breakdown. *)
Definition field (result : gmap string (gmap string float))
    (section key : string) : option float :=
  result !! section ≫= (.!! key).

(** ** The optimizer *)

Record OptimizationResult : Type := {
  optimal_gross_salary : float;
  optimal_dividends : float;
  net_income_achieved : float;
  total_tax_burden : float;
  effective_tax_rate : float;
  breakdown : gmap string float;
  full_calculation : gmap string (gmap string float)
}.

(** The variables the salary loop of [optimize_remuneration] updates. *)
Record search_state : Type := {
  best_salary : float;
  best_dividends : float;
  min_total_tax : float;
  best_result : option (gmap string (gmap string float))
}.

(** [for x in xs: st = body(st, x)], stopping at the first exception. *)
Fixpoint for_each {A S} (body : S -> A -> res S) (xs : list A) (st : S)
  : res S :=
  match xs with
  | [] => mret st
  | x :: xs => st ← body st x; for_each body xs st
  end.

Section Optimizer.

Variable self : FrenchTaxCalculator.

Definition salary_steps : nat := 20.

(** [range(salary_steps + 1)] *)
Definition salary_range : list nat := seq 0 (salary_steps + 1).

Definition test_salary_at (min_salary max_salary : float) (i : nat) : float :=
  min_salary
  + (max_salary - min_salary) * Py.of_nat i / Py.of_nat salary_steps.

(** The [while high - low > 100] loop; one unit of fuel per iteration. *)
Fixpoint binary_search (fuel : nat)
    (test_salary target_net_income revenue expenses low high : float)
  : res (float * float) :=
  if 100 <? high - low then
    match fuel with
    | O => OutOfFuel
    | S fuel =>
        let mid := (low + high) / 2 in
        result ← calculate_complete_taxation self
                   test_salary mid revenue expenses default_vat_rate;
        summary ← result.["summary"];
        net_income ← summary.["net_income"];
        if net_income <? target_net_income
        then binary_search fuel test_salary target_net_income
               revenue expenses mid high
        else binary_search fuel test_salary target_net_income
               revenue expenses low mid
    end
  else mret (low, high).

(** The body of [for i in range(salary_steps + 1)]; a [continue] returns
    the state unchanged. *)
Definition salary_loop_body (fuel : nat)
    (target_net_income revenue expenses min_salary max_salary : float)
    (st : search_state) (i : nat) : res search_state :=
  let test_salary := test_salary_at min_salary max_salary i in
  salary_result ← calculate_social_charges_on_salary self test_salary;
  total_cost ← salary_result.["total_cost_to_company"];
  let profit_before_tax := revenue - expenses - total_cost in
  if profit_before_tax <=? 0 then mret st
  else
    let corporate_tax := calculate_corporate_tax self profit_before_tax in
    let available_for_dividends := profit_before_tax - corporate_tax in
    if available_for_dividends <=? 0 then mret st
    else
      bounds ← binary_search fuel test_salary target_net_income
                 revenue expenses 0 available_for_dividends;
      let test_dividends := (fst bounds + snd bounds) / 2 in
      result ← calculate_complete_taxation self
                 test_salary test_dividends revenue expenses default_vat_rate;
      summary ← result.["summary"];
      net_income ← summary.["net_income"];
      if abs (net_income - target_net_income) <? 1000 then
        summary ← result.["summary"];
        total_taxes ← summary.["total_taxes"];
        if total_taxes <? min_total_tax st then
          summary ← result.["summary"];
          total_taxes ← summary.["total_taxes"];
          mret {| best_salary := test_salary;
                  best_dividends := test_dividends;
                  min_total_tax := total_taxes;
                  best_result := Some result |}
        else mret st
      else mret st.

Definition optimize_remuneration (fuel : nat)
    (target_net_income revenue expenses : float)
    (constraints : option (gmap string float)) : res OptimizationResult :=
  let constraints := default ∅ constraints in
  let min_salary := Py.get constraints "min_salary" (smic_annual self) in
  let max_salary := Py.get constraints "max_salary" (revenue * 0.8) in
  st ← for_each
         (salary_loop_body fuel target_net_income revenue expenses
            min_salary max_salary)
         salary_range
         {| best_salary := min_salary;
            best_dividends := 0;
            min_total_tax := infinity;
            best_result := None |};
  best ← match best_result st with
         | None =>
             fallback ← calculate_complete_taxation self
                          min_salary 0 revenue expenses default_vat_rate;
             mret (min_salary, 0, fallback)
         | Some result => mret (best_salary st, best_dividends st, result)
         end;
  let '(best_salary, best_dividends, best_result) := best in
  summary ← best_result.["summary"];
  net_income ← summary.["net_income"];
  summary ← best_result.["summary"];
  total_taxes ← summary.["total_taxes"];
  summary ← best_result.["summary"];
  rate ← summary.["effective_tax_rate"];
  summary ← best_result.["summary"];
  mret {| optimal_gross_salary := best_salary;
          optimal_dividends := best_dividends;
          net_income_achieved := net_income;
          total_tax_burden := total_taxes;
          effective_tax_rate := rate;
          breakdown := summary;
          full_calculation := best_result |}.

End Optimizer.

(** ** The recommendations *)

(** The six advisory messages of [generate_recommendations], named; the
    first one is an f-string that quotes [self.smic_annual].  In the order
    of the source: salary below the annual minimum wage, salary above four
    times the social security ceiling, dividends paid with a salary below
    the ceiling, effective rate above 45%, VAT to pay above 15% of the
    revenue, available profit above twice the dividends. *)
Inductive recommendation : Type :=
| SalaryBelowSmic (smic_annual : float)
| SalaryAboveFourPass
| RaiseSalaryToPass
| HighEffectiveRate
| HighVat
| UndistributedProfits.

Section Recommendations.

Variable self : FrenchTaxCalculator.

Definition generate_recommendations
    (calculation_result : gmap string (gmap string float))
  : res (list recommendation) :=
  let recommendations := [] in
  input ← calculation_result.["input"];
  salary ← input.["gross_salary"];
  input ← calculation_result.["input"];
  dividends ← input.["dividends"];
  summary ← calculation_result.["summary"];
  effective_rate ← summary.["effective_tax_rate"];
  let recommendations :=
    if salary <? smic_annual self
    then recommendations ++ [SalaryBelowSmic (smic_annual self)]
    else if pass_annual self * 4 <? salary
         then recommendations ++ [SalaryAboveFourPass]
         else recommendations in
  let recommendations :=
    if (0 <? dividends) && (salary <? pass_annual self)
    then recommendations ++ [RaiseSalaryToPass]
    else recommendations in
  let recommendations :=
    if 0.45 <? effective_rate
    then recommendations ++ [HighEffectiveRate]
    else recommendations in
  recommendations ←
    match calculation_result !! "vat" with
    | Some _ =>
        vat ← calculation_result.["vat"];
        vat_to_pay ← vat.["vat_to_pay"];
        input ← calculation_result.["input"];
        revenue ← input.["revenue"];
        mret (if revenue * 0.15 <? vat_to_pay
              then recommendations ++ [HighVat]
              else recommendations)
    | None => mret recommendations
    end;
  recommendations ←
    match calculation_result !! "corporate" with
    | Some _ =>
        corporate ← calculation_result.["corporate"];
        let available := Py.get corporate "available_for_dividends" 0 in
        mret (if dividends * 2 <? available
              then recommendations ++ [UndistributedProfits]
              else recommendations)
    | None => mret recommendations
    end;
  mret recommendations.

End Recommendations.

(** ** The endpoints ([app/api/api_v1/endpoints/tax.py]) *)

(** The request and response schemas of [app/schemas/tax.py] that the two
    calculating endpoints use.  The bounds [Field(ge=0)] and [Field(gt=0)]
    of the requests are checked before the endpoints are called. *)
Module TaxCalculationRequest.

Record t : Type := {
  company_id : option Z;
  calculation_type : string;
  tax_year : Z;
  gross_salary : float;
  dividends : float;
  revenue : float;
  expenses : float;
  optimize : bool;
  include_recommendations : bool;
  scenario_name : option string
}.

End TaxCalculationRequest.

Module TaxCalculationResult.

Record t : Type := {
  gross_salary : float;
  dividends : float;
  revenue : float;
  expenses : float;
  profit_before_tax : float;
  net_salary : float;
  employer_social_charges : float;
  employee_social_charges : float;
  total_social_charges : float;
  corporate_tax : float;
  income_tax : float;
  dividend_tax : float;
  vat_to_pay : float;
  total_taxes : float;
  net_income_after_tax : float;
  effective_tax_rate : float;
  optimization_potential : float;
  suggested_salary : option float;
  suggested_dividends : option float;
  calculation_details : gmap string (gmap string float);
  recommendations : option (list recommendation)
}.

End TaxCalculationResult.

Module TaxOptimizationRequest.

Record t : Type := {
  company_id : Z;
  target_net_income : float;
  tax_year : Z;
  min_salary : option float;
  max_salary : option float;
  min_dividends : option float;
  max_dividends : option float;
  revenue : float;
  expenses : float
}.

End TaxOptimizationRequest.

(** The four lines that [optimize_taxes] formats, each with the amount it
    quotes, and its warning. *)
Inductive optimization_message : Type :=
| OptimalSalary (amount : float)
| OptimalDividends (amount : float)
| SavingsVsAllSalary (amount : float)
| SavingsVsAllDividends (amount : float).

Inductive optimization_warning : Type :=
| OptimizedSalaryBelowSmic.

Module TaxOptimizationResult.

Record t : Type := {
  optimal_gross_salary : float;
  optimal_dividends : float;
  net_income_achieved : float;
  total_tax_burden : float;
  effective_tax_rate : float;
  savings_vs_all_salary : float;
  savings_vs_all_dividends : float;
  breakdown : gmap string float;
  recommendations : list optimization_message;
  warnings : option (list optimization_warning)
}.

End TaxOptimizationResult.

Record HTTPException : Type := {
  status_code : Z;
  detail : string
}.

Definition HTTP_404_NOT_FOUND : Z := 404%Z.

Section Endpoints.

(** The rows of the [company] table, and the query
    [db.query(Company).filter(Company.id == company_id,
    Company.user_id == current_user.id).first()] on the database of the
    request. *)
Variable Company : Type.
Variable first_company : Z -> Z -> option Company.

(** [app.core.config.settings], the settings of the application as the
    environment configures them: [FrenchTaxCalculator()] reads them. *)
Variable app_settings : Settings.

(** An endpoint raises an [HTTPException], or goes on to calculate. *)
Definition calculate_taxes (request : TaxCalculationRequest.t)
    (current_user_id : Z)
  : HTTPException + res TaxCalculationResult.t :=
  let company_not_found :=
    match TaxCalculationRequest.company_id request with
    | Some company_id =>
        if (company_id =? 0)%Z then false
        else match first_company company_id current_user_id with
             | Some _ => false
             | None => true
             end
    | None => false
    end in
  if company_not_found
  then inl {| status_code := HTTP_404_NOT_FOUND;
              detail := "Company not found" |}
  else inr (
    let calculator := init app_settings in
    result ← calculate_complete_taxation calculator
               (TaxCalculationRequest.gross_salary request)
               (TaxCalculationRequest.dividends request)
               (TaxCalculationRequest.revenue request)
               (TaxCalculationRequest.expenses request)
               default_vat_rate;
    recommendations ←
      (if TaxCalculationRequest.include_recommendations request
       then recommendations ← generate_recommendations calculator result;
            mret (Some recommendations)
       else mret None);
    corporate ← result.["corporate"];
    profit_before_tax ← corporate.["profit_before_tax"];
    salary ← result.["salary"];
    net_salary ← salary.["net_salary"];
    salary ← result.["salary"];
    employer_charges ← salary.["employer_charges"];
    salary ← result.["salary"];
    employee_charges ← salary.["employee_charges"];
    summary ← result.["summary"];
    total_social_charges ← summary.["total_social_charges"];
    corporate ← result.["corporate"];
    corporate_tax ← corporate.["corporate_tax"];
    income_tax ← result.["income_tax"];
    income_tax_total ← income_tax.["total"];
    dividends ← result.["dividends"];
    dividend_total_tax ← dividends.["total_tax"];
    vat ← result.["vat"];
    vat_to_pay ← vat.["vat_to_pay"];
    summary ← result.["summary"];
    total_taxes ← summary.["total_taxes"];
    summary ← result.["summary"];
    net_income ← summary.["net_income"];
    summary ← result.["summary"];
    effective_tax_rate ← summary.["effective_tax_rate"];
    mret {| TaxCalculationResult.gross_salary :=
              TaxCalculationRequest.gross_salary request;
            TaxCalculationResult.dividends :=
              TaxCalculationRequest.dividends request;
            TaxCalculationResult.revenue :=
              TaxCalculationRequest.revenue request;
            TaxCalculationResult.expenses :=
              TaxCalculationRequest.expenses request;
            TaxCalculationResult.profit_before_tax := profit_before_tax;
            TaxCalculationResult.net_salary := net_salary;
            TaxCalculationResult.employer_social_charges := employer_charges;
            TaxCalculationResult.employee_social_charges := employee_charges;
            TaxCalculationResult.total_social_charges := total_social_charges;
            TaxCalculationResult.corporate_tax := corporate_tax;
            TaxCalculationResult.income_tax := income_tax_total;
            TaxCalculationResult.dividend_tax := dividend_total_tax;
            TaxCalculationResult.vat_to_pay := vat_to_pay;
            TaxCalculationResult.total_taxes := total_taxes;
            TaxCalculationResult.net_income_after_tax := net_income;
            TaxCalculationResult.effective_tax_rate := effective_tax_rate;
            TaxCalculationResult.optimization_potential := 0;
            TaxCalculationResult.suggested_salary := None;
            TaxCalculationResult.suggested_dividends := None;
            TaxCalculationResult.calculation_details := result;
            TaxCalculationResult.recommendations := recommendations |}).

(** [fuel] bounds the iterations of each bisection of the optimizer. *)
Definition optimize_taxes (fuel : nat) (request : TaxOptimizationRequest.t)
    (current_user_id : Z)
  : HTTPException + res TaxOptimizationResult.t :=
  match first_company (TaxOptimizationRequest.company_id request)
          current_user_id with
  | None => inl {| status_code := HTTP_404_NOT_FOUND;
                   detail := "Company not found" |}
  | Some _ => inr (
    let calculator := init app_settings in
    let constraints : gmap string float := ∅ in
    let constraints :=
      match TaxOptimizationRequest.min_salary request with
      | Some min_salary => <["min_salary" := min_salary]> constraints
      | None => constraints
      end in
    let constraints :=
      match TaxOptimizationRequest.max_salary request with
      | Some max_salary => <["max_salary" := max_salary]> constraints
      | None => constraints
      end in
    result ← optimize_remuneration calculator fuel
               (TaxOptimizationRequest.target_net_income request)
               (TaxOptimizationRequest.revenue request)
               (TaxOptimizationRequest.expenses request)
               (Some constraints);
    all_salary ← calculate_complete_taxation calculator
                   (TaxOptimizationRequest.target_net_income request * 1.8)
                   0
                   (TaxOptimizationRequest.revenue request)
                   (TaxOptimizationRequest.expenses request)
                   default_vat_rate;
    all_dividends ← calculate_complete_taxation calculator
                      (smic_annual calculator)
                      (TaxOptimizationRequest.target_net_income request * 1.4)
                      (TaxOptimizationRequest.revenue request)
                      (TaxOptimizationRequest.expenses request)
                      default_vat_rate;
    summary ← all_salary.["summary"];
    all_salary_taxes ← summary.["total_taxes"];
    let savings_vs_salary := all_salary_taxes - total_tax_burden result in
    summary ← all_dividends.["summary"];
    all_dividends_taxes ← summary.["total_taxes"];
    let savings_vs_dividends := all_dividends_taxes - total_tax_burden result in
    let recommendations :=
      [ OptimalSalary (optimal_gross_salary result);
        OptimalDividends (optimal_dividends result);
        SavingsVsAllSalary savings_vs_salary;
        SavingsVsAllDividends savings_vs_dividends ] in
    let warnings := [] in
    let warnings :=
      if optimal_gross_salary result <? smic_annual calculator
      then warnings ++ [OptimizedSalaryBelowSmic]
      else warnings in
    mret {| TaxOptimizationResult.optimal_gross_salary :=
              optimal_gross_salary result;
            TaxOptimizationResult.optimal_dividends :=
              optimal_dividends result;
            TaxOptimizationResult.net_income_achieved :=
              net_income_achieved result;
            TaxOptimizationResult.total_tax_burden := total_tax_burden result;
            TaxOptimizationResult.effective_tax_rate :=
              effective_tax_rate result;
            TaxOptimizationResult.savings_vs_all_salary :=
              Py.max 0 savings_vs_salary;
            TaxOptimizationResult.savings_vs_all_dividends :=
              Py.max 0 savings_vs_dividends;
            TaxOptimizationResult.breakdown := breakdown result;
            TaxOptimizationResult.recommendations := recommendations;
            TaxOptimizationResult.warnings :=
              match warnings with
              | [] => None
              | _ :: _ => Some warnings
              end |})
  end.

End Endpoints.

(** ** Notions used in the statements *)

(** The breakdown returned for dividends that are not positive. *)
Definition zero_breakdown : gmap string float :=
  {[ "dividends" := 0; "social_charges" := 0; "income_tax" := 0;
     "total_tax" := 0; "net_dividends" := 0 ]}.

(** Reading one entry of a result, through the monad. *)
Definition observe (section key : string)
    (r : res (gmap string (gmap string float))) : res (option float) :=
  result ← r; mret (field result section key).

(** The salary, dividends and net income of an optimizer outcome. *)
Definition optimum (r : res OptimizationResult) : res (float * float * float) :=
  result ← r;
  mret (optimal_gross_salary result, optimal_dividends result,
        net_income_achieved result).

(** Either nothing has been accepted yet, or the best candidate is one of
    the sampled salaries, with the breakdown computed for it at the default
    VAT rate and a net income within 1000 of the target. *)
Definition search_invariant (self : FrenchTaxCalculator)
    (target revenue expenses min_salary max_salary : float)
    (st : search_state) : Prop :=
  match best_result st with
  | None => best_salary st = min_salary /\ best_dividends st = 0
  | Some result =>
      calculate_complete_taxation self (best_salary st) (best_dividends st)
        revenue expenses default_vat_rate = Ok result
      /\ exists (i : nat) (net_income : float),
           In i salary_range
           /\ best_salary st = test_salary_at min_salary max_salary i
           /\ field result "summary" "net_income" = Some net_income
           /\ (abs (net_income - target) <? 1000) = true
  end.

(** A sampled salary the loop skips: it leaves no positive profit, or
    nothing to distribute after corporate tax. *)
Definition skipped (self : FrenchTaxCalculator)
    (revenue expenses test_salary : float) : Prop :=
  exists (salary_result : gmap string float) (total_cost : float),
    calculate_social_charges_on_salary self test_salary = Ok salary_result
    /\ salary_result !! "total_cost_to_company" = Some total_cost
    /\ ((revenue - expenses - total_cost <=? 0) = true
        \/ (revenue - expenses - total_cost
            - calculate_corporate_tax self (revenue - expenses - total_cost)
            <=? 0) = true).

(** What the rounding of a positive quantity can be: never a zero, never
    negative. *)
Definition positive_or_nan (f : spec_float) : Prop :=
  match f with
  | S754_finite false _ _ | S754_infinity false | S754_nan => True
  | _ => False
  end.

(** * Properties *)

(** ** Float comparisons

    The comparisons of binary64 are those of [SpecFloat]; the facts below
    are read off [SFcompare] by cases on the class of the operands, so that
    they hold for signed zeros, infinities and NaN alike. *)

Module FloatOrder.

Ltac by_class x :=
  destruct (Prim2SF x) as [[]|[]| |[] ? ?]; cbn; congruence.

Lemma pos_not_le0 x : (0 <? x) = true -> (x <=? 0) = false.
Proof. rewrite FloatAxioms.ltb_spec, FloatAxioms.leb_spec. by_class x. Qed.

Lemma le0_not_pos x : (x <=? 0) = true -> (0 <? x) = false.
Proof. rewrite FloatAxioms.ltb_spec, FloatAxioms.leb_spec. by_class x. Qed.

Lemma pos_not_zero x : (0 <? x) = true -> (x =? 0) = false.
Proof. rewrite FloatAxioms.ltb_spec, FloatAxioms.eqb_spec. by_class x. Qed.

(** A float that some float is below is not NaN, so it is positive or
    at most zero. *)
Lemma above_not_pos_le0 x y :
  (x <? y) = true -> (0 <? y) = false -> (y <=? 0) = true.
Proof.
  rewrite !FloatAxioms.ltb_spec, FloatAxioms.leb_spec.
  destruct (Prim2SF x) as [[]|[]| |[] ? ?], (Prim2SF y) as [[]|[]| |[] ? ?];
    cbn; congruence.
Qed.

Lemma nothing_above_infinity x : (infinity <? x) = false.
Proof. rewrite FloatAxioms.ltb_spec. by_class x. Qed.

Lemma le_not_gt x y : (x <=? y) = true -> (y <? x) = false.
Proof.
  rewrite FloatAxioms.ltb_spec, FloatAxioms.leb_spec. unfold SFltb, SFleb.
  destruct (Prim2SF x) as [[]|[]| |[] mx ex], (Prim2SF y) as [[]|[]| |[] my ey];
    cbn; try congruence;
    rewrite (Z.compare_antisym ex ey); destruct (ex ?= ey)%Z; cbn;
    try congruence;
    change (PosDef.Pos.compare_cont Eq my mx) with (Pos.compare my mx);
    change (PosDef.Pos.compare_cont Eq mx my) with (Pos.compare mx my);
    rewrite (Pos.compare_antisym mx my);
    destruct (Pos.compare mx my); cbn; congruence.
Qed.

End FloatOrder.

(** ** Float arithmetic

    Two facts about the rounded operations of binary64, from their
    specification in [SpecFloat]: adding to zero changes nothing, and the
    difference of two distinct positive floats does not round to zero. *)

Module FloatArith.

Section Rounding.

#[local] Open Scope Z_scope.

(** [0 + x] is [x] unless [x] is the negative zero. *)
Lemma add_zero_l (x : float) :
  Prim2SF x <> S754_zero true -> (0 + x)%float = x.
Proof.
  intros Hx. apply Prim2SF_inj. rewrite FloatAxioms.add_spec.
  change (Prim2SF 0) with (S754_zero false).
  destruct (Prim2SF x) as [[]|[]| |[] m e]; try reflexivity. congruence.
Qed.

(** A rounding never flips the sign of a zero. *)
Lemma binary_round_aux_sign sx mx ex lx :
  binary_round_aux prec emax sx mx ex lx <> S754_zero (negb sx).
Proof.
  unfold binary_round_aux.
  destruct (shr_fexp prec emax mx ex lx) as [mrs' e'].
  destruct (shr_fexp prec emax _ e' loc_Exact) as [mrs'' e''].
  destruct (shr_m mrs''); [|destruct (_ <=? _)|]; try discriminate.
  destruct sx; discriminate.
Qed.

Lemma mul_pos_not_neg_zero (x c : float) :
  (0 <? x)%float = true -> (0 <? c)%float = true ->
  Prim2SF (x * c) <> S754_zero true.
Proof.
  rewrite !FloatAxioms.ltb_spec, FloatAxioms.mul_spec.
  change (Prim2SF 0) with (S754_zero false).
  destruct (Prim2SF x) as [[]|[]| |[] mx ex], (Prim2SF c) as [[]|[]| |[] mc ec];
    cbn; try congruence.
  intros _ _. apply (binary_round_aux_sign false).
Qed.

Lemma digits2_pos_bounds (m : positive) :
  2 ^ (Zpos (digits2_pos m) - 1) <= Zpos m < 2 ^ Zpos (digits2_pos m).
Proof.
  induction m as [m IH|m IH|]; cbn [digits2_pos].
  - rewrite Pos2Z.inj_succ, (Pos2Z.inj_xI m).
    replace (Z.succ (Zpos (digits2_pos m)) - 1)
      with (Z.succ (Zpos (digits2_pos m) - 1)) by lia.
    rewrite !Z.pow_succ_r by lia. lia.
  - rewrite Pos2Z.inj_succ, (Pos2Z.inj_xO m).
    replace (Z.succ (Zpos (digits2_pos m)) - 1)
      with (Z.succ (Zpos (digits2_pos m) - 1)) by lia.
    rewrite !Z.pow_succ_r by lia. lia.
  - change (2 ^ (1 - 1)) with 1. change (2 ^ 1) with 2. lia.
Qed.

Lemma iter_pos_nat {A} (f : A -> A) (n : positive) (x : A) :
  SpecFloat.iter_pos f n x = Nat.iter (Pos.to_nat n) f x.
Proof.
  transitivity (Pos.iter f x n).
  - revert x. induction n as [n IH|n IH|]; intros x;
      cbn [SpecFloat.iter_pos Pos.iter].
    + rewrite !IH. rewrite (Pos.iter_swap n A f x).
      rewrite (Pos.iter_swap n A f (Pos.iter f x n)). reflexivity.
    + now rewrite !IH.
    + reflexivity.
  - apply Pos2Nat.inj_iter.
Qed.

(** Shifting right by fewer bits than the mantissa has leaves a positive
    mantissa. *)
Lemma shr_1_iter (k : nat) (mrs : shr_record) (m : positive) :
  shr_m mrs = Zpos m -> Z.of_nat k < Zpos (digits2_pos m) ->
  exists m' : positive,
    shr_m (Nat.iter k shr_1 mrs) = Zpos m'
    /\ Zpos (digits2_pos m') = Zpos (digits2_pos m) - Z.of_nat k.
Proof.
  intros Hm. induction k as [|k IH]; intros Hk.
  - exists m. cbn [Nat.iter nat_rect]. split; [exact Hm|lia].
  - destruct IH as (m' & Hm' & Hdigits); [lia|].
    cbn [Nat.iter nat_rect]. fold (Nat.iter k shr_1 mrs).
    destruct (Nat.iter k shr_1 mrs) as [mk r t]. cbn [shr_m] in Hm'. subst mk.
    destruct m' as [p|p|]; cbn [digits2_pos] in Hdigits.
    + exists p. cbn. split; [reflexivity|lia].
    + exists p. cbn. split; [reflexivity|lia].
    + exfalso. lia.
Qed.

Lemma emin_value : emin = -1074.
Proof. reflexivity. Qed.

Lemma shr_fexp_pos (m : positive) (e : Z) (l : location) :
  emin <= e ->
  exists m' : positive,
    shr_m (fst (shr_fexp prec emax (Zpos m) e l)) = Zpos m'
    /\ emin <= snd (shr_fexp prec emax (Zpos m) e l).
Proof.
  rewrite emin_value. intros He. unfold shr_fexp, shr, fexp, Zdigits2.
  rewrite emin_value. change prec with 53.
  assert (Hrecord : shr_m (shr_record_of_loc (Zpos m) l) = Zpos m)
    by (now destruct l as [|[]]).
  destruct (Z.max (Zpos (digits2_pos m) + e - 53) (-1074) - e) as [|n|n] eqn:Hn.
  - exists m. split; [exact Hrecord|exact He].
  - rewrite iter_pos_nat. cbn [fst snd].
    destruct (shr_1_iter (Pos.to_nat n) _ m Hrecord) as (m' & Hm' & _).
    + rewrite positive_nat_Z. lia.
    + exists m'. split; [exact Hm'|lia].
  - exists m. split; [exact Hrecord|exact He].
Qed.

Lemma binary_round_aux_pos (m : positive) (e : Z) (l : location) :
  emin <= e -> positive_or_nan (binary_round_aux prec emax false (Zpos m) e l).
Proof.
  intros He. unfold binary_round_aux.
  destruct (shr_fexp_pos m e l He) as (m1 & Hm1 & He1).
  destruct (shr_fexp prec emax (Zpos m) e l) as [mrs1 e1]. cbn [fst snd] in *.
  assert (Hround : exists m2 : positive,
             round_nearest_even (shr_m mrs1) (loc_of_shr_record mrs1) = Zpos m2).
  { rewrite Hm1. unfold round_nearest_even.
    destruct (loc_of_shr_record mrs1) as [|[]];
      try destruct (Z.even (Zpos m1)); eauto;
      exists (m1 + 1)%positive; reflexivity. }
  destruct Hround as (m2 & ->).
  destruct (shr_fexp_pos m2 e1 loc_Exact He1) as (m3 & Hm3 & _).
  destruct (shr_fexp prec emax (Zpos m2) e1 loc_Exact) as [mrs3 e3].
  cbn [fst snd] in *. rewrite Hm3. now destruct (e3 <=? emax - prec).
Qed.

Lemma binary_round_pos (m : positive) (e : Z) :
  emin <= e -> positive_or_nan (binary_round prec emax false m e).
Proof.
  intros He. unfold binary_round.
  destruct (shl_align m e _) as [mz ez] eqn:Halign.
  apply binary_round_aux_pos.
  revert Halign. unfold shl_align, fexp.
  destruct (_ - e); intros [= <- <-]; try exact He. apply Z.le_max_r.
Qed.

(** The mantissa of a float has at most 53 binary digits, and exactly 53
    above the smallest exponent. *)
Lemma canonical_digits (m : positive) (e : Z) :
  bounded prec emax m e = true ->
  emin <= e
  /\ Zpos m < 2 ^ 53
  /\ (emin < e -> 2 ^ 52 <= Zpos m).
Proof.
  unfold bounded, canonical_mantissa, fexp. rewrite emin_value.
  change prec with 53. intros [Hcanonical _]%andb_prop.
  apply Z.eqb_eq in Hcanonical.
  pose proof (digits2_pos_bounds m) as [Hlow Hhigh].
  split; [lia|]. split.
  - apply Z.lt_le_trans with (1 := Hhigh). apply Z.pow_le_mono_r; lia.
  - intros He. replace (Zpos (digits2_pos m)) with 53 in Hlow by lia.
    exact Hlow.
Qed.

Lemma shift_left_doubles (m d : positive) :
  2 * Zpos m <= Zpos (Pos.iter xO m d).
Proof.
  induction d as [|d IH] using Pos.peano_ind.
  - cbn [Pos.iter]. rewrite (Pos2Z.inj_xO m). lia.
  - rewrite Pos.iter_succ, (Pos2Z.inj_xO (Pos.iter xO m d)). lia.
Qed.

(** The difference of a positive finite float and a smaller one is rounded
    from a positive integer at an exponent that is not below [emin]. *)
Lemma SFsub_pos (mx : positive) (ex : Z) (my : positive) (ey : Z) :
  bounded prec emax mx ex = true ->
  bounded prec emax my ey = true ->
  SFcompare (S754_finite false my ey) (S754_finite false mx ex) = Some Lt ->
  positive_or_nan
    (SFsub prec emax (S754_finite false mx ex) (S754_finite false my ey)).
Proof.
  intros (Hex & _ & Hmx)%canonical_digits (Hey & Hmy & _)%canonical_digits.
  change (2 ^ 53) with 9007199254740992 in Hmy.
  change (2 ^ 52) with 4503599627370496 in Hmx.
  cbn [SFcompare SFsub cond_Zopp]. unfold shl_align.
  destruct (Z.compare_spec ey ex) as [->|Hlt|Hgt]; [| |discriminate].
  - intros [= Hm]. change (PosDef.Pos.compare_cont Eq my mx)
      with (Pos.compare my mx) in Hm. apply Pos2Z.pos_lt_pos in Hm.
    rewrite Z.min_id, Z.sub_diag. cbn [fst].
    destruct (Zpos mx - Zpos my) as [|q|q] eqn:Hq; try (exfalso; lia).
    apply binary_round_pos, Hex.
  - intros _. rewrite Z.min_r, Z.sub_diag by lia. cbn [fst].
    destruct (ey - ex) as [|d|d] eqn:Hd; try (exfalso; lia). cbn [fst].
    pose proof (shift_left_doubles mx d).
    destruct (Zpos (Pos.iter xO mx d) - Zpos my) as [|q|q] eqn:Hq;
      try (exfalso; lia).
    apply binary_round_pos, Hey.
Qed.

(** In binary64 the difference of a float and a smaller positive float is
    positive: it does not round to zero. *)
Lemma sub_pos (x y : float) :
  (0 <? y)%float = true -> (y <? x)%float = true ->
  (x - y <=? 0)%float = false.
Proof.
  rewrite !FloatAxioms.ltb_spec, FloatAxioms.leb_spec, FloatAxioms.sub_spec.
  change (Prim2SF 0) with (S754_zero false).
  pose proof (Prim2SF_valid x) as Hx. pose proof (Prim2SF_valid y) as Hy.
  destruct (Prim2SF x) as [[]|[]| |[] mx ex], (Prim2SF y) as [[]|[]| |[] my ey];
    try (cbn; congruence).
  intros _ Hlt. unfold SFltb in Hlt.
  destruct (SFcompare (S754_finite false my ey) (S754_finite false mx ex))
    as [[]|] eqn:Hcompare; try discriminate.
  pose proof (SFsub_pos mx ex my ey Hx Hy Hcompare) as Hpos.
  unfold SF64sub.
  destruct (SFsub prec emax _ _) as [[]|[]| |[] m e]; cbn in Hpos |- *;
    (contradiction || reflexivity).
Qed.

End Rounding.

End FloatArith.

(** ** The order of floats *)

Module FloatCompare.

Lemma ltb_irrefl (x : float) : (x <? x) = false.
Proof.
  rewrite FloatAxioms.ltb_spec. unfold SFltb.
  destruct (Prim2SF x) as [[]|[]| |[] m e]; cbn; try reflexivity;
    rewrite Z.compare_refl;
    change (PosDef.Pos.compare_cont Eq m m) with (Pos.compare m m);
    now rewrite Pos.compare_refl.
Qed.

(** [<?] is transitive: none of the three floats can be NaN. *)
Lemma ltb_trans (x y z : float) :
  (x <? y) = true -> (y <? z) = true -> (x <? z) = true.
Proof.
  rewrite !FloatAxioms.ltb_spec. unfold SFltb.
  destruct (Prim2SF x) as [[]|[]| |[] mx ex], (Prim2SF y) as [[]|[]| |[] my ey],
    (Prim2SF z) as [[]|[]| |[] mz ez]; cbn; try congruence;
    change (PosDef.Pos.compare_cont Eq mx my) with (Pos.compare mx my);
    change (PosDef.Pos.compare_cont Eq my mz) with (Pos.compare my mz);
    change (PosDef.Pos.compare_cont Eq mx mz) with (Pos.compare mx mz);
    destruct (Z.compare_spec ex ey), (Z.compare_spec ey ez),
      (Z.compare_spec ex ez); cbn; try congruence; try (exfalso; lia);
    destruct (Pos.compare_spec mx my), (Pos.compare_spec my mz),
      (Pos.compare_spec mx mz); cbn; try congruence; exfalso; lia.
Qed.

(** A float that is not below infinity is infinity or NaN: it is below
    nothing. *)
Lemma not_below_infinity (x y : float) :
  (x <? infinity) = false -> (x <? y) = false.
Proof.
  rewrite !FloatAxioms.ltb_spec. unfold SFltb.
  change (Prim2SF infinity) with (S754_infinity false).
  destruct (Prim2SF x) as [[]|[]| |[] mx ex], (Prim2SF y) as [[]|[]| |[] my ey];
    cbn; congruence.
Qed.

End FloatCompare.

(** ** The error monad and dictionary literals *)

Lemma bind_Ok {A B} (a : A) (f : A -> res B) : (Ok a ≫= f) = f a.
Proof. reflexivity. Qed.

Lemma bind_inv {A B} (m : res A) (f : A -> res B) (b : B) :
  (m ≫= f) = Ok b -> exists a, m = Ok a /\ f a = Ok b.
Proof. destruct m as [a| |]; cbn; try discriminate. eauto. Qed.

Lemma bind_ext {A B} (m : res A) (f g : A -> res B) :
  (forall a, f a = g a) -> (m ≫= f) = (m ≫= g).
Proof. intros Hfg. destruct m as [a| |]; cbn; auto. Qed.

Lemma getitem_Some {V} (d : gmap string V) k v :
  d !! k = Some v -> d.[k] = Ok v.
Proof. unfold Py.getitem. now intros ->. Qed.

Lemma getitem_inv {V} (d : gmap string V) k v :
  d.[k] = Ok v -> d !! k = Some v.
Proof. unfold Py.getitem. destruct (d !! k); congruence. Qed.

(** Looks a key up in a dictionary literal, whatever the values are. *)
Ltac lookup_literal :=
  repeat first
    [ rewrite lookup_insert_eq
    | rewrite lookup_insert_ne by discriminate
    | rewrite lookup_singleton_eq
    | rewrite lookup_singleton_ne by discriminate ].

Ltac getitem_literal :=
  repeat (erewrite getitem_Some by (lookup_literal; reflexivity);
          rewrite bind_Ok; cbv beta).

(** ** The leaf calculations on the calculator built by [init] *)

Section Leaves.

Variable s : Settings.

Lemma social_charges_eq (gross_salary : float) :
  calculate_social_charges_on_salary (init s) gross_salary
  = Ok {[ "gross_salary" := gross_salary;
          "employer_charges" := gross_salary * 0.42;
          "employee_charges" := gross_salary * 0.22;
          "total_social_charges" := gross_salary * 0.42 + gross_salary * 0.22;
          "net_salary" := gross_salary - gross_salary * 0.22;
          "total_cost_to_company" := gross_salary + gross_salary * 0.42 ]}.
Proof. reflexivity. Qed.

Lemma dividends_taxation_nonpos (dividends : float) :
  (dividends <=? 0) = true ->
  calculate_dividends_taxation (init s) dividends = Ok zero_breakdown.
Proof. unfold calculate_dividends_taxation. now intros ->. Qed.

Lemma dividends_taxation_pos (dividends : float) :
  (dividends <=? 0) = false ->
  calculate_dividends_taxation (init s) dividends
  = Ok {[ "dividends" := dividends;
          "social_charges" := dividends * 0.172;
          "income_tax" := dividends * 0.128;
          "total_tax" := dividends * 0.172 + dividends * 0.128;
          "net_dividends" :=
            dividends - (dividends * 0.172 + dividends * 0.128);
          "effective_rate" :=
            if 0 <? dividends
            then (dividends * 0.172 + dividends * 0.128) / dividends
            else 0 ]}.
Proof.
  intros Hpos. unfold calculate_dividends_taxation. rewrite Hpos.
  change ((social_charges_rates (init s)).["dividends"])
    with (Ok ({[ "social" := 0.172; "pfu" := 0.128 ]} : gmap string float)).
  rewrite !bind_Ok.
  change (({[ "social" := 0.172; "pfu" := 0.128 ]} : gmap string float).["social"])
    with (Ok 0.172).
  change (({[ "social" := 0.172; "pfu" := 0.128 ]} : gmap string float).["pfu"])
    with (Ok 0.128).
  rewrite !bind_Ok. cbv zeta.
  destruct (0 <? dividends) eqn:Hgt; [|reflexivity].
  unfold Py.div. now rewrite (FloatOrder.pos_not_zero _ Hgt).
Qed.

(** With the default [parts = 1.0] the division cannot fail. *)
Lemma income_tax_default_parts (taxable_income : float) :
  calculate_income_tax (init s) taxable_income default_parts
  = Ok (if taxable_income <=? 0 then 0
        else income_tax_loop (taxable_income / 1) None
               (income_tax_brackets (init s)) 0 * 1).
Proof.
  unfold calculate_income_tax. now destruct (taxable_income <=? 0).
Qed.

Lemma guarded_rate (total x : float) :
  (if 0 <? x then Py.div total x else mret 0)
  = Ok (if 0 <? x then total / x else 0).
Proof.
  destruct (0 <? x) eqn:Hgt; [|reflexivity].
  unfold Py.div. now rewrite (FloatOrder.pos_not_zero _ Hgt).
Qed.

End Leaves.

(** ** The complete calculation in closed form *)

Section Complete.

Variable s : Settings.

(** Every key the orchestrator reads from the dividend breakdown is there,
    on both paths of [calculate_dividends_taxation]. *)
Lemma dividends_taxation_keys (dividends : float) :
  exists (breakdown : gmap string float) (social flat total net : float),
    calculate_dividends_taxation (init s) dividends = Ok breakdown
    /\ breakdown !! "social_charges" = Some social
    /\ breakdown !! "income_tax" = Some flat
    /\ breakdown !! "total_tax" = Some total
    /\ breakdown !! "net_dividends" = Some net.
Proof.
  destruct (dividends <=? 0) eqn:Hd.
  - rewrite (dividends_taxation_nonpos s _ Hd). unfold zero_breakdown.
    do 5 eexists. repeat split; lookup_literal; reflexivity.
  - rewrite (dividends_taxation_pos s _ Hd).
    do 5 eexists. repeat split; lookup_literal; reflexivity.
Qed.

Lemma complete_taxation_eq (gross_salary dividends revenue expenses vat_rate : float) :
  let salary_charges : gmap string float :=
    {[ "gross_salary" := gross_salary;
       "employer_charges" := gross_salary * 0.42;
       "employee_charges" := gross_salary * 0.22;
       "total_social_charges" := gross_salary * 0.42 + gross_salary * 0.22;
       "net_salary" := gross_salary - gross_salary * 0.22;
       "total_cost_to_company" := gross_salary + gross_salary * 0.42 ]} in
  let profit_before_tax :=
    revenue - expenses - (gross_salary + gross_salary * 0.42) in
  let corporate_tax := calculate_corporate_tax (init s) profit_before_tax in
  let profit_after_tax := profit_before_tax - corporate_tax in
  let actual_dividends := Py.min dividends (Py.max 0 profit_after_tax) in
  let taxable_salary := (gross_salary - gross_salary * 0.22) * 0.9 in
  let income_tax_salary :=
    if taxable_salary <=? 0 then 0
    else income_tax_loop (taxable_salary / 1) None
           (income_tax_brackets (init s)) 0 * 1 in
  let vat_to_pay := Py.max 0 (revenue * vat_rate - expenses * vat_rate) in
  exists (dividend_tax : gmap string float) (social flat total net : float),
    calculate_dividends_taxation (init s) actual_dividends = Ok dividend_tax
    /\ dividend_tax !! "social_charges" = Some social
    /\ dividend_tax !! "income_tax" = Some flat
    /\ dividend_tax !! "total_tax" = Some total
    /\ dividend_tax !! "net_dividends" = Some net
    /\ let total_taxes :=
         gross_salary * 0.42 + gross_salary * 0.22 + corporate_tax + total
         + income_tax_salary + vat_to_pay in
       calculate_complete_taxation (init s)
         gross_salary dividends revenue expenses vat_rate
       = Ok {[ "input" := {[ "gross_salary" := gross_salary;
                             "dividends" := dividends;
                             "revenue" := revenue;
                             "expenses" := expenses ]};
               "salary" := salary_charges;
               "corporate" :=
                 {[ "profit_before_tax" := profit_before_tax;
                    "corporate_tax" := corporate_tax;
                    "profit_after_tax" := profit_after_tax;
                    "available_for_dividends" := Py.max 0 profit_after_tax ]};
               "dividends" := dividend_tax;
               "income_tax" :=
                 {[ "taxable_salary" := taxable_salary;
                    "tax_on_salary" := income_tax_salary;
                    "total" := income_tax_salary + flat ]};
               "vat" := calculate_vat revenue expenses vat_rate;
               "summary" :=
                 {[ "total_social_charges" :=
                      gross_salary * 0.42 + gross_salary * 0.22 + social;
                    "total_corporate_tax" := corporate_tax;
                    "total_income_tax" := income_tax_salary + flat;
                    "total_vat" := vat_to_pay;
                    "total_taxes" := total_taxes;
                    "net_income" :=
                      gross_salary - gross_salary * 0.22 - income_tax_salary
                      + net;
                    "effective_tax_rate" :=
                      if 0 <? revenue then total_taxes / revenue else 0 ]} ]}.
Proof.
  intros salary_charges profit_before_tax corporate_tax profit_after_tax
    actual_dividends taxable_salary income_tax_salary vat_to_pay.
  destruct (dividends_taxation_keys actual_dividends)
    as (dividend_tax & social & flat & total & net & Hdiv & Hs & Hf & Ht & Hn).
  exists dividend_tax, social, flat, total, net.
  repeat (split; [assumption|]). intros total_taxes.
  unfold calculate_complete_taxation.
  rewrite social_charges_eq, bind_Ok. fold salary_charges.
  erewrite (getitem_Some salary_charges "total_cost_to_company")
    by (unfold salary_charges; lookup_literal; reflexivity).
  rewrite bind_Ok. cbv zeta.
  fold profit_before_tax. fold corporate_tax. fold profit_after_tax.
  fold actual_dividends. rewrite Hdiv, bind_Ok.
  erewrite (getitem_Some salary_charges "net_salary")
    by (unfold salary_charges; lookup_literal; reflexivity).
  rewrite bind_Ok. fold taxable_salary.
  rewrite income_tax_default_parts, bind_Ok. fold income_tax_salary.
  erewrite (getitem_Some salary_charges "total_social_charges")
    by (unfold salary_charges; lookup_literal; reflexivity).
  rewrite bind_Ok.
  rewrite (getitem_Some _ _ _ Hs), bind_Ok.
  rewrite (getitem_Some _ _ _ Hf), bind_Ok.
  rewrite (getitem_Some _ _ _ Ht), bind_Ok.
  erewrite (getitem_Some (calculate_vat _ _ _) "vat_to_pay")
    by (unfold calculate_vat; lookup_literal; reflexivity).
  rewrite bind_Ok.
  rewrite (getitem_Some _ _ _ Hn), bind_Ok.
  fold vat_to_pay. fold total_taxes.
  rewrite guarded_rate, bind_Ok.
  reflexivity.
Qed.

End Complete.

(** ** Corporate tax *)

Section CorporateTax.

Variable s : Settings.

Lemma corporate_tax_nonpos (profit : float) :
  (profit <=? 0) = true -> calculate_corporate_tax (init s) profit = 0.
Proof. unfold calculate_corporate_tax. now intros ->. Qed.

(** Up to the boundary, boundary included, only the first rate applies. *)
Lemma corporate_tax_first_bracket (profit : float) :
  (0 <? profit) = true -> (profit <=? 42500) = true ->
  calculate_corporate_tax (init s) profit = profit * 0.15.
Proof.
  intros Hpos Hle. unfold calculate_corporate_tax.
  rewrite (FloatOrder.pos_not_le0 _ Hpos).
  cbn [init corporate_tax_rates corporate_tax_loop].
  rewrite (FloatOrder.pos_not_le0 _ Hpos).
  unfold Py.min. rewrite (FloatOrder.le_not_gt _ _ Hle).
  change (42500 =? first_threshold (init s)) with true. cbv iota.
  change (0 <=? 0) with true. cbv iota.
  apply FloatArith.add_zero_l, FloatArith.mul_pos_not_neg_zero;
    [exact Hpos|reflexivity].
Qed.

(** Above the boundary the first 42500 are taxed at the first rate and
    what is left, [profit - 42500], which is positive, at the second. *)
Lemma corporate_tax_second_bracket (profit : float) :
  (42500 <? profit) = true ->
  calculate_corporate_tax (init s) profit
  = 42500 * 0.15 + (profit - 42500) * 0.25.
Proof.
  intros Hgt. unfold calculate_corporate_tax.
  assert (Hpos : (profit <=? 0) = false).
  { revert Hgt. rewrite FloatAxioms.ltb_spec, FloatAxioms.leb_spec.
    change (Prim2SF 42500) with (S754_finite false 5841155522560000 (-37)).
    FloatOrder.by_class profit. }
  rewrite Hpos.
  cbn [init corporate_tax_rates corporate_tax_loop]. rewrite Hpos.
  unfold Py.min. rewrite Hgt.
  change (42500 =? first_threshold (init s)) with true. cbv iota.
  rewrite (FloatArith.sub_pos profit 42500) by (reflexivity || exact Hgt).
  rewrite FloatOrder.nothing_above_infinity. reflexivity.
Qed.

End CorporateTax.

Lemma observe_Ok section key result :
  observe section key (Ok result) = Ok (field result section key).
Proof. reflexivity. Qed.

(** ** Determinism *)

Section SameRates.

Variables a b : FrenchTaxCalculator.
Hypothesis Hsocial : social_charges_rates a = social_charges_rates b.
Hypothesis Hcorporate : corporate_tax_rates a = corporate_tax_rates b.
Hypothesis Hincome : income_tax_brackets a = income_tax_brackets b.

Lemma social_charges_same gross_salary :
  calculate_social_charges_on_salary a gross_salary
  = calculate_social_charges_on_salary b gross_salary.
Proof. unfold calculate_social_charges_on_salary. now rewrite Hsocial. Qed.

Lemma corporate_tax_loop_same profit rates tax remaining :
  corporate_tax_loop a profit rates tax remaining
  = corporate_tax_loop b profit rates tax remaining.
Proof.
  revert tax remaining.
  induction rates as [|[threshold rate] rates IH]; intros tax remaining;
    cbn [corporate_tax_loop]; [reflexivity|].
  unfold first_threshold. rewrite Hcorporate.
  destruct (remaining <=? 0); [reflexivity|]. apply IH.
Qed.

Lemma corporate_tax_same profit :
  calculate_corporate_tax a profit = calculate_corporate_tax b profit.
Proof.
  unfold calculate_corporate_tax.
  now rewrite corporate_tax_loop_same, Hcorporate.
Qed.

Lemma income_tax_same taxable_income parts :
  calculate_income_tax a taxable_income parts
  = calculate_income_tax b taxable_income parts.
Proof. unfold calculate_income_tax. now rewrite Hincome. Qed.

Lemma dividends_taxation_same dividends :
  calculate_dividends_taxation a dividends
  = calculate_dividends_taxation b dividends.
Proof. unfold calculate_dividends_taxation. now rewrite Hsocial. Qed.

Lemma complete_taxation_same gross_salary dividends revenue expenses vat_rate :
  calculate_complete_taxation a gross_salary dividends revenue expenses vat_rate
  = calculate_complete_taxation b gross_salary dividends revenue expenses vat_rate.
Proof.
  unfold calculate_complete_taxation. rewrite social_charges_same.
  apply bind_ext; intros salary_charges.
  apply bind_ext; intros total_salary_cost. cbv zeta.
  rewrite corporate_tax_same, dividends_taxation_same.
  apply bind_ext; intros dividend_tax.
  apply bind_ext; intros net_salary.
  now rewrite income_tax_same.
Qed.

End SameRates.

(** ** The optimizer: fuel *)

Lemma bind_fuel {A B} (m : res A) (f : A -> res B) :
  (m ≫= f) <> OutOfFuel -> m <> OutOfFuel.
Proof. destruct m; cbn; congruence. Qed.

Lemma bind_ext_Ok {A B} (m : res A) (f g : A -> res B) :
  (forall a, m = Ok a -> f a = g a) -> (m ≫= f) = (m ≫= g).
Proof. intros Hfg. destruct m as [a| |]; cbn; auto. Qed.

Section Fuel.

Variable self : FrenchTaxCalculator.

Lemma binary_search_unfold fuel test_salary target revenue expenses low high :
  binary_search self fuel test_salary target revenue expenses low high
  = if 100 <? high - low then
      match fuel with
      | O => OutOfFuel
      | S fuel =>
          result ← calculate_complete_taxation self test_salary
                     ((low + high) / 2) revenue expenses default_vat_rate;
          summary ← result.["summary"];
          net_income ← summary.["net_income"];
          if net_income <? target
          then binary_search self fuel test_salary target revenue expenses
                 ((low + high) / 2) high
          else binary_search self fuel test_salary target revenue expenses
                 low ((low + high) / 2)
      end
    else mret (low, high).
Proof. destruct fuel; reflexivity. Qed.

(** A bisection that ends within its fuel ends the same way with more. *)
Lemma binary_search_more_fuel fuel fuel' test_salary target revenue expenses :
  fuel <= fuel' ->
  forall low high,
    binary_search self fuel test_salary target revenue expenses low high
    <> OutOfFuel ->
    binary_search self fuel' test_salary target revenue expenses low high
    = binary_search self fuel test_salary target revenue expenses low high.
Proof.
  revert fuel'. induction fuel as [|fuel IH]; intros fuel' Hle low high.
  - rewrite (binary_search_unfold 0), (binary_search_unfold fuel').
    destruct (100 <? high - low); [congruence|reflexivity].
  - rewrite (binary_search_unfold (S fuel)), (binary_search_unfold fuel').
    destruct (100 <? high - low); [|reflexivity].
    destruct fuel' as [|fuel']; [lia|]. intros Hends.
    apply bind_ext_Ok; intros result Hresult. rewrite Hresult, bind_Ok in Hends.
    apply bind_ext_Ok; intros summary Hsummary.
    rewrite Hsummary, bind_Ok in Hends.
    apply bind_ext_Ok; intros net_income Hnet.
    rewrite Hnet, bind_Ok in Hends.
    destruct (net_income <? target); apply IH; (lia || assumption).
Qed.

Lemma salary_loop_body_more_fuel fuel fuel'
    target revenue expenses min_salary max_salary st i :
  fuel <= fuel' ->
  salary_loop_body self fuel target revenue expenses min_salary max_salary st i
  <> OutOfFuel ->
  salary_loop_body self fuel' target revenue expenses min_salary max_salary st i
  = salary_loop_body self fuel target revenue expenses min_salary max_salary st i.
Proof.
  intros Hle. unfold salary_loop_body. intros Hends.
  apply bind_ext_Ok; intros salary_result Hsalary.
  rewrite Hsalary, bind_Ok in Hends.
  apply bind_ext_Ok; intros total_cost Hcost.
  rewrite Hcost, bind_Ok in Hends. cbv zeta in Hends |- *.
  destruct (_ <=? 0); [reflexivity|].
  destruct (_ <=? 0); [reflexivity|].
  apply bind_fuel in Hends.
  now rewrite (binary_search_more_fuel _ _ _ _ _ _ Hle _ _ Hends).
Qed.

Lemma for_each_more_fuel {A S} (body body' : S -> A -> res S) xs :
  (forall st x, body st x <> OutOfFuel -> body' st x = body st x) ->
  forall st, for_each body xs st <> OutOfFuel ->
             for_each body' xs st = for_each body xs st.
Proof.
  intros Hbody. induction xs as [|x xs IH]; intros st; cbn [for_each];
    [reflexivity|].
  intros Hends. rewrite (Hbody _ _ (bind_fuel _ _ Hends)).
  apply bind_ext_Ok; intros st' Hst'. rewrite Hst', bind_Ok in Hends. auto.
Qed.

(** The optimizer's outcome, once it is not [OutOfFuel], is the same for
    every larger fuel. *)
Lemma optimize_remuneration_more_fuel fuel fuel'
    target revenue expenses constraints :
  fuel <= fuel' ->
  optimize_remuneration self fuel target revenue expenses constraints
  <> OutOfFuel ->
  optimize_remuneration self fuel' target revenue expenses constraints
  = optimize_remuneration self fuel target revenue expenses constraints.
Proof.
  intros Hle. unfold optimize_remuneration. cbv zeta. intros Hends.
  erewrite for_each_more_fuel; [reflexivity| |exact (bind_fuel _ _ Hends)].
  intros st i. now apply salary_loop_body_more_fuel.
Qed.

End Fuel.

(** ** The optimizer: what the salary loop maintains *)

Lemma for_each_invariant {A S} (P : S -> Prop) (body : S -> A -> res S) xs :
  (forall st x st', In x xs -> P st -> body st x = Ok st' -> P st') ->
  forall st st', P st -> for_each body xs st = Ok st' -> P st'.
Proof.
  induction xs as [|x xs IH]; intros Hbody st st' HP; cbn [for_each].
  - now intros [= <-].
  - intros Hrun. apply bind_inv in Hrun as (st1 & Hstep & Hrun).
    eapply IH; [| |exact Hrun].
    + intros ? ? ? Hin. apply Hbody. now right.
    + eapply Hbody; [now left|exact HP|exact Hstep].
Qed.

Lemma field_getitem (result : gmap string (gmap string float))
    section key (entries : gmap string float) (v : float) :
  result.[section] = Ok entries -> entries.[key] = Ok v ->
  field result section key = Some v.
Proof.
  intros Hsection%getitem_inv Hkey%getitem_inv.
  unfold field. now rewrite Hsection.
Qed.

Section SalaryLoop.

Variable self : FrenchTaxCalculator.
Variables target revenue expenses min_salary max_salary : float.

Lemma salary_loop_body_invariant fuel st i st' :
  In i salary_range ->
  search_invariant self target revenue expenses min_salary max_salary st ->
  salary_loop_body self fuel target revenue expenses min_salary max_salary st i
  = Ok st' ->
  search_invariant self target revenue expenses min_salary max_salary st'.
Proof.
  intros Hi Hinv. unfold salary_loop_body. intros Hstep.
  apply bind_inv in Hstep as (salary_result & _ & Hstep).
  apply bind_inv in Hstep as (total_cost & _ & Hstep).
  cbv zeta in Hstep.
  destruct (_ <=? 0); [now injection Hstep as <-|].
  destruct (_ <=? 0); [now injection Hstep as <-|].
  apply bind_inv in Hstep as (bounds & _ & Hstep).
  apply bind_inv in Hstep as (result & Hresult & Hstep).
  apply bind_inv in Hstep as (summary & Hsummary & Hstep).
  apply bind_inv in Hstep as (net_income & Hnet & Hstep).
  destruct (abs (net_income - target) <? 1000) eqn:Hclose;
    [|now injection Hstep as <-].
  apply bind_inv in Hstep as (summary' & _ & Hstep).
  apply bind_inv in Hstep as (total_taxes & _ & Hstep).
  destruct (total_taxes <? min_total_tax st); [|now injection Hstep as <-].
  apply bind_inv in Hstep as (summary'' & _ & Hstep).
  apply bind_inv in Hstep as (total_taxes' & _ & Hstep).
  injection Hstep as <-. unfold search_invariant. cbn.
  split; [exact Hresult|]. exists i, net_income.
  repeat split; try assumption.
  exact (field_getitem _ _ _ _ _ Hsummary Hnet).
Qed.

Lemma salary_loop_invariant fuel st st' :
  search_invariant self target revenue expenses min_salary max_salary st ->
  for_each
    (salary_loop_body self fuel target revenue expenses min_salary max_salary)
    salary_range st = Ok st' ->
  search_invariant self target revenue expenses min_salary max_salary st'.
Proof.
  apply (for_each_invariant
           (search_invariant self target revenue expenses min_salary max_salary)).
  intros ? ? ? Hin Hinv. now apply salary_loop_body_invariant.
Qed.

End SalaryLoop.

(** ** The optimizer: its result *)

Section OptimizerResult.

Variable self : FrenchTaxCalculator.

(** Whatever [optimize_remuneration] returns is the breakdown computed at
    the default VAT rate for the salary and dividends it returns, which are
    either the fallback pair or an accepted sample. *)
Lemma optimize_remuneration_result fuel target revenue expenses constraints r :
  optimize_remuneration self fuel target revenue expenses constraints = Ok r ->
  let min_salary :=
    Py.get (default ∅ constraints) "min_salary" (smic_annual self) in
  let max_salary :=
    Py.get (default ∅ constraints) "max_salary" (revenue * 0.8) in
  calculate_complete_taxation self (optimal_gross_salary r)
    (optimal_dividends r) revenue expenses default_vat_rate
  = Ok (full_calculation r)
  /\ field (full_calculation r) "summary" "net_income"
     = Some (net_income_achieved r)
  /\ ((optimal_gross_salary r = min_salary /\ optimal_dividends r = 0)
      \/ exists i : nat,
           In i salary_range
           /\ optimal_gross_salary r = test_salary_at min_salary max_salary i
           /\ (abs (net_income_achieved r - target) <? 1000) = true).
Proof.
  unfold optimize_remuneration. cbv zeta.
  set (min_salary := Py.get _ "min_salary" _).
  set (max_salary := Py.get _ "max_salary" _).
  intros Hrun.
  apply bind_inv in Hrun as (st & Hloop & Hrun).
  apply salary_loop_invariant in Hloop; [|now split].
  apply bind_inv in Hrun as ([[salary dividends] best] & Hfallback & Hrun).
  assert (Hbest :
            calculate_complete_taxation self salary dividends
              revenue expenses default_vat_rate = Ok best
            /\ ((salary = min_salary /\ dividends = 0)
                \/ exists (i : nat) (net_income : float),
                     In i salary_range
                     /\ salary = test_salary_at min_salary max_salary i
                     /\ field best "summary" "net_income" = Some net_income
                     /\ (abs (net_income - target) <? 1000) = true)).
  { unfold search_invariant in Hloop.
    destruct (best_result st) as [result|].
    - injection Hfallback as <- <- <-.
      destruct Hloop as (Hcalc & i & net_income & Hsample).
      split; [exact Hcalc|]. right. eauto.
    - apply bind_inv in Hfallback as (fallback & Hcalc & Hfallback).
      injection Hfallback as <- <- <-. auto. }
  destruct Hbest as (Hcalc & Hwhich).
  apply bind_inv in Hrun as (summary & Hsummary & Hrun).
  apply bind_inv in Hrun as (net_income & Hnet & Hrun).
  apply bind_inv in Hrun as (summary1 & _ & Hrun).
  apply bind_inv in Hrun as (total_taxes & _ & Hrun).
  apply bind_inv in Hrun as (summary2 & _ & Hrun).
  apply bind_inv in Hrun as (rate & _ & Hrun).
  apply bind_inv in Hrun as (summary3 & _ & Hrun).
  injection Hrun as <-. cbn.
  pose proof (field_getitem _ _ _ _ _ Hsummary Hnet) as Hfield.
  split; [exact Hcalc|]. split; [exact Hfield|].
  destruct Hwhich as [Hmin|(i & net_income' & Hin & Hsample & Hfield' & Hclose)];
    [now left|right].
  exists i. rewrite Hfield in Hfield'. injection Hfield' as <-. auto.
Qed.

End OptimizerResult.

Lemma optimum_inv r salary dividends net_income :
  optimum r = Ok (salary, dividends, net_income) ->
  exists result,
    r = Ok result
    /\ optimal_gross_salary result = salary
    /\ optimal_dividends result = dividends
    /\ net_income_achieved result = net_income.
Proof.
  intros Hr. apply bind_inv in Hr as (result & -> & [= <- <- <-]). eauto.
Qed.

Lemma scenario_optimizer_run :
  optimum (optimize_remuneration (init settings) 9 50000 120000 30000 (Some ∅))
  = Ok (20966.399999999998, 48600.321765624998, 49997.331827937494).
Proof. vm_compute. reflexivity. Qed.

(** ** The fallback *)

Lemma for_each_skip {A S} (body : S -> A -> res S) xs st :
  (forall x, In x xs -> body st x = Ok st) -> for_each body xs st = Ok st.
Proof.
  induction xs as [|x xs IH]; intros Hskip; cbn [for_each]; [reflexivity|].
  rewrite (Hskip x) by now left. rewrite bind_Ok. apply IH.
  intros ? ?. apply Hskip. now right.
Qed.

Lemma salary_loop_body_skipped self fuel
    target revenue expenses min_salary max_salary st i :
  skipped self revenue expenses (test_salary_at min_salary max_salary i) ->
  salary_loop_body self fuel target revenue expenses min_salary max_salary st i
  = Ok st.
Proof.
  intros (salary_result & total_cost & Hsalary & Hcost & Hskip).
  unfold salary_loop_body.
  rewrite Hsalary, bind_Ok, (getitem_Some _ _ _ Hcost), bind_Ok. cbv zeta.
  destruct Hskip as [Hnone | Hnothing].
  - rewrite Hnone. reflexivity.
  - rewrite Hnothing.
    destruct (revenue - expenses - total_cost <=? 0); reflexivity.
Qed.

(** ** The optimizer: the least total tax *)

Lemma for_each_prefix {A S} (P : list A -> S -> Prop)
    (body : S -> A -> res S) :
  (forall seen x st st',
     P seen st -> body st x = Ok st' -> P (seen ++ [x]) st') ->
  forall xs seen st st',
    P seen st -> for_each body xs st = Ok st' -> P (seen ++ xs) st'.
Proof.
  intros Hbody. induction xs as [|x xs IH]; intros seen st st' HP;
    cbn [for_each].
  - intros [= <-]. now rewrite app_nil_r.
  - intros Hrun. apply bind_inv in Hrun as (st1 & Hstep & Hrun).
    replace (seen ++ x :: xs) with ((seen ++ [x]) ++ xs)
      by now rewrite <- app_assoc.
    eapply IH; [|exact Hrun]. eapply Hbody; eassumption.
Qed.

Section OptimizerMinimum.

Variable self : FrenchTaxCalculator.
Variable fuel : nat.
Variables target revenue expenses min_salary max_salary : float.

Local Notation "'step'" :=
  (salary_loop_body self fuel target revenue expenses min_salary max_salary).

(** What the body of the loop does with a sample does not depend on the
    state, but for the comparison with the least total tax: a sample either
    leaves every state as it is, or proposes one candidate, which replaces
    the states whose least total tax is above the candidate's. *)
Lemma salary_loop_body_cases st0 st0' i :
  step st0 i = Ok st0' ->
  (forall st, step st i = Ok st)
  \/ exists (total_taxes test_dividends : float)
            (result : gmap string (gmap string float)),
       field result "summary" "total_taxes" = Some total_taxes
       /\ forall st,
            step st i
            = Ok (if total_taxes <? min_total_tax st
                  then {| best_salary := test_salary_at min_salary max_salary i;
                          best_dividends := test_dividends;
                          min_total_tax := total_taxes;
                          best_result := Some result |}
                  else st).
Proof.
  unfold salary_loop_body. intros Hstep.
  apply bind_inv in Hstep as (salary_result & Hsalary & Hstep).
  apply bind_inv in Hstep as (total_cost & Hcost & Hstep).
  cbv zeta in Hstep |- *.
  rewrite Hsalary. cbn [mbind res_bind]. rewrite Hcost. cbn [mbind res_bind].
  destruct (revenue - expenses - total_cost <=? 0); [now left|].
  destruct (revenue - expenses - total_cost
            - calculate_corporate_tax self (revenue - expenses - total_cost)
            <=? 0); [now left|].
  apply bind_inv in Hstep as (bounds & Hbounds & Hstep).
  rewrite Hbounds. cbn [mbind res_bind].
  apply bind_inv in Hstep as (result & Hresult & Hstep).
  rewrite Hresult. cbn [mbind res_bind].
  apply bind_inv in Hstep as (summary & Hsummary & Hstep).
  rewrite Hsummary in Hstep |- *. cbn [mbind res_bind] in Hstep |- *.
  apply bind_inv in Hstep as (net_income & Hnet & Hstep).
  rewrite Hnet. cbn [mbind res_bind].
  destruct (abs (net_income - target) <? 1000); [|now left].
  apply bind_inv in Hstep as (total_taxes & Htotal & Hstep).
  rewrite Htotal. cbn [mbind res_bind].
  right. exists total_taxes, ((fst bounds + snd bounds) / 2), result.
  split; [exact (field_getitem _ _ _ _ _ Hsummary Htotal)|].
  intros st. now destruct (total_taxes <? min_total_tax st).
Qed.

(** A sample that does not improve on a least total tax does not improve
    on a smaller one, nor, if it does not improve on infinity, on any. *)
Lemma no_gain_below i m m' :
  (forall st, min_total_tax st = m -> step st i = Ok st) ->
  (m' <? m) = true \/ m = infinity ->
  forall st, min_total_tax st = m' -> step st i = Ok st.
Proof.
  intros Hno Hm st Hst.
  pose proof (Hno {| best_salary := 0; best_dividends := 0;
                     min_total_tax := m; best_result := None |} eq_refl)
    as Hprobe.
  destruct (salary_loop_body_cases _ _ _ Hprobe)
    as [Hskip|(t & d & result & _ & Hcandidate)]; [apply Hskip|].
  rewrite Hcandidate in Hprobe |- *. cbn [min_total_tax] in Hprobe.
  destruct (t <? m) eqn:Htm; [discriminate Hprobe|].
  rewrite Hst.
  assert (Hlt : (t <? m') = false).
  { destruct Hm as [Hlt| ->].
    - destruct (t <? m') eqn:Htm'; [|reflexivity].
      now rewrite (FloatCompare.ltb_trans _ _ _ Htm' Hlt) in Htm.
    - now apply FloatCompare.not_below_infinity. }
  now rewrite Hlt.
Qed.

(** After the loop, the least total tax is the total of the best result,
    or infinity without one, and no sample improves on it. *)
Lemma salary_loop_minimum st :
  for_each step salary_range
    {| best_salary := min_salary; best_dividends := 0;
       min_total_tax := infinity; best_result := None |} = Ok st ->
  match best_result st with
  | None => min_total_tax st = infinity
  | Some result =>
      field result "summary" "total_taxes" = Some (min_total_tax st)
  end
  /\ forall i, In i salary_range ->
       forall st', min_total_tax st' = min_total_tax st -> step st' i = Ok st'.
Proof.
  apply (for_each_prefix
           (fun seen st =>
              match best_result st with
              | None => min_total_tax st = infinity
              | Some result =>
                  field result "summary" "total_taxes"
                  = Some (min_total_tax st)
              end
              /\ forall i, In i seen ->
                   forall st', min_total_tax st' = min_total_tax st ->
                               step st' i = Ok st')
           step) with (seen := []).
  - intros seen x st0 st1 [Hlink Hseen] Hrun.
    destruct (salary_loop_body_cases _ _ _ Hrun)
      as [Hskip|(t & d & result & Hfield & Hcandidate)].
    + rewrite Hskip in Hrun. injection Hrun as <-. split; [exact Hlink|].
      intros i [Hin|[<-|[]]]%in_app_or; [now apply Hseen|].
      intros st' _. apply Hskip.
    + rewrite Hcandidate in Hrun. injection Hrun as <-.
      destruct (t <? min_total_tax st0) eqn:Hlt.
      * cbn [best_result min_total_tax]. split; [exact Hfield|].
        intros i [Hin|[<-|[]]]%in_app_or st' Hst'.
        -- apply (no_gain_below i (min_total_tax st0) t);
             [now apply Hseen|now left|exact Hst'].
        -- now rewrite Hcandidate, Hst', FloatCompare.ltb_irrefl.
      * split; [exact Hlink|].
        intros i [Hin|[<-|[]]]%in_app_or st' Hst'; [now apply Hseen|].
        now rewrite Hcandidate, Hst', Hlt.
  - split; [reflexivity|]. intros i [].
Qed.

End OptimizerMinimum.

(** No sample improves on the total tax of the result. *)
Lemma optimize_remuneration_no_gain (self : FrenchTaxCalculator)
    (fuel : nat) (target revenue expenses : float)
    (constraints : option (gmap string float)) (r : OptimizationResult) :
  optimize_remuneration self fuel target revenue expenses constraints = Ok r ->
  let min_salary :=
    Py.get (default ∅ constraints) "min_salary" (smic_annual self) in
  let max_salary :=
    Py.get (default ∅ constraints) "max_salary" (revenue * 0.8) in
  forall (i : nat) (st : search_state),
    In i salary_range ->
    min_total_tax st = total_tax_burden r ->
    salary_loop_body self fuel target revenue expenses min_salary max_salary
      st i = Ok st.
Proof.
  unfold optimize_remuneration. cbv zeta.
  set (min_salary := Py.get _ "min_salary" _).
  set (max_salary := Py.get _ "max_salary" _).
  intros Hrun.
  apply bind_inv in Hrun as (st0 & Hloop & Hrun).
  apply salary_loop_minimum in Hloop as [Hlink Hseen].
  apply bind_inv in Hrun as ([[salary dividends] best] & Hbest & Hrun).
  apply bind_inv in Hrun as (summary & _ & Hrun).
  apply bind_inv in Hrun as (net_income & _ & Hrun).
  apply bind_inv in Hrun as (summary1 & Hsummary1 & Hrun).
  apply bind_inv in Hrun as (total_taxes & Htotal & Hrun).
  apply bind_inv in Hrun as (summary2 & _ & Hrun).
  apply bind_inv in Hrun as (rate & _ & Hrun).
  apply bind_inv in Hrun as (summary3 & _ & Hrun).
  injection Hrun as <-. cbn [total_tax_burden].
  intros i st Hi Hst.
  destruct (best_result st0) as [result|].
  - injection Hbest as <- <- <-.
    rewrite (field_getitem _ _ _ _ _ Hsummary1 Htotal) in Hlink.
    injection Hlink as Hlink. apply (Hseen i Hi). congruence.
  - eapply no_gain_below; [apply (Hseen i Hi)|right; exact Hlink|exact Hst].
Qed.

(** ** The cap on the dividends *)

(** When the dividends requested exceed the profit after tax, what the cap
    leaves, [max(0, profit_after_tax)], is the amount requested only when
    that amount is zero. *)
Lemma capped_is_requested (profit_after_tax dividends : float) :
  (profit_after_tax <? dividends) = true ->
  (Py.max 0 profit_after_tax =? dividends) = (dividends =? 0).
Proof.
  intros Hlt. unfold Py.max. destruct (0 <? profit_after_tax) eqn:Hpos.
  - assert (Hne : (profit_after_tax =? dividends) = false).
    { revert Hlt. rewrite FloatAxioms.ltb_spec, FloatAxioms.eqb_spec.
      unfold SFltb, SFeqb. destruct (SFcompare _ _) as [[]|]; congruence. }
    rewrite Hne. symmetry. apply FloatOrder.pos_not_zero.
    exact (FloatCompare.ltb_trans _ _ _ Hpos Hlt).
  - rewrite !FloatAxioms.eqb_spec. change (Prim2SF 0) with (S754_zero false).
    now destruct (Prim2SF dividends) as [[]|[]| |[] m e].
Qed.

(** NaN is not positive. *)
Lemma nan_not_pos (x : float) : (x =? x) = false -> (0 <? x) = false.
Proof.
  rewrite FloatAxioms.ltb_spec, FloatAxioms.eqb_spec. unfold SFeqb.
  destruct (Prim2SF x) as [[]|[]| |[] m e]; cbn; try congruence.
  rewrite Z.compare_refl.
  change (PosDef.Pos.compare_cont Eq m m) with (Pos.compare m m).
  now rewrite Pos.compare_refl.
Qed.

(** The [dividends] entry of a breakdown: the dividends, or 0 when they are
    not positive. *)
Lemma dividends_taxation_entry (s : Settings) (dividends : float)
    (dividend_tax : gmap string float) :
  calculate_dividends_taxation (init s) dividends = Ok dividend_tax ->
  dividend_tax !! "dividends"
  = Some (if dividends <=? 0 then 0 else dividends).
Proof.
  destruct (dividends <=? 0) eqn:Hsign.
  - rewrite dividends_taxation_nonpos by exact Hsign. intros [= <-].
    unfold zero_breakdown. lookup_literal. reflexivity.
  - rewrite dividends_taxation_pos by exact Hsign. intros [= <-].
    lookup_literal. reflexivity.
Qed.

(** * The claims *)

(** C1, as stated, fails in its clause that the dividends returned are
    never the requested value: with a salary of 40000, a revenue of 60000
    and expenses of 10000 the profit after tax is -6800; dividends of 0
    exceed it, and the dividends returned are 0, the requested value. *)
Lemma capped_dividends_can_be_the_request :
  let requested := 0 in
  observe "corporate" "profit_after_tax"
    (calculate_complete_taxation (init settings) 40000 requested 60000 10000
       0.20)
  = Ok (Some (-6800))
  /\ (-6800 <? requested) = true
  /\ observe "dividends" "dividends"
       (calculate_complete_taxation (init settings) 40000 requested 60000
          10000 0.20)
     = Ok (Some requested).
Proof. repeat split; vm_compute; reflexivity. Qed.

(** C1, as the code has it.  For every input, [calculate_complete_taxation]
    returns (the cap raises nothing).  The profit after tax is the profit
    before tax, that is the revenue less the expenses and the total cost of
    the salary, less the corporate tax on it; the dividend section of the
    result is the taxation of [min(dividends, max(0, profit_after_tax))],
    whose [dividends] entry is that amount, or 0 when it is not positive.
    When the requested dividends exceed the profit after tax, the entry is
    [max(0, profit_after_tax)]; it is then equal to the requested value
    exactly when the requested value is zero. *)
Theorem dividends_capped_at_profit_after_tax (s : Settings)
    (gross_salary dividends revenue expenses vat_rate : float) :
  exists (result : gmap string (gmap string float))
         (salary dividend_tax : gmap string float) (total_cost : float),
    calculate_complete_taxation (init s)
      gross_salary dividends revenue expenses vat_rate = Ok result
    /\ calculate_social_charges_on_salary (init s) gross_salary = Ok salary
    /\ salary !! "total_cost_to_company" = Some total_cost
    /\ let profit_before_tax := revenue - expenses - total_cost in
       let profit_after_tax :=
         profit_before_tax
         - calculate_corporate_tax (init s) profit_before_tax in
       let actual_dividends :=
         Py.min dividends (Py.max 0 profit_after_tax) in
       field result "corporate" "profit_after_tax" = Some profit_after_tax
       /\ calculate_dividends_taxation (init s) actual_dividends
          = Ok dividend_tax
       /\ result !! "dividends" = Some dividend_tax
       /\ dividend_tax !! "dividends"
          = Some (if actual_dividends <=? 0 then 0 else actual_dividends)
       /\ ((profit_after_tax <? dividends) = true ->
           dividend_tax !! "dividends" = Some (Py.max 0 profit_after_tax)
           /\ (Py.max 0 profit_after_tax =? dividends) = (dividends =? 0)).
Proof.
  destruct (complete_taxation_eq s gross_salary dividends revenue expenses vat_rate)
    as (dividend_tax & social & flat & total & net & Hdiv & _ & _ & _ & _ & Heq).
  cbv zeta in Heq, Hdiv.
  eexists _, _, dividend_tax, (gross_salary + gross_salary * 0.42).
  split; [exact Heq|]. split; [apply social_charges_eq|].
  split; [lookup_literal; reflexivity|]. cbv zeta.
  set (profit_after_tax :=
         revenue - expenses - (gross_salary + gross_salary * 0.42)
         - calculate_corporate_tax (init s)
             (revenue - expenses - (gross_salary + gross_salary * 0.42))) in *.
  split.
  { unfold field. lookup_literal. cbn. lookup_literal. reflexivity. }
  split; [exact Hdiv|]. split.
  { lookup_literal. reflexivity. }
  split; [exact (dividends_taxation_entry s _ _ Hdiv)|].
  intros Hexceeds. split; [|exact (capped_is_requested _ _ Hexceeds)].
  revert Hdiv. unfold Py.max, Py.min.
  destruct (0 <? profit_after_tax) eqn:Hpat.
  - rewrite Hexceeds, (dividends_taxation_pos s) by now apply FloatOrder.pos_not_le0.
    intros [= <-]. lookup_literal. reflexivity.
  - destruct (0 <? dividends) eqn:Hd.
    + rewrite (dividends_taxation_nonpos s) by reflexivity.
      intros [= <-]. unfold zero_breakdown. lookup_literal. reflexivity.
    + rewrite (dividends_taxation_nonpos s)
        by exact (FloatOrder.above_not_pos_le0 _ _ Hexceeds Hd).
      intros [= <-]. unfold zero_breakdown. lookup_literal. reflexivity.
Qed.

(** The spec's second scenario: 100000 requested out of a profit after tax
    of 4250. *)
Lemma dividends_capped_at_profit_after_tax_witness :
  (4250 <? 100000) = true
  /\ exists result,
       calculate_complete_taxation (init settings) 0 100000 60000 55000 0.20
       = Ok result
       /\ field result "corporate" "profit_after_tax" = Some 4250
       /\ field result "dividends" "dividends" = Some 4250.
Proof.
  split; [reflexivity|].
  destruct (dividends_capped_at_profit_after_tax settings 0 100000 60000 55000 0.20)
    as (result & salary & dividend_tax & total_cost & Hres & Hsalary & Hcost
        & Hpat & _ & Hdiv & _ & Hcap).
  rewrite social_charges_eq in Hsalary. injection Hsalary as <-.
  revert Hcost. lookup_literal. intros [= <-].
  exists result. split; [exact Hres|]. split; [exact Hpat|].
  unfold field. rewrite Hdiv. apply Hcap. reflexivity.
Defined.

(** C2.  [calculate_corporate_tax] is 0 on every profit that is not
    positive.  On a positive profit it walks the brackets upwards: a profit
    up to 42500, the boundary included, is taxed at 15% only; above the
    boundary the first 42500 are taxed at 15% and the remainder
    [profit - 42500] at 25%.  In particular the tax on 42500 is
    [42500 * 0.15] and the tax on 42501 is [42500 * 0.15 + 1 * 0.25]. *)
Theorem calculate_corporate_tax_brackets (s : Settings) :
  (forall profit, (profit <=? 0) = true ->
     calculate_corporate_tax (init s) profit = 0)
  /\ (forall profit, (0 <? profit) = true -> (profit <=? 42500) = true ->
        calculate_corporate_tax (init s) profit = profit * 0.15)
  /\ (forall profit, (42500 <? profit) = true ->
        calculate_corporate_tax (init s) profit
        = 42500 * 0.15 + (profit - 42500) * 0.25)
  /\ calculate_corporate_tax (init s) 42500 = 42500 * 0.15
  /\ calculate_corporate_tax (init s) 42501 = 42500 * 0.15 + 1 * 0.25.
Proof.
  split; [exact (corporate_tax_nonpos s)|].
  split; [exact (corporate_tax_first_bracket s)|].
  split; [exact (corporate_tax_second_bracket s)|].
  split.
  - apply corporate_tax_first_bracket; reflexivity.
  - rewrite corporate_tax_second_bracket by reflexivity. reflexivity.
Qed.

Lemma calculate_corporate_tax_brackets_witness :
  ((-1000 <=? 0) = true /\ calculate_corporate_tax (init settings) (-1000) = 0)
  /\ ((0 <? 30000) = true /\ (30000 <=? 42500) = true
      /\ calculate_corporate_tax (init settings) 30000 = 4500)
  /\ ((42500 <? 43200) = true
      /\ calculate_corporate_tax (init settings) 43200 = 6550).
Proof.
  destruct (calculate_corporate_tax_brackets settings)
    as (Hnonpos & Hfirst & Hsecond & _).
  split; [split; [reflexivity|]|split; [split; [reflexivity|split; [reflexivity|]]|split; [reflexivity|]]].
  - apply Hnonpos. reflexivity.
  - rewrite Hfirst by reflexivity. reflexivity.
  - rewrite Hsecond by reflexivity. reflexivity.
Defined.

(** C3.  The first end-to-end scenario: with a gross salary of 40000, no
    dividends, a revenue of 150000, expenses of 50000 and a VAT rate of
    0.20, the result reports a profit before tax of 43200, a corporate tax
    of 6550 and 20000 of VAT to pay. *)
Theorem scenario_salary_only (s : Settings) :
  exists result : gmap string (gmap string float),
    calculate_complete_taxation (init s) 40000 0 150000 50000 0.20 = Ok result
    /\ field result "corporate" "profit_before_tax" = Some 43200
    /\ field result "corporate" "corporate_tax" = Some 6550
    /\ field result "vat" "vat_to_pay" = Some 20000.
Proof.
  destruct (complete_taxation_eq s 40000 0 150000 50000 0.20)
    as (dividend_tax & social & flat & total & net & _ & _ & _ & _ & _ & Heq).
  cbv zeta in Heq. eexists. split; [exact Heq|].
  unfold field, calculate_vat.
  repeat split; lookup_literal; cbv [mbind option_bind]; lookup_literal;
    reflexivity.
Qed.

(** C4, as stated, fails: a negative gross salary and a non-positive
    [parts] are computed with, not rejected. *)
Lemma invalid_inputs_are_computed_with :
  ((-1000 <? 0) = true
   /\ calculate_social_charges_on_salary (init settings) (-1000)
      = Ok {[ "gross_salary" := -1000;
              "employer_charges" := -420;
              "employee_charges" := -220;
              "total_social_charges" := -640;
              "net_salary" := -780;
              "total_cost_to_company" := -1420 ]})
  /\ ((-2 <=? 0) = true
      /\ calculate_income_tax (init settings) 30000 (-2) = Ok (-0))
  /\ ((0 <=? 0) = true
      /\ calculate_income_tax (init settings) (-5) 0 = Ok 0).
Proof. repeat split; reflexivity. Qed.

(** C4, as the code has it.  The engine validates nothing and has no
    [InvalidInput] error.  [calculate_social_charges_on_salary] returns the
    flat-rate breakdown for every gross salary, negative ones included;
    [calculate_income_tax], for every [parts], non-positive ones included,
    returns 0 when the taxable income is not positive, raises
    [ZeroDivisionError] when it is positive and [parts] is zero, and
    otherwise returns the bracket walk on [taxable_income / parts],
    multiplied by [parts]. *)
Theorem engine_validates_nothing (s : Settings) :
  (forall gross_salary : float,
     calculate_social_charges_on_salary (init s) gross_salary
     = Ok {[ "gross_salary" := gross_salary;
             "employer_charges" := gross_salary * 0.42;
             "employee_charges" := gross_salary * 0.22;
             "total_social_charges" :=
               gross_salary * 0.42 + gross_salary * 0.22;
             "net_salary" := gross_salary - gross_salary * 0.22;
             "total_cost_to_company" := gross_salary + gross_salary * 0.42 ]})
  /\ (forall taxable_income parts : float,
        calculate_income_tax (init s) taxable_income parts
        = if taxable_income <=? 0 then Ok 0
          else if parts =? 0 then Raise ZeroDivisionError
          else Ok (income_tax_loop (taxable_income / parts) None
                     (income_tax_brackets (init s)) 0 * parts)).
Proof.
  split; [exact (social_charges_eq s)|].
  intros taxable_income parts. unfold calculate_income_tax, Py.div.
  destruct (taxable_income <=? 0); [reflexivity|].
  now destruct (parts =? 0).
Qed.

(** C5, on the code as it is.  For every [dividends <= 0] the breakdown
    returned by [calculate_dividends_taxation] has the five entries
    [dividends], [social_charges], [income_tax], [total_tax] and
    [net_dividends], all 0, and no [effective_rate] entry at all. *)
Theorem zero_breakdown_has_no_effective_rate (s : Settings) (dividends : float) :
  (dividends <=? 0) = true ->
  exists breakdown : gmap string float,
    calculate_dividends_taxation (init s) dividends = Ok breakdown
    /\ breakdown !! "dividends" = Some 0
    /\ breakdown !! "social_charges" = Some 0
    /\ breakdown !! "income_tax" = Some 0
    /\ breakdown !! "total_tax" = Some 0
    /\ breakdown !! "net_dividends" = Some 0
    /\ breakdown !! "effective_rate" = None
    /\ breakdown.["effective_rate"] = Raise (KeyError "effective_rate").
Proof.
  intros Hd. exists zero_breakdown.
  split; [exact (dividends_taxation_nonpos s _ Hd)|].
  unfold Py.getitem, zero_breakdown.
  repeat split; lookup_literal; try rewrite lookup_empty; reflexivity.
Qed.

Lemma zero_breakdown_has_no_effective_rate_witness :
  (0 <=? 0) = true
  /\ exists breakdown : gmap string float,
       calculate_dividends_taxation (init settings) 0 = Ok breakdown
       /\ breakdown !! "net_dividends" = Some 0
       /\ breakdown !! "effective_rate" = None.
Proof.
  split; [reflexivity|].
  destruct (zero_breakdown_has_no_effective_rate settings 0 eq_refl)
    as (breakdown & Heq & _ & _ & _ & _ & Hnet & Hrate & _).
  exists breakdown. auto.
Defined.

(** C6, as stated, fails in its clause that no NaN or infinity ever
    appears: with the smallest positive revenue the division of the total
    taxes overflows and the effective tax rate is infinity; with an
    infinite revenue the total taxes are infinite as well and the rate is
    NaN. *)
Lemma effective_tax_rate_can_be_infinite_or_nan :
  (0 <? 5e-324) = true
  /\ observe "summary" "effective_tax_rate"
       (calculate_complete_taxation (init settings) 40000 0 5e-324 50000 0.20)
     = Ok (Some infinity)
  /\ (0 <? infinity) = true
  /\ observe "summary" "effective_tax_rate"
       (calculate_complete_taxation (init settings) 40000 0 infinity 50000
          0.20)
     = Ok (Some nan).
Proof. repeat split; vm_compute; reflexivity. Qed.

(** C6, as the code has it.  For every input,
    [calculate_complete_taxation] returns: no division by zero is
    attempted, the only division of the summary being made on a positive,
    hence non-zero, revenue.  The effective tax rate of the summary is
    [total_taxes / revenue] when [revenue > 0] and exactly 0 otherwise,
    that is when [revenue <= 0] and when the revenue is NaN. *)
Theorem effective_tax_rate_guarded (s : Settings)
    (gross_salary dividends revenue expenses vat_rate : float) :
  exists (result : gmap string (gmap string float)) (total_taxes : float),
    calculate_complete_taxation (init s)
      gross_salary dividends revenue expenses vat_rate = Ok result
    /\ field result "summary" "total_taxes" = Some total_taxes
    /\ field result "summary" "effective_tax_rate"
       = Some (if 0 <? revenue then total_taxes / revenue else 0)
    /\ ((0 <? revenue) = true ->
        Py.div total_taxes revenue = Ok (total_taxes / revenue)
        /\ field result "summary" "effective_tax_rate"
           = Some (total_taxes / revenue))
    /\ ((revenue <=? 0) = true ->
        field result "summary" "effective_tax_rate" = Some 0)
    /\ ((revenue =? revenue) = false ->
        field result "summary" "effective_tax_rate" = Some 0).
Proof.
  destruct (complete_taxation_eq s gross_salary dividends revenue expenses vat_rate)
    as (dividend_tax & social & flat & total & net & _ & _ & _ & _ & _ & Heq).
  cbv zeta in Heq. eexists _, _. split; [exact Heq|].
  unfold field.
  split; [|split; [|split; [|split]]].
  - lookup_literal. cbv [mbind option_bind]. lookup_literal. reflexivity.
  - lookup_literal. cbv [mbind option_bind]. lookup_literal. reflexivity.
  - intros Hpos. split.
    + unfold Py.div. now rewrite (FloatOrder.pos_not_zero _ Hpos).
    + lookup_literal. cbv [mbind option_bind]. lookup_literal.
      now rewrite Hpos.
  - intros Hnonpos. lookup_literal. cbv [mbind option_bind]. lookup_literal.
    now rewrite (FloatOrder.le0_not_pos _ Hnonpos).
  - intros Hnan. lookup_literal. cbv [mbind option_bind]. lookup_literal.
    now rewrite (nan_not_pos _ Hnan).
Qed.

(** The rate of the first scenario, and the rate without any revenue. *)
Lemma effective_tax_rate_guarded_witness :
  ((0 <? 150000) = true
   /\ observe "summary" "effective_tax_rate"
        (calculate_complete_taxation (init settings) 40000 0 150000 50000 0.20)
      = Ok (Some (53996.46 / 150000)))
  /\ ((0 <=? 0) = true
      /\ observe "summary" "effective_tax_rate"
           (calculate_complete_taxation (init settings) 40000 0 0 50000 0.20)
         = Ok (Some 0))
  /\ ((nan =? nan) = false
      /\ observe "summary" "effective_tax_rate"
           (calculate_complete_taxation (init settings) 40000 0 nan 50000 0.20)
         = Ok (Some 0)).
Proof.
  split; [|split]; (split; [reflexivity|]).
  - destruct (effective_tax_rate_guarded settings 40000 0 150000 50000 0.20)
      as (result & total & Hres & Htotal & _ & Hpos & _).
    destruct (Hpos eq_refl) as [_ Hrate].
    assert (Hobs : observe "summary" "total_taxes"
                     (calculate_complete_taxation (init settings)
                        40000 0 150000 50000 0.20) = Ok (Some 53996.46))
      by (vm_compute; reflexivity).
    rewrite Hres, observe_Ok in *. injection Hobs as Hobs.
    rewrite Hobs in Htotal. injection Htotal as <-.
    now rewrite Hrate.
  - destruct (effective_tax_rate_guarded settings 40000 0 0 50000 0.20)
      as (result & total & Hres & _ & _ & _ & Hzero & _).
    rewrite Hres, observe_Ok. now rewrite Hzero.
  - destruct (effective_tax_rate_guarded settings 40000 0 nan 50000 0.20)
      as (result & total & Hres & _ & _ & _ & _ & Hnan).
    rewrite Hres, observe_Ok. now rewrite Hnan.
Defined.

(** C7.  The result of [calculate_complete_taxation] is a function of its
    five arguments and of the rate configuration of the calculator (social
    charge rates, corporate tax rates, income tax brackets) and of nothing
    else: two calls with identical arguments on calculators with the same
    rates return identical outcomes, whatever else the calculators hold
    (the constants read from the environment, the VAT presets). *)
Theorem complete_taxation_deterministic (a b : FrenchTaxCalculator)
    (gross_salary dividends revenue expenses vat_rate : float) :
  social_charges_rates a = social_charges_rates b ->
  corporate_tax_rates a = corporate_tax_rates b ->
  income_tax_brackets a = income_tax_brackets b ->
  calculate_complete_taxation a gross_salary dividends revenue expenses vat_rate
  = calculate_complete_taxation b gross_salary dividends revenue expenses vat_rate.
Proof. intros. now apply complete_taxation_same. Qed.

(** Two calculators built under different environments. *)
Lemma complete_taxation_deterministic_witness :
  calculate_complete_taxation (init settings) 40000 10000 150000 50000 0.20
  = calculate_complete_taxation
      (init {| SMIC_HOURLY := 12.5; PASS_ANNUAL := 50000 |})
      40000 10000 150000 50000 0.20.
Proof.
  apply complete_taxation_deterministic; reflexivity.
Defined.

(** C8.  The third end-to-end scenario.  In every environment (whatever
    the settings give as the minimum wage) and for every fuel, what
    [optimize_remuneration] returns on a target of 50000, a revenue of
    120000, expenses of 30000 and no constraint comes from the 21 salaries
    [smic + (120000 * 0.8 - smic) * i / 20], [i] from 0 to 20: none of the
    21 improves on the total tax returned (each is skipped, misses the
    target by 1000 or more, or is not cheaper), and the result is one of
    them, with a net income within 1000 of the target, or the fallback
    [(smic, 0)].  With the default settings and a fuel of 9 or more the
    call returns: the 21 salaries are the values listed, from
    20966.399999999998 to 96000, and the result is the first of them, with
    dividends of about 48600.32 and a net income of about 49997.33, a
    salary within the bounds whose net income is within 1000 of the
    target. *)
Theorem scenario_optimizer (s : Settings) (fuel : nat) :
  (forall r : OptimizationResult,
     optimize_remuneration (init s) fuel 50000 120000 30000 (Some ∅) = Ok r ->
     let smic := smic_annual (init s) in
     (forall (i : nat) (st : search_state),
        (i < 21)%nat ->
        min_total_tax st = total_tax_burden r ->
        salary_loop_body (init s) fuel 50000 120000 30000
          smic (120000 * 0.8) st i = Ok st)
     /\ ((exists i : nat,
            (i < 21)%nat
            /\ optimal_gross_salary r
               = smic + (120000 * 0.8 - smic) * Py.of_nat i / 20
            /\ (abs (net_income_achieved r - 50000) <? 1000) = true)
         \/ (optimal_gross_salary r = smic /\ optimal_dividends r = 0)))
  /\ ((9 <= fuel)%nat ->
      exists r : OptimizationResult,
        optimize_remuneration (init settings) fuel 50000 120000 30000 (Some ∅)
        = Ok r
        /\ map (fun i : nat =>
                  smic_annual (init settings)
                  + (120000 * 0.8 - smic_annual (init settings))
                    * Py.of_nat i / 20)
             (seq 0 21)
           = [20966.399999999998; 24718.079999999998; 28469.759999999998;
              32221.439999999999; 35973.119999999995; 39724.800000000003;
              43476.479999999996; 47228.160000000003; 50979.839999999997;
              54731.520000000004; 58483.199999999997; 62234.880000000005;
              65986.559999999998; 69738.240000000005; 73489.919999999998;
              77241.599999999991; 80993.279999999999; 84744.960000000006;
              88496.639999999999; 92248.320000000007; 96000]
        /\ optimal_gross_salary r = 20966.399999999998
        /\ optimal_dividends r = 48600.321765624998
        /\ net_income_achieved r = 49997.331827937494
        /\ (smic_annual (init settings) <=? optimal_gross_salary r) = true
        /\ (optimal_gross_salary r <=? 0.8 * 120000) = true
        /\ (abs (net_income_achieved r - 50000) <? 1000) = true).
Proof.
  split.
  - intros r Hrun smic.
    pose proof (optimize_remuneration_no_gain _ _ _ _ _ _ _ Hrun) as Hgain.
    destruct (optimize_remuneration_result _ _ _ _ _ _ _ Hrun)
      as (_ & _ & Hwhich).
    cbv zeta in Hgain, Hwhich. unfold Py.get in Hgain, Hwhich.
    cbn [from_option id] in Hgain, Hwhich.
    rewrite !lookup_empty in Hgain, Hwhich.
    fold smic in Hgain, Hwhich. split.
    + intros i st Hi. apply Hgain. apply in_seq. cbn. lia.
    + destruct Hwhich as [Hfallback|(i & Hi & Hsalary & Hclose)];
        [now right|left].
      exists i. apply in_seq in Hi. cbn in Hi.
      split; [lia|]. split; [exact Hsalary|exact Hclose].
  - intros Hfuel.
    destruct (optimum_inv _ _ _ _ scenario_optimizer_run)
      as (r & Hrun & Hsalary & Hdiv & Hnet).
    exists r. split.
    { rewrite (optimize_remuneration_more_fuel _ 9 fuel) by (congruence || lia).
      exact Hrun. }
    split; [reflexivity|].
    rewrite Hsalary, Hdiv, Hnet. repeat split; reflexivity.
Qed.

Lemma scenario_optimizer_witness :
  exists r : OptimizationResult,
    optimize_remuneration (init settings) 12 50000 120000 30000 (Some ∅) = Ok r
    /\ optimal_gross_salary r = 20966.399999999998
    /\ (abs (net_income_achieved r - 50000) <? 1000) = true
    /\ forall st : search_state,
         min_total_tax st = total_tax_burden r ->
         salary_loop_body (init settings) 12 50000 120000 30000
           (smic_annual (init settings)) (120000 * 0.8) st 20 = Ok st.
Proof.
  destruct (proj2 (scenario_optimizer settings 12))
    as (r & Hrun & _ & Hsalary & _ & _ & _ & _ & Hclose); [lia|].
  exists r. split; [exact Hrun|]. split; [exact Hsalary|].
  split; [exact Hclose|].
  intros st Hst.
  apply (proj1 (proj1 (scenario_optimizer settings 12) r Hrun)); [lia|exact Hst].
Defined.

(** C9, as stated, fails: with a minimum of 30000 above a maximum of 20000
    the samples run down from 30000 to 20000, and one of them is accepted;
    the result is the salary 20000 with dividends of about 49612.45, not
    the fallback (30000, 0). *)
Lemma reversed_bounds_are_sampled :
  (20000 <? 30000) = true
  /\ map (test_salary_at 30000 20000) salary_range
     = [30000; 29500; 29000; 28500; 28000; 27500; 27000; 26500; 26000; 25500;
        25000; 24500; 24000; 23500; 23000; 22500; 22000; 21500; 21000; 20500;
        20000]
  /\ optimum (optimize_remuneration (init settings) 9 50000 120000 30000
                (Some {[ "min_salary" := 30000; "max_salary" := 20000 ]}))
     = Ok (20000, 49612.451171875, 50026.655820312502).
Proof. repeat split; vm_compute; reflexivity. Qed.

(** C9, as the code has it.  The order of the two bounds is not looked at.
    Whatever the constraints are, when none of the 21 sampled salaries is
    valid (each leaves no positive profit, or nothing to distribute), the
    optimizer returns, for any fuel, the fallback: the minimum salary, no
    dividends, and the complete taxation of that pair. *)
Theorem fallback_when_no_sample_is_valid (s : Settings) (fuel : nat)
    (target revenue expenses : float)
    (constraints : option (gmap string float)) :
  let min_salary :=
    Py.get (default ∅ constraints) "min_salary" (smic_annual (init s)) in
  let max_salary :=
    Py.get (default ∅ constraints) "max_salary" (revenue * 0.8) in
  (forall i : nat, In i salary_range ->
     skipped (init s) revenue expenses (test_salary_at min_salary max_salary i)) ->
  exists r : OptimizationResult,
    optimize_remuneration (init s) fuel target revenue expenses constraints
    = Ok r
    /\ optimal_gross_salary r = min_salary
    /\ optimal_dividends r = 0
    /\ calculate_complete_taxation (init s) min_salary 0 revenue expenses 0.20
       = Ok (full_calculation r).
Proof.
  intros min_salary max_salary Hskipped.
  unfold optimize_remuneration. cbv zeta.
  fold min_salary. fold max_salary.
  rewrite for_each_skip
    by (intros i Hi; apply salary_loop_body_skipped, Hskipped, Hi).
  rewrite bind_Ok. cbn [best_result].
  destruct (complete_taxation_eq s min_salary 0 revenue expenses 0.20)
    as (dividend_tax & social & flat & total & net & _ & _ & _ & _ & _ & Heq).
  cbv zeta in Heq. unfold default_vat_rate. rewrite Heq, !bind_Ok.
  getitem_literal.
  eexists. split; [reflexivity|]. cbn. auto.
Qed.

(** Reversed bounds on a company whose revenue pays for none of the sampled
    salaries: every sample is skipped and the fallback is returned, without
    any fuel. *)
Lemma fallback_when_no_sample_is_valid_witness :
  (20000 <? 30000) = true
  /\ exists r : OptimizationResult,
       optimize_remuneration (init settings) 0 50000 10000 0
         (Some {[ "min_salary" := 30000; "max_salary" := 20000 ]}) = Ok r
       /\ optimal_gross_salary r = 30000
       /\ optimal_dividends r = 0.
Proof.
  split; [reflexivity|].
  destruct (fallback_when_no_sample_is_valid settings 0 50000 10000 0
              (Some {[ "min_salary" := 30000; "max_salary" := 20000 ]}))
    as (r & Hrun & Hsalary & Hdividends & _).
  - intros i Hi. unfold skipped. rewrite social_charges_eq.
    eexists _, _. split; [reflexivity|].
    split; [lookup_literal; reflexivity|]. left.
    unfold salary_range in Hi. cbn in Hi.
    repeat (destruct Hi as [<- | Hi]; [vm_compute; reflexivity|]).
    contradiction.
  - exists r. repeat split; assumption.
Defined.

(** C10.  [optimize_remuneration] has no VAT rate among its arguments, and
    whatever it returns, its [full_calculation] is the complete taxation of
    the returned salary and dividends at the default VAT rate 0.20: the VAT
    section of the result is [calculate_vat revenue expenses 0.20], with a
    [vat_rate] entry of 0.20. *)
Theorem optimizer_uses_default_vat_rate (s : Settings) (fuel : nat)
    (target revenue expenses : float)
    (constraints : option (gmap string float)) (r : OptimizationResult) :
  optimize_remuneration (init s) fuel target revenue expenses constraints = Ok r ->
  calculate_complete_taxation (init s) (optimal_gross_salary r)
    (optimal_dividends r) revenue expenses 0.20 = Ok (full_calculation r)
  /\ full_calculation r !! "vat" = Some (calculate_vat revenue expenses 0.20)
  /\ field (full_calculation r) "vat" "vat_rate" = Some 0.20
  /\ field (full_calculation r) "vat" "vat_to_pay"
     = Some (Py.max 0 (revenue * 0.20 - expenses * 0.20)).
Proof.
  intros Hrun.
  destruct (optimize_remuneration_result _ _ _ _ _ _ _ Hrun) as (Hcalc & _).
  unfold default_vat_rate in Hcalc. split; [exact Hcalc|].
  destruct (complete_taxation_eq s (optimal_gross_salary r)
              (optimal_dividends r) revenue expenses 0.20)
    as (dividend_tax & social & flat & total & net & _ & _ & _ & _ & _ & Heq).
  cbv zeta in Heq. rewrite Heq in Hcalc. injection Hcalc as <-.
  unfold field, calculate_vat.
  repeat split; lookup_literal; cbv [mbind option_bind]; lookup_literal;
    reflexivity.
Qed.

Lemma optimizer_uses_default_vat_rate_witness :
  exists r : OptimizationResult,
    optimize_remuneration (init settings) 9 50000 120000 30000 (Some ∅) = Ok r
    /\ field (full_calculation r) "vat" "vat_rate" = Some 0.20
    /\ field (full_calculation r) "vat" "vat_to_pay" = Some 18000.
Proof.
  destruct (optimum_inv _ _ _ _ scenario_optimizer_run) as (r & Hrun & _).
  exists r. split; [exact Hrun|].
  destruct (optimizer_uses_default_vat_rate settings 9 50000 120000 30000
              (Some ∅) r Hrun) as (_ & _ & Hrate & Hpay).
  split; [exact Hrate|exact Hpay].
Defined.

(** * Further properties *)

(** ** More on float comparisons and signs *)

Module FloatSign.

Lemma pos_not_neg x : (0 <? x) = true -> (x <? 0) = false.
Proof. rewrite !FloatAxioms.ltb_spec. FloatOrder.by_class x. Qed.

Lemma pos_not_nan x : (0 <? x) = true -> (x =? x) = true.
Proof.
  rewrite FloatAxioms.ltb_spec, FloatAxioms.eqb_spec. unfold SFeqb.
  destruct (Prim2SF x) as [[]|[]| |[] m e]; cbn; try congruence.
  intros _. rewrite Z.compare_refl.
  change (PosDef.Pos.compare_cont Eq m m) with (Pos.compare m m).
  now rewrite Pos.compare_refl.
Qed.

(** A float that is not NaN and not positive is at most zero. *)
Lemma not_pos_le0 x : (x =? x) = true -> (0 <? x) = false -> (x <=? 0) = true.
Proof.
  rewrite FloatAxioms.ltb_spec, FloatAxioms.leb_spec, FloatAxioms.eqb_spec.
  FloatOrder.by_class x.
Qed.

Lemma not_le0_not_neg x : (x <=? 0) = false -> (x <? 0) = false.
Proof.
  rewrite FloatAxioms.ltb_spec, FloatAxioms.leb_spec. FloatOrder.by_class x.
Qed.

Lemma not_le0_pos x : (x =? x) = true -> (x <=? 0) = false -> (0 <? x) = true.
Proof.
  rewrite FloatAxioms.ltb_spec, FloatAxioms.leb_spec, FloatAxioms.eqb_spec.
  FloatOrder.by_class x.
Qed.

(** The only float that differs from itself is NaN. *)
Lemma nan_only x : (x =? x) = false -> x = nan.
Proof.
  rewrite FloatAxioms.eqb_spec. intros Hx. apply Prim2SF_inj.
  change (Prim2SF nan) with S754_nan. revert Hx. unfold SFeqb.
  destruct (Prim2SF x) as [[]|[]| |s m e]; cbn; try congruence.
  rewrite Z.compare_refl.
  change (PosDef.Pos.compare_cont Eq m m) with (Pos.compare m m).
  rewrite Pos.compare_refl. now destruct s.
Qed.

(** Two floats that are not NaN are comparable. *)
Lemma le_or_gt x y :
  (x =? x) = true -> (y =? y) = true ->
  (x <=? y) = true \/ (y <? x) = true.
Proof.
  rewrite FloatAxioms.ltb_spec, FloatAxioms.leb_spec, !FloatAxioms.eqb_spec.
  unfold SFltb, SFleb, SFeqb.
  destruct (Prim2SF x) as [[]|[]| |[] mx ex], (Prim2SF y) as [[]|[]| |[] my ey];
    cbn; try congruence; auto; intros _ _;
    rewrite (Z.compare_antisym ex ey); destruct (ex ?= ey)%Z; cbn; auto;
    change (PosDef.Pos.compare_cont Eq my mx) with (Pos.compare my mx);
    change (PosDef.Pos.compare_cont Eq mx my) with (Pos.compare mx my);
    rewrite (Pos.compare_antisym mx my);
    destruct (Pos.compare mx my); cbn; auto.
Qed.

(** [x - 0] is [x], also for zeros, infinities and NaN. *)
Lemma sub_zero_r (x : float) : x - 0 = x.
Proof.
  apply Prim2SF_inj. rewrite FloatAxioms.sub_spec.
  change (Prim2SF 0) with (S754_zero false).
  now destruct (Prim2SF x) as [[]|[]| |[] m e].
Qed.

(** What is rounded from a non-negative mantissa is not below zero. *)
Lemma binary_round_aux_not_neg mx ex lx :
  SFltb (binary_round_aux prec emax false mx ex lx) (S754_zero false) = false.
Proof.
  unfold binary_round_aux.
  destruct (shr_fexp prec emax mx ex lx) as [mrs' e'].
  destruct (shr_fexp prec emax _ e' loc_Exact) as [mrs'' e''].
  destruct (shr_m mrs''); [|destruct (_ <=? _)%Z|]; reflexivity.
Qed.

(** The product of a float that is not at most zero (a positive float, or
    NaN) and a positive float is not negative. *)
Lemma mul_not_neg (x c : float) :
  (x <=? 0) = false -> (0 <? c) = true -> (x * c <? 0) = false.
Proof.
  rewrite !FloatAxioms.ltb_spec, FloatAxioms.leb_spec, FloatAxioms.mul_spec.
  change (Prim2SF 0) with (S754_zero false).
  destruct (Prim2SF x) as [[]|[]| |[] mx ex], (Prim2SF c) as [[]|[]| |[] mc ec];
    cbn; try congruence.
  intros _ _. apply binary_round_aux_not_neg.
Qed.

(** The sum of two floats that are not negative is not negative. *)
Lemma add_not_neg (x y : float) :
  (x <? 0) = false -> (y <? 0) = false -> (x + y <? 0) = false.
Proof.
  rewrite !FloatAxioms.ltb_spec, FloatAxioms.add_spec.
  change (Prim2SF 0) with (S754_zero false).
  destruct (Prim2SF x) as [[]|[]| |[] mx ex], (Prim2SF y) as [[]|[]| |[] my ey];
    cbn; try congruence.
  intros _ _.
  set (a := fst (shl_align mx ex (Z.min ex ey))).
  set (b := fst (shl_align my ey (Z.min ex ey))).
  change (Z.pos a + Z.pos b)%Z with (Z.pos (a + b)).
  cbn [binary_normalize]. unfold binary_round.
  destruct (shl_align (a + b) _ _) as [mz ez].
  apply binary_round_aux_not_neg.
Qed.

(** The quotient of a float that is not at most zero by a positive float
    is not negative. *)
Lemma div_not_neg (x y : float) :
  (x <=? 0) = false -> (0 <? y) = true -> (x / y <? 0) = false.
Proof.
  rewrite !FloatAxioms.ltb_spec, FloatAxioms.leb_spec, FloatAxioms.div_spec.
  change (Prim2SF 0) with (S754_zero false).
  destruct (Prim2SF x) as [[]|[]| |[] mx ex], (Prim2SF y) as [[]|[]| |[] my ey];
    cbn; try congruence.
  intros _ _. destruct (SFdiv_core_binary _ _ _ _ _ _) as [[mz ez] lz].
  apply binary_round_aux_not_neg.
Qed.

(** The product of two floats that are not negative is not negative. *)
Lemma mul_nonneg (x y : float) :
  (x <? 0) = false -> (y <? 0) = false -> (x * y <? 0) = false.
Proof.
  rewrite !FloatAxioms.ltb_spec, FloatAxioms.mul_spec.
  change (Prim2SF 0) with (S754_zero false).
  destruct (Prim2SF x) as [[]|[]| |[] mx ex], (Prim2SF y) as [[]|[]| |[] my ey];
    cbn; try congruence.
  intros _ _. apply binary_round_aux_not_neg.
Qed.

(** What is left of a float above a positive threshold is not negative;
    for NaN it is NaN. *)
Lemma sub_above_not_neg (x y : float) :
  (0 <? y) = true -> (x <=? y) = false -> (x - y <? 0) = false.
Proof.
  intros Hy Hx. destruct (x =? x) eqn:Hnan.
  - destruct (le_or_gt x y Hnan (pos_not_nan _ Hy)) as [Hle|Hgt];
      [congruence|].
    apply not_le0_not_neg. now apply FloatArith.sub_pos.
  - apply nan_only in Hnan. subst x.
    rewrite FloatAxioms.ltb_spec, FloatAxioms.sub_spec.
    change (Prim2SF nan) with S754_nan. reflexivity.
Qed.

(** Half of a float that is not negative is not negative. *)
Lemma half_not_neg (x : float) : (x <? 0) = false -> (x / 2 <? 0) = false.
Proof.
  rewrite !FloatAxioms.ltb_spec, FloatAxioms.div_spec.
  change (Prim2SF 0) with (S754_zero false).
  change (Prim2SF 2) with (S754_finite false 4503599627370496 (-51)).
  destruct (Prim2SF x) as [[]|[]| |[] mx ex]; cbn; try congruence.
  intros _. destruct (SFdiv_core_binary _ _ _ _ _ _) as [[mz ez] lz].
  apply binary_round_aux_not_neg.
Qed.

End FloatSign.

(** ** The engine, beyond the claims *)

(** [max(0, x)] is never negative and never NaN. *)
Lemma max_zero_not_neg (x : float) :
  (Py.max 0 x <? 0) = false /\ (Py.max 0 x =? Py.max 0 x) = true.
Proof.
  unfold Py.max. destruct (0 <? x) eqn:Hx; [|split; reflexivity].
  split; [exact (FloatSign.pos_not_neg _ Hx)|exact (FloatSign.pos_not_nan _ Hx)].
Qed.

(** X1.  The VAT to pay that [calculate_vat] reports is never negative and
    never NaN, whatever the three arguments are (a VAT credit, or a NaN
    among the arguments, gives 0): it is the collected VAT less the
    deductible VAT when that difference is positive, and 0 otherwise. *)
Theorem vat_to_pay_never_negative (revenue expenses vat_rate : float) :
  exists vat_to_pay : float,
    calculate_vat revenue expenses vat_rate !! "vat_to_pay" = Some vat_to_pay
    /\ (vat_to_pay <? 0) = false
    /\ (vat_to_pay =? vat_to_pay) = true
    /\ vat_to_pay
       = (if 0 <? revenue * vat_rate - expenses * vat_rate
          then revenue * vat_rate - expenses * vat_rate else 0).
Proof.
  exists (Py.max 0 (revenue * vat_rate - expenses * vat_rate)).
  split; [unfold calculate_vat; lookup_literal; reflexivity|].
  destruct (max_zero_not_neg (revenue * vat_rate - expenses * vat_rate)).
  auto.
Qed.

(** X2.  [calculate_corporate_tax] is never negative, for any float: a
    profit that is not positive gives 0, a positive one a sum of products
    of positive amounts by positive rates, and NaN gives NaN. *)
Theorem corporate_tax_never_negative (s : Settings) (profit : float) :
  (calculate_corporate_tax (init s) profit <? 0) = false.
Proof.
  destruct (profit =? profit) eqn:Hnan.
  - destruct (profit <=? 0) eqn:Hle.
    + now rewrite corporate_tax_nonpos.
    + pose proof (FloatSign.not_le0_pos _ Hnan Hle) as Hpos.
      destruct (FloatSign.le_or_gt profit 42500 Hnan eq_refl) as [Hlow|Hhigh].
      * rewrite corporate_tax_first_bracket by assumption.
        now apply FloatSign.mul_not_neg.
      * rewrite corporate_tax_second_bracket by assumption.
        apply FloatSign.add_not_neg; [reflexivity|].
        apply FloatSign.mul_not_neg; [|reflexivity].
        now apply FloatArith.sub_pos.
  - apply FloatSign.nan_only in Hnan. subst profit. reflexivity.
Qed.

Ltac field_literal :=
  unfold field; lookup_literal; cbv [mbind option_bind]; lookup_literal.

(** X3.  The summary of a complete taxation is made of the entries of its
    sections: the social charges of the salary plus those of the
    dividends; the corporate tax; the income tax on the salary plus the
    flat tax on the dividends, which is also the [total] of the income tax
    section; the VAT to pay; as total taxes, the sum, in this order, of the
    social charges on the salary, the corporate tax, the total tax on the
    dividends, the income tax on the salary and the VAT to pay; as net
    income, the net salary less its income tax plus the net dividends. *)
Theorem summary_adds_up_the_sections (s : Settings)
    (gross_salary dividends revenue expenses vat_rate : float) :
  exists (result : gmap string (gmap string float))
         (salary_social net_salary corporate_tax : float)
         (dividend_social flat_tax dividend_tax net_dividends : float)
         (tax_on_salary vat_to_pay : float),
    calculate_complete_taxation (init s)
      gross_salary dividends revenue expenses vat_rate = Ok result
    /\ field result "salary" "total_social_charges" = Some salary_social
    /\ field result "salary" "net_salary" = Some net_salary
    /\ field result "corporate" "corporate_tax" = Some corporate_tax
    /\ field result "dividends" "social_charges" = Some dividend_social
    /\ field result "dividends" "income_tax" = Some flat_tax
    /\ field result "dividends" "total_tax" = Some dividend_tax
    /\ field result "dividends" "net_dividends" = Some net_dividends
    /\ field result "income_tax" "tax_on_salary" = Some tax_on_salary
    /\ field result "vat" "vat_to_pay" = Some vat_to_pay
    /\ field result "summary" "total_social_charges"
       = Some (salary_social + dividend_social)
    /\ field result "summary" "total_corporate_tax" = Some corporate_tax
    /\ field result "summary" "total_income_tax"
       = Some (tax_on_salary + flat_tax)
    /\ field result "income_tax" "total" = Some (tax_on_salary + flat_tax)
    /\ field result "summary" "total_vat" = Some vat_to_pay
    /\ field result "summary" "total_taxes"
       = Some (salary_social + corporate_tax + dividend_tax + tax_on_salary
               + vat_to_pay)
    /\ field result "summary" "net_income"
       = Some (net_salary - tax_on_salary + net_dividends).
Proof.
  destruct (complete_taxation_eq s gross_salary dividends revenue expenses vat_rate)
    as (breakdown & social & flat & total & net & _ & Hs & Hf & Ht & Hn & Heq).
  cbv zeta in Heq. do 10 eexists. split; [exact Heq|].
  unfold calculate_vat.
  repeat split; field_literal; try eassumption; reflexivity.
Qed.

(** X4.  A complete taxation has exactly the seven sections [input],
    [salary], [corporate], [dividends], [income_tax], [vat] and [summary].
    The input section echoes the four amounts as they were passed (the
    dividends as requested, not as capped); the salary section is the
    result of [calculate_social_charges_on_salary] on the gross salary, the
    VAT section that of [calculate_vat]; the corporate section reports the
    profit before tax (revenue less expenses less the total cost of the
    salary), the corporate tax on it, their difference and the part of it
    that is available for dividends. *)
Theorem complete_taxation_sections (s : Settings)
    (gross_salary dividends revenue expenses vat_rate : float) :
  exists (result : gmap string (gmap string float))
         (salary : gmap string float) (total_cost : float),
    calculate_complete_taxation (init s)
      gross_salary dividends revenue expenses vat_rate = Ok result
    /\ dom result
       = ({[ "input"; "salary"; "corporate"; "dividends"; "income_tax";
             "vat"; "summary" ]} : gset string)
    /\ result !! "input"
       = Some {[ "gross_salary" := gross_salary; "dividends" := dividends;
                 "revenue" := revenue; "expenses" := expenses ]}
    /\ calculate_social_charges_on_salary (init s) gross_salary = Ok salary
    /\ result !! "salary" = Some salary
    /\ salary !! "total_cost_to_company" = Some total_cost
    /\ result !! "vat" = Some (calculate_vat revenue expenses vat_rate)
    /\ let profit_before_tax := revenue - expenses - total_cost in
       let corporate_tax :=
         calculate_corporate_tax (init s) profit_before_tax in
       result !! "corporate"
       = Some {[ "profit_before_tax" := profit_before_tax;
                 "corporate_tax" := corporate_tax;
                 "profit_after_tax" := profit_before_tax - corporate_tax;
                 "available_for_dividends" :=
                   Py.max 0 (profit_before_tax - corporate_tax) ]}.
Proof.
  destruct (complete_taxation_eq s gross_salary dividends revenue expenses vat_rate)
    as (breakdown & social & flat & total & net & _ & _ & _ & _ & _ & Heq).
  cbv zeta in Heq. do 3 eexists. split; [exact Heq|].
  split; [rewrite !dom_insert_L, dom_singleton_L; set_solver|].
  split; [lookup_literal; reflexivity|].
  split; [apply social_charges_eq|].
  split; [lookup_literal; reflexivity|].
  split; [lookup_literal; reflexivity|].
  split; [lookup_literal; reflexivity|].
  cbv zeta. lookup_literal. reflexivity.
Qed.

(** X5.  A company without profit pays no corporate tax and distributes
    nothing: when the profit before tax of the result is not positive, the
    corporate tax is 0, the profit after tax is the profit before tax,
    nothing is available for dividends and, whatever amount of dividends
    was requested (NaN apart), the dividend section is the all-zero
    breakdown. *)
Theorem no_profit_no_dividends (s : Settings)
    (gross_salary dividends revenue expenses vat_rate : float) :
  exists (result : gmap string (gmap string float)) (profit_before_tax : float),
    calculate_complete_taxation (init s)
      gross_salary dividends revenue expenses vat_rate = Ok result
    /\ field result "corporate" "profit_before_tax" = Some profit_before_tax
    /\ ((profit_before_tax <=? 0) = true ->
        field result "corporate" "corporate_tax" = Some 0
        /\ field result "corporate" "profit_after_tax" = Some profit_before_tax
        /\ field result "corporate" "available_for_dividends" = Some 0
        /\ ((dividends =? dividends) = true ->
            result !! "dividends" = Some zero_breakdown)).
Proof.
  destruct (complete_taxation_eq s gross_salary dividends revenue expenses vat_rate)
    as (breakdown & social & flat & total & net & Hdiv & _ & _ & _ & _ & Heq).
  cbv zeta in Heq, Hdiv.
  set (profit := revenue - expenses - (gross_salary + gross_salary * 0.42)) in *.
  eexists _, profit. split; [exact Heq|].
  split; [field_literal; reflexivity|].
  intros Hprofit.
  pose proof (corporate_tax_nonpos s _ Hprofit) as Htax.
  pose proof (FloatOrder.le0_not_pos _ Hprofit) as Hnotpos.
  split; [field_literal; now rewrite Htax|].
  split; [field_literal; now rewrite Htax, FloatSign.sub_zero_r|].
  split.
  { field_literal. rewrite Htax, FloatSign.sub_zero_r. unfold Py.max.
    now rewrite Hnotpos. }
  intros Hnan. lookup_literal. f_equal.
  revert Hdiv. rewrite Htax, FloatSign.sub_zero_r. unfold Py.max, Py.min.
  rewrite Hnotpos. destruct (0 <? dividends) eqn:Hd.
  - rewrite (dividends_taxation_nonpos s) by reflexivity. congruence.
  - rewrite (dividends_taxation_nonpos s)
      by exact (FloatSign.not_pos_le0 _ Hnan Hd).
    congruence.
Qed.

(** A salary that eats the whole margin: 100000 of dividends are requested,
    none is distributed. *)
Lemma no_profit_no_dividends_witness :
  (-6800 <=? 0) = true /\ (100000 =? 100000) = true
  /\ exists result : gmap string (gmap string float),
       calculate_complete_taxation (init settings) 40000 100000 60000 10000 0.20
       = Ok result
       /\ field result "corporate" "profit_before_tax" = Some (-6800)
       /\ result !! "dividends" = Some zero_breakdown.
Proof.
  split; [reflexivity|]. split; [reflexivity|].
  destruct (no_profit_no_dividends settings 40000 100000 60000 10000 0.20)
    as (result & profit & Hres & Hprofit & Hnone).
  exists result. split; [exact Hres|].
  assert (Hobs : observe "corporate" "profit_before_tax"
                   (calculate_complete_taxation (init settings)
                      40000 100000 60000 10000 0.20) = Ok (Some (-6800)))
    by (vm_compute; reflexivity).
  rewrite Hres, observe_Ok in Hobs. injection Hobs as Hobs.
  rewrite Hobs in Hprofit. injection Hprofit as <-.
  split; [exact Hobs|]. now apply Hnone.
Defined.

(** X6.  [calculate_dividends_taxation] never raises, for any float, and
    its breakdown always has the five entries the orchestrator reads, with
    the total tax the sum of the social charges and of the flat tax.  The
    sixth entry, [effective_rate], is there exactly when the dividends are
    not [<= 0]; it is then the total tax over the dividends when these are
    positive, and 0 when they are NaN. *)
Theorem dividends_taxation_breakdown (s : Settings) (dividends : float) :
  exists (breakdown : gmap string float) (social flat : float),
    calculate_dividends_taxation (init s) dividends = Ok breakdown
    /\ breakdown !! "social_charges" = Some social
    /\ breakdown !! "income_tax" = Some flat
    /\ breakdown !! "total_tax" = Some (social + flat)
    /\ is_Some (breakdown !! "dividends")
    /\ is_Some (breakdown !! "net_dividends")
    /\ breakdown !! "effective_rate"
       = if dividends <=? 0 then None
         else Some (if 0 <? dividends then (social + flat) / dividends else 0).
Proof.
  destruct (dividends <=? 0) eqn:Hd.
  - rewrite (dividends_taxation_nonpos s _ Hd). unfold zero_breakdown.
    eexists _, 0, 0.
    repeat split; lookup_literal; try rewrite lookup_empty; eauto.
  - rewrite (dividends_taxation_pos s _ Hd). do 3 eexists.
    repeat split; lookup_literal; eauto.
Qed.

(** ** The bisection *)

(** X7.  When the bisection of [optimize_remuneration] ends, the bracket
    it returns is no wider than 100: its loop condition [high - low > 100]
    is false. *)
Theorem binary_search_narrows (self : FrenchTaxCalculator) (fuel : nat)
    (test_salary target revenue expenses low high : float)
    (bounds : float * float) :
  binary_search self fuel test_salary target revenue expenses low high
  = Ok bounds ->
  (100 <? snd bounds - fst bounds) = false.
Proof.
  revert low high. induction fuel as [|fuel IH]; intros low high;
    rewrite binary_search_unfold;
    destruct (100 <? high - low) eqn:Hwide; try discriminate;
    try (intros [= <-]; exact Hwide).
  intros Hrun.
  apply bind_inv in Hrun as (result & _ & Hrun).
  apply bind_inv in Hrun as (summary & _ & Hrun).
  apply bind_inv in Hrun as (net_income & _ & Hrun).
  destruct (net_income <? target); eapply IH; exact Hrun.
Qed.

Lemma binary_search_run :
  binary_search (init settings) 9 20966.399999999998 50000 120000 30000
    0 49420.784
  = Ok (48552.059281249996, 48648.58425).
Proof. vm_compute. reflexivity. Qed.

Lemma binary_search_narrows_witness :
  binary_search (init settings) 9 20966.399999999998 50000 120000 30000
    0 49420.784
  = Ok (48552.059281249996, 48648.58425)
  /\ (100 <? 48648.58425 - 48552.059281249996) = false.
Proof.
  split; [exact binary_search_run|].
  exact (binary_search_narrows _ _ _ _ _ _ _ _ _ binary_search_run).
Defined.

(** ** Income tax *)

(** The walk of [calculate_income_tax] over the five brackets: below each
    threshold, threshold included, the slice above the previous threshold
    is taxed at the rate of the bracket and added to the full slices below;
    an income per part that is below no threshold (NaN) is taxed on the
    five full slices, the last of which is infinite. *)
Lemma income_tax_walk (s : Settings) (taxable_income parts : float) :
  (taxable_income <=? 0) = false -> (parts =? 0) = false ->
  let income := taxable_income / parts in
  calculate_income_tax (init s) taxable_income parts
  = Ok ((if income <=? 11294 then 0 + income * 0
         else if income <=? 28797
         then 0 + 11294 * 0 + (income - 11294) * 0.11
         else if income <=? 82341
         then 0 + 11294 * 0 + (28797 - 11294) * 0.11
              + (income - 28797) * 0.30
         else if income <=? 177106
         then 0 + 11294 * 0 + (28797 - 11294) * 0.11
              + (82341 - 28797) * 0.30 + (income - 82341) * 0.41
         else if income <=? infinity
         then 0 + 11294 * 0 + (28797 - 11294) * 0.11
              + (82341 - 28797) * 0.30 + (177106 - 82341) * 0.41
              + (income - 177106) * 0.45
         else infinity) * parts).
Proof.
  intros Hincome Hparts income. unfold calculate_income_tax, Py.div.
  rewrite Hincome, Hparts. rewrite bind_Ok. cbv zeta. fold income.
  cbn [init income_tax_brackets income_tax_loop].
  repeat (destruct (income <=? _); [reflexivity|]). reflexivity.
Qed.

(** X8.  With a positive number of parts, [calculate_income_tax] returns
    (it never divides by zero) and the tax is never negative, for any
    taxable income. *)
Theorem income_tax_never_negative (s : Settings) (taxable_income parts : float) :
  (0 <? parts) = true ->
  exists tax : float,
    calculate_income_tax (init s) taxable_income parts = Ok tax
    /\ (tax <? 0) = false.
Proof.
  intros Hparts. destruct (taxable_income <=? 0) eqn:Hincome.
  - exists 0. unfold calculate_income_tax. rewrite Hincome. now split.
  - rewrite income_tax_walk by (assumption || now apply FloatOrder.pos_not_zero).
    cbv zeta. eexists. split; [reflexivity|].
    pose proof (FloatSign.div_not_neg _ _ Hincome Hparts) as Hpart.
    apply FloatSign.mul_nonneg; [|exact (FloatSign.pos_not_neg _ Hparts)].
    repeat match goal with
      | |- ((if ?c then _ else _) <? 0) = false =>
          let H := fresh "Hbracket" in destruct c eqn:H
      end;
      try reflexivity;
      (apply FloatSign.add_not_neg; [reflexivity|]);
      apply FloatSign.mul_nonneg; try reflexivity; try exact Hpart;
      (apply FloatSign.sub_above_not_neg; [reflexivity|assumption]).
Qed.

Lemma income_tax_never_negative_witness :
  (0 <? 2) = true
  /\ calculate_income_tax (init settings) 60000 2 = Ok 4572.46
  /\ (4572.46 <? 0) = false.
Proof.
  split; [reflexivity|].
  destruct (income_tax_never_negative settings 60000 2 eq_refl)
    as (tax & Htax & Hsign).
  assert (Hrun : calculate_income_tax (init settings) 60000 2 = Ok 4572.46)
    by (vm_compute; reflexivity).
  rewrite Hrun in Htax. injection Htax as <-. split; [exact Hrun|exact Hsign].
Defined.

(** What is at most a finite float is below infinity. *)
Lemma leb_finite (x y : float) :
  (x <=? y) = true -> (y <? infinity) = true -> (x <? infinity) = true.
Proof.
  rewrite !FloatAxioms.ltb_spec, FloatAxioms.leb_spec.
  change (Prim2SF infinity) with (S754_infinity false).
  destruct (Prim2SF x) as [[]|[]| |[] mx ex], (Prim2SF y) as [[]|[]| |[] my ey];
    cbn; congruence.
Qed.

(** X20.  An income of at most 11294 per part pays no income tax: with a
    positive, finite number of parts, [calculate_income_tax] returns
    exactly 0 when the quotient of the taxable income by the parts is at
    most the first threshold. *)
Theorem income_tax_free_below_first_threshold (s : Settings)
    (taxable_income parts : float) :
  (0 <? parts) = true ->
  (parts <? infinity) = true ->
  (taxable_income / parts <=? 11294) = true ->
  calculate_income_tax (init s) taxable_income parts = Ok 0.
Proof.
  intros Hparts Hfinite Hbelow.
  destruct (taxable_income <=? 0) eqn:Hincome;
    [unfold calculate_income_tax; now rewrite Hincome|].
  rewrite income_tax_walk
    by (assumption || now apply FloatOrder.pos_not_zero).
  cbv zeta. rewrite Hbelow. f_equal.
  pose proof (FloatSign.div_not_neg _ _ Hincome Hparts) as Hsign.
  pose proof (leb_finite _ _ Hbelow eq_refl) as Hbounded.
  clear Hbelow. revert Hparts Hfinite Hbounded Hsign.
  generalize (taxable_income / parts). intros income.
  intros Hparts Hfinite Hbounded Hsign.
  apply Prim2SF_inj.
  rewrite FloatAxioms.mul_spec, FloatAxioms.add_spec, FloatAxioms.mul_spec.
  revert Hparts Hfinite Hbounded Hsign.
  rewrite !FloatAxioms.ltb_spec.
  change (Prim2SF 0) with (S754_zero false).
  change (Prim2SF infinity) with (S754_infinity false).
  destruct (Prim2SF income) as [[]|[]| |[] mi ei],
    (Prim2SF parts) as [[]|[]| |[] mp ep]; cbn; congruence.
Qed.

Lemma income_tax_free_below_first_threshold_witness :
  calculate_income_tax (init settings) 22000 2 = Ok 0.
Proof.
  apply (income_tax_free_below_first_threshold settings 22000 2);
    reflexivity.
Defined.

(** ** Recommendations *)

(** Reads the entries that the hypotheses give. *)
Ltac getitem_known :=
  repeat (first [ rewrite bind_Ok
                | erewrite getitem_Some by eassumption ]; cbv beta).

Section RecommendationsFacts.

Variable self : FrenchTaxCalculator.

(** The recommendations for a result that has every section: the five
    checks, in the order of the source. *)
Lemma generate_recommendations_eq
    (calculation_result : gmap string (gmap string float))
    (input summary vat corporate : gmap string float)
    (salary dividends revenue effective_rate vat_to_pay : float) :
  calculation_result !! "input" = Some input ->
  input !! "gross_salary" = Some salary ->
  input !! "dividends" = Some dividends ->
  input !! "revenue" = Some revenue ->
  calculation_result !! "summary" = Some summary ->
  summary !! "effective_tax_rate" = Some effective_rate ->
  calculation_result !! "vat" = Some vat ->
  vat !! "vat_to_pay" = Some vat_to_pay ->
  calculation_result !! "corporate" = Some corporate ->
  generate_recommendations self calculation_result
  = Ok ((if salary <? smic_annual self
         then [SalaryBelowSmic (smic_annual self)]
         else if pass_annual self * 4 <? salary
              then [SalaryAboveFourPass] else [])
        ++ (if (0 <? dividends) && (salary <? pass_annual self)
            then [RaiseSalaryToPass] else [])
        ++ (if 0.45 <? effective_rate then [HighEffectiveRate] else [])
        ++ (if revenue * 0.15 <? vat_to_pay then [HighVat] else [])
        ++ (if dividends * 2
               <? Py.get corporate "available_for_dividends" 0
            then [UndistributedProfits] else [])).
Proof.
  intros Hinput Hsalary Hdividends Hrevenue Hsummary Hrate Hvat Hpay Hcorporate.
  unfold generate_recommendations. getitem_known. cbv zeta.
  rewrite Hvat. getitem_known. rewrite Hcorporate. getitem_known.
  destruct (salary <? smic_annual self), (pass_annual self * 4 <? salary),
    ((0 <? dividends) && (salary <? pass_annual self)),
    (0.45 <? effective_rate), (revenue * 0.15 <? vat_to_pay),
    (dividends * 2 <? Py.get corporate "available_for_dividends" 0);
    reflexivity.
Qed.

End RecommendationsFacts.

(** X9.  Recommendations can always be drawn from a complete taxation:
    [generate_recommendations] finds every entry it reads, both optional
    sections included, and never raises.  The checks are made on the
    salary, dividends and revenue as they were passed (the dividends as
    requested, not as capped) and on the effective rate, VAT to pay and
    amount available for dividends that the result reports. *)
Theorem recommendations_of_complete_taxation (s : Settings)
    (gross_salary dividends revenue expenses vat_rate : float) :
  exists (result : gmap string (gmap string float))
         (effective_rate vat_to_pay available : float),
    calculate_complete_taxation (init s)
      gross_salary dividends revenue expenses vat_rate = Ok result
    /\ field result "summary" "effective_tax_rate" = Some effective_rate
    /\ field result "vat" "vat_to_pay" = Some vat_to_pay
    /\ field result "corporate" "available_for_dividends" = Some available
    /\ generate_recommendations (init s) result
       = Ok ((if gross_salary <? smic_annual (init s)
              then [SalaryBelowSmic (smic_annual (init s))]
              else if pass_annual (init s) * 4 <? gross_salary
                   then [SalaryAboveFourPass] else [])
             ++ (if (0 <? dividends) && (gross_salary <? pass_annual (init s))
                 then [RaiseSalaryToPass] else [])
             ++ (if 0.45 <? effective_rate then [HighEffectiveRate] else [])
             ++ (if revenue * 0.15 <? vat_to_pay then [HighVat] else [])
             ++ (if dividends * 2 <? available
                 then [UndistributedProfits] else [])).
Proof.
  destruct (complete_taxation_eq s gross_salary dividends revenue expenses vat_rate)
    as (breakdown & social & flat & total & net & _ & _ & _ & _ & _ & Heq).
  cbv zeta in Heq. do 4 eexists. split; [exact Heq|].
  split; [field_literal; reflexivity|].
  split; [unfold calculate_vat; field_literal; reflexivity|].
  split; [field_literal; reflexivity|].
  erewrite generate_recommendations_eq;
    [|unfold calculate_vat; lookup_literal; reflexivity..].
  unfold Py.get. lookup_literal. reflexivity.
Qed.

(** X10.  What [generate_recommendations] cannot do without: it raises
    [KeyError] when the result has no [input] section, when that section
    has no [gross_salary] or no [dividends], when there is no [summary]
    section or no [effective_tax_rate] in it, and, when there is a [vat]
    section, when it has no [vat_to_pay] or the input has no [revenue]. *)
Theorem recommendations_required_entries (self : FrenchTaxCalculator)
    (calculation_result : gmap string (gmap string float)) :
  (calculation_result !! "input" = None ->
   generate_recommendations self calculation_result
   = Raise (KeyError "input"))
  /\ (forall input : gmap string float,
        calculation_result !! "input" = Some input ->
        (input !! "gross_salary" = None ->
         generate_recommendations self calculation_result
         = Raise (KeyError "gross_salary"))
        /\ (is_Some (input !! "gross_salary") ->
            input !! "dividends" = None ->
            generate_recommendations self calculation_result
            = Raise (KeyError "dividends"))
        /\ (is_Some (input !! "gross_salary") ->
            is_Some (input !! "dividends") ->
            (calculation_result !! "summary" = None ->
             generate_recommendations self calculation_result
             = Raise (KeyError "summary"))
            /\ forall summary : gmap string float,
                 calculation_result !! "summary" = Some summary ->
                 (summary !! "effective_tax_rate" = None ->
                  generate_recommendations self calculation_result
                  = Raise (KeyError "effective_tax_rate"))
                 /\ forall vat : gmap string float,
                      is_Some (summary !! "effective_tax_rate") ->
                      calculation_result !! "vat" = Some vat ->
                      (vat !! "vat_to_pay" = None ->
                       generate_recommendations self calculation_result
                       = Raise (KeyError "vat_to_pay"))
                      /\ (is_Some (vat !! "vat_to_pay") ->
                          input !! "revenue" = None ->
                          generate_recommendations self calculation_result
                          = Raise (KeyError "revenue")))).
Proof.
  unfold generate_recommendations, Py.getitem.
  split; [now intros ->|].
  intros input ->. cbn [mbind res_bind].
  split; [now intros ->|].
  split; [now intros [salary ->] ->|].
  intros [salary ->] [dividends ->]. cbn [mbind res_bind].
  split; [now intros ->|].
  intros summary ->. cbn [mbind res_bind].
  split; [now intros ->|].
  intros vat [rate ->] ->. cbn [mbind res_bind].
  split; [now intros ->|].
  now intros [pay ->] ->.
Qed.

Lemma recommendations_required_entries_witness :
  generate_recommendations (init settings) ∅ = Raise (KeyError "input")
  /\ generate_recommendations (init settings)
       {[ "input" := {[ "gross_salary" := 40000; "dividends" := 0 ]} ]}
     = Raise (KeyError "summary").
Proof.
  split.
  - apply (recommendations_required_entries (init settings) ∅).
    apply lookup_empty.
  - destruct (recommendations_required_entries (init settings)
                {[ "input" := {[ "gross_salary" := 40000; "dividends" := 0 ]} ]})
      as [_ Hinput].
    destruct (Hinput {[ "gross_salary" := 40000; "dividends" := 0 ]})
      as (_ & _ & Hsummary); [lookup_literal; reflexivity|].
    apply Hsummary; [eexists; lookup_literal; reflexivity..|].
    lookup_literal. reflexivity.
Defined.

(** X11.  The [vat] and [corporate] sections are optional for
    [generate_recommendations]: on a result without them, only the three
    checks on the salary, the dividends and the effective rate are made,
    and the [revenue] is not even read.  A [corporate] section without
    [available_for_dividends] counts as 0 available. *)
Theorem recommendations_optional_sections (self : FrenchTaxCalculator)
    (calculation_result : gmap string (gmap string float))
    (input summary : gmap string float)
    (salary dividends effective_rate : float) :
  calculation_result !! "input" = Some input ->
  input !! "gross_salary" = Some salary ->
  input !! "dividends" = Some dividends ->
  calculation_result !! "summary" = Some summary ->
  summary !! "effective_tax_rate" = Some effective_rate ->
  calculation_result !! "vat" = None ->
  let first_checks :=
    (if salary <? smic_annual self
     then [SalaryBelowSmic (smic_annual self)]
     else if pass_annual self * 4 <? salary
          then [SalaryAboveFourPass] else [])
    ++ (if (0 <? dividends) && (salary <? pass_annual self)
        then [RaiseSalaryToPass] else [])
    ++ (if 0.45 <? effective_rate then [HighEffectiveRate] else []) in
  (calculation_result !! "corporate" = None ->
   generate_recommendations self calculation_result = Ok first_checks)
  /\ (forall corporate : gmap string float,
        calculation_result !! "corporate" = Some corporate ->
        corporate !! "available_for_dividends" = None ->
        generate_recommendations self calculation_result
        = Ok (first_checks
              ++ (if dividends * 2 <? 0 then [UndistributedProfits] else []))).
Proof.
  intros Hinput Hsalary Hdividends Hsummary Hrate Hvat first_checks.
  subst first_checks. split.
  - intros Hcorporate. unfold generate_recommendations.
    cbv zeta. rewrite Hvat, Hcorporate.
    change (@mret res _ ?A ?x) with (Ok x). getitem_known.
    destruct (salary <? smic_annual self), (pass_annual self * 4 <? salary),
      ((0 <? dividends) && (salary <? pass_annual self)),
      (0.45 <? effective_rate); reflexivity.
  - intros corporate Hcorporate Havailable. unfold generate_recommendations.
    cbv zeta. rewrite Hvat, Hcorporate.
    change (@mret res _ ?A ?x) with (Ok x). getitem_known.
    unfold Py.get. rewrite Havailable.
    destruct (salary <? smic_annual self), (pass_annual self * 4 <? salary),
      ((0 <? dividends) && (salary <? pass_annual self)),
      (0.45 <? effective_rate), (dividends * 2 <? 0); reflexivity.
Qed.

Lemma recommendations_optional_sections_witness :
  generate_recommendations (init settings)
    {[ "input" := {[ "gross_salary" := 10000; "dividends" := 5000 ]};
       "summary" := {[ "effective_tax_rate" := 0.5 ]} ]}
  = Ok [SalaryBelowSmic 20966.399999999998; RaiseSalaryToPass;
        HighEffectiveRate].
Proof.
  refine (proj1 (recommendations_optional_sections (init settings) _
                   {[ "gross_salary" := 10000; "dividends" := 5000 ]}
                   {[ "effective_tax_rate" := 0.5 ]} 10000 5000 0.5
                   _ _ _ _ _ _) _);
    lookup_literal; try rewrite lookup_empty; reflexivity.
Defined.

(** X12.  Whatever result it is given, [generate_recommendations] returns
    at most five messages, in the order of its checks, and never both the
    message on a salary below the minimum wage and the one on a salary
    above four times the ceiling: its list is a sublist of one of the two
    lists below. *)
Theorem recommendations_are_ordered (self : FrenchTaxCalculator)
    (calculation_result : gmap string (gmap string float))
    (recommendations : list recommendation) :
  generate_recommendations self calculation_result = Ok recommendations ->
  recommendations
    `sublist_of` [SalaryBelowSmic (smic_annual self); RaiseSalaryToPass;
                  HighEffectiveRate; HighVat; UndistributedProfits]
  \/ recommendations
       `sublist_of` [SalaryAboveFourPass; RaiseSalaryToPass;
                     HighEffectiveRate; HighVat; UndistributedProfits].
Proof.
  unfold generate_recommendations. intros Hrun.
  apply bind_inv in Hrun as (input & _ & Hrun).
  apply bind_inv in Hrun as (salary & _ & Hrun).
  apply bind_inv in Hrun as (input' & _ & Hrun).
  apply bind_inv in Hrun as (dividends & _ & Hrun).
  apply bind_inv in Hrun as (summary & _ & Hrun).
  apply bind_inv in Hrun as (effective_rate & _ & Hrun).
  cbv zeta in Hrun.
  apply bind_inv in Hrun as (with_vat & Hvat & Hrun).
  apply bind_inv in Hrun as (with_corporate & Hcorporate & Hrun).
  injection Hrun as <-.
  assert (Hvat' : exists high_vat : bool,
             with_vat
             = (if salary <? smic_annual self
                then [SalaryBelowSmic (smic_annual self)]
                else if pass_annual self * 4 <? salary
                     then [SalaryAboveFourPass] else [])
               ++ (if (0 <? dividends) && (salary <? pass_annual self)
                   then [RaiseSalaryToPass] else [])
               ++ (if 0.45 <? effective_rate then [HighEffectiveRate] else [])
               ++ (if high_vat then [HighVat] else [])).
  { destruct (calculation_result !! "vat").
    - apply bind_inv in Hvat as (vat & _ & Hvat).
      apply bind_inv in Hvat as (vat_to_pay & _ & Hvat).
      apply bind_inv in Hvat as (input'' & _ & Hvat).
      apply bind_inv in Hvat as (revenue & _ & Hvat).
      injection Hvat as <-. exists (revenue * 0.15 <? vat_to_pay).
      destruct (salary <? smic_annual self), (pass_annual self * 4 <? salary),
        ((0 <? dividends) && (salary <? pass_annual self)),
        (0.45 <? effective_rate), (revenue * 0.15 <? vat_to_pay); reflexivity.
    - injection Hvat as <-. exists false.
      destruct (salary <? smic_annual self), (pass_annual self * 4 <? salary),
        ((0 <? dividends) && (salary <? pass_annual self)),
        (0.45 <? effective_rate); reflexivity. }
  destruct Hvat' as (high_vat & ->).
  assert (Hcorporate' : exists undistributed : bool,
             with_corporate
             = (if salary <? smic_annual self
                then [SalaryBelowSmic (smic_annual self)]
                else if pass_annual self * 4 <? salary
                     then [SalaryAboveFourPass] else [])
               ++ (if (0 <? dividends) && (salary <? pass_annual self)
                   then [RaiseSalaryToPass] else [])
               ++ (if 0.45 <? effective_rate then [HighEffectiveRate] else [])
               ++ (if high_vat then [HighVat] else [])
               ++ (if undistributed then [UndistributedProfits] else [])).
  { destruct (calculation_result !! "corporate").
    - apply bind_inv in Hcorporate as (corporate & _ & Hcorporate).
      injection Hcorporate as <-.
      exists (dividends * 2 <? Py.get corporate "available_for_dividends" 0).
      destruct (_ <? Py.get corporate _ _);
        [now rewrite <- !app_assoc | now rewrite !app_nil_r].
    - injection Hcorporate as <-. exists false. now rewrite !app_nil_r. }
  destruct Hcorporate' as (undistributed & ->).
  destruct (salary <? smic_annual self), (pass_annual self * 4 <? salary),
    ((0 <? dividends) && (salary <? pass_annual self)),
    (0.45 <? effective_rate), high_vat, undistributed; cbn [app];
    solve [ left; repeat first [ apply sublist_nil | apply sublist_skip
                               | apply sublist_cons ]
          | right; repeat first [ apply sublist_nil | apply sublist_skip
                                | apply sublist_cons ] ].
Qed.

Lemma recommendations_run :
  generate_recommendations (init settings)
    {[ "input" := {[ "gross_salary" := 10000; "dividends" := 5000 ]};
       "summary" := {[ "effective_tax_rate" := 0.5 ]} ]}
  = Ok [SalaryBelowSmic 20966.399999999998; RaiseSalaryToPass;
        HighEffectiveRate].
Proof. vm_compute. reflexivity. Qed.

Lemma recommendations_are_ordered_witness :
  [SalaryBelowSmic 20966.399999999998; RaiseSalaryToPass; HighEffectiveRate]
    `sublist_of` [SalaryBelowSmic (smic_annual (init settings));
                  RaiseSalaryToPass; HighEffectiveRate; HighVat;
                  UndistributedProfits]
  \/ [SalaryBelowSmic 20966.399999999998; RaiseSalaryToPass; HighEffectiveRate]
       `sublist_of` [SalaryAboveFourPass; RaiseSalaryToPass;
                     HighEffectiveRate; HighVat; UndistributedProfits].
Proof.
  exact (recommendations_are_ordered _ _ _ recommendations_run).
Defined.

(** ** The optimizer, beyond the claims *)

(** *** Exceptions *)

Lemma bind_raise {A B} (m : res A) (f : A -> res B) e :
  (m ≫= f) = Raise e -> m = Raise e \/ exists a, m = Ok a /\ f a = Raise e.
Proof.
  destruct m as [a| |]; cbn; try discriminate; [eauto|].
  intros [= ->]. now left.
Qed.

Lemma for_each_raise {A S} (body : S -> A -> res S) xs e :
  forall st, for_each body xs st = Raise e ->
             exists st' x, In x xs /\ body st' x = Raise e.
Proof.
  induction xs as [|x xs IH]; intros st; cbn [for_each]; [intros [=]|].
  intros [Hx|(st1 & _ & Hrest)]%bind_raise.
  - exists st, x. split; [now left|assumption].
  - destruct (IH _ Hrest) as (st' & y & Hin & Hy).
    exists st', y. split; [now right|assumption].
Qed.

Section OptimizerErrors.

Variable s : Settings.

(** The entries of the summary that the optimizer reads are in every
    complete taxation. *)
Lemma complete_taxation_summary
    (gross_salary dividends revenue expenses vat_rate : float) :
  exists (result : gmap string (gmap string float)) (summary : gmap string float)
         (net_income total_taxes rate : float),
    calculate_complete_taxation (init s)
      gross_salary dividends revenue expenses vat_rate = Ok result
    /\ result !! "summary" = Some summary
    /\ summary !! "net_income" = Some net_income
    /\ summary !! "total_taxes" = Some total_taxes
    /\ summary !! "effective_tax_rate" = Some rate.
Proof.
  destruct (complete_taxation_eq s gross_salary dividends revenue expenses vat_rate)
    as (dividend_tax & social & flat & total & net & _ & _ & _ & _ & _ & Heq).
  cbv zeta in Heq. do 5 eexists. split; [exact Heq|].
  repeat split; lookup_literal; reflexivity.
Qed.

Lemma binary_search_never_raises fuel test_salary target revenue expenses e :
  forall low high,
    binary_search (init s) fuel test_salary target revenue expenses low high
    <> Raise e.
Proof.
  induction fuel as [|fuel IH]; intros low high;
    rewrite (binary_search_unfold (init s)).
  - destruct (100 <? high - low); intros [=].
  - destruct (100 <? high - low); [|intros [=]].
    destruct (complete_taxation_summary test_salary ((low + high) / 2)
                revenue expenses default_vat_rate)
      as (result & summary & net_income & total_taxes & rate
          & Hcalc & Hsummary & Hnet & _).
    rewrite Hcalc. getitem_known.
    destruct (net_income <? target); apply IH.
Qed.

Lemma salary_loop_body_never_raises fuel
    target revenue expenses min_salary max_salary st i e :
  salary_loop_body (init s) fuel target revenue expenses min_salary max_salary
    st i <> Raise e.
Proof.
  unfold salary_loop_body. rewrite social_charges_eq, bind_Ok.
  getitem_literal. cbv zeta.
  destruct (_ <=? 0); [intros [=]|].
  destruct (_ <=? 0); [intros [=]|].
  intros [Hsearch|(bounds & _ & Hrest)]%bind_raise;
    [exact (binary_search_never_raises _ _ _ _ _ _ _ _ Hsearch)|].
  revert Hrest.
  destruct (complete_taxation_summary (test_salary_at min_salary max_salary i)
              ((fst bounds + snd bounds) / 2) revenue expenses default_vat_rate)
    as (result & summary & net_income & total_taxes & rate
        & Hcalc & Hsummary & Hnet & Htotal & _).
  rewrite Hcalc. getitem_known.
  destruct (abs (net_income - target) <? 1000); [|intros [=]].
  getitem_known.
  destruct (total_taxes <? min_total_tax st); [|intros [=]].
  getitem_known. intros [=].
Qed.

End OptimizerErrors.

(** The optimizer of the calculator built by [init] raises nothing. *)
Lemma optimize_remuneration_never_raises (s : Settings) (fuel : nat)
    (target revenue expenses : float)
    (constraints : option (gmap string float)) (e : exn) :
  optimize_remuneration (init s) fuel target revenue expenses constraints
  <> Raise e.
Proof.
  unfold optimize_remuneration. cbv zeta.
  intros [Hloop|(st & Hloop & Hrest)]%bind_raise.
  - apply for_each_raise in Hloop as (st' & i & _ & Hbody).
    exact (salary_loop_body_never_raises _ _ _ _ _ _ _ _ _ _ Hbody).
  - apply salary_loop_invariant in Hloop; [|now split].
    revert Hrest. unfold search_invariant in Hloop.
    destruct (best_result st) as [result|].
    + destruct Hloop as (Hcalc & _).
      destruct (complete_taxation_summary s (best_salary st) (best_dividends st)
                  revenue expenses default_vat_rate)
        as (result' & summary & net_income & total_taxes & rate
            & Hcalc' & Hsummary & Hnet & Htotal & Hrate).
      rewrite Hcalc in Hcalc'. injection Hcalc' as <-.
      cbn [mbind res_bind mret res_ret]. getitem_known. intros [=].
    + destruct (complete_taxation_summary s
                  (Py.get (default ∅ constraints) "min_salary"
                     (smic_annual (init s)))
                  0 revenue expenses default_vat_rate)
        as (result' & summary & net_income & total_taxes & rate
            & Hcalc' & Hsummary & Hnet & Htotal & Hrate).
      rewrite Hcalc'. cbn [mbind res_bind mret res_ret].
      getitem_known. intros [=].
Qed.

(** X13.  [optimize_remuneration] raises nothing, whatever floats and
    constraints it is given: every key it reads is there and it divides by
    no zero.  It returns, unless one of its bisections does not end. *)
Theorem optimizer_never_raises (s : Settings) (fuel : nat)
    (target revenue expenses : float)
    (constraints : option (gmap string float)) (e : exn) :
  optimize_remuneration (init s) fuel target revenue expenses constraints
  <> Raise e.
Proof. apply optimize_remuneration_never_raises. Qed.

(** *** The sign of the dividends *)

Section OptimizerDividends.

Variable self : FrenchTaxCalculator.

Lemma binary_search_not_neg fuel test_salary target revenue expenses :
  forall low high bounds,
    (low <? 0) = false -> (high <? 0) = false ->
    binary_search self fuel test_salary target revenue expenses low high
    = Ok bounds ->
    (fst bounds <? 0) = false /\ (snd bounds <? 0) = false.
Proof.
  induction fuel as [|fuel IH]; intros low high bounds Hlow Hhigh;
    rewrite binary_search_unfold.
  - destruct (100 <? high - low); [intros [=]|]. intros [= <-]. auto.
  - destruct (100 <? high - low); [|intros [= <-]; auto].
    intros Hrun.
    apply bind_inv in Hrun as (result & _ & Hrun).
    apply bind_inv in Hrun as (summary & _ & Hrun).
    apply bind_inv in Hrun as (net_income & _ & Hrun).
    assert (Hmid : ((low + high) / 2 <? 0) = false)
      by (apply FloatSign.half_not_neg, FloatSign.add_not_neg; assumption).
    destruct (net_income <? target); eapply IH; try exact Hrun; assumption.
Qed.

Lemma salary_loop_body_dividends fuel
    target revenue expenses min_salary max_salary st i st' :
  (best_dividends st <? 0) = false ->
  salary_loop_body self fuel target revenue expenses min_salary max_salary st i
  = Ok st' ->
  (best_dividends st' <? 0) = false.
Proof.
  intros Hst. unfold salary_loop_body. intros Hstep.
  apply bind_inv in Hstep as (salary_result & _ & Hstep).
  apply bind_inv in Hstep as (total_cost & _ & Hstep).
  cbv zeta in Hstep.
  destruct (_ <=? 0); [now injection Hstep as <-|].
  destruct (_ <=? 0) eqn:Havailable; [now injection Hstep as <-|].
  apply bind_inv in Hstep as (bounds & Hbounds & Hstep).
  apply binary_search_not_neg in Hbounds as [Hlow Hhigh];
    [|reflexivity|now apply FloatSign.not_le0_not_neg].
  apply bind_inv in Hstep as (result & _ & Hstep).
  apply bind_inv in Hstep as (summary & _ & Hstep).
  apply bind_inv in Hstep as (net_income & _ & Hstep).
  destruct (abs (net_income - target) <? 1000); [|now injection Hstep as <-].
  apply bind_inv in Hstep as (summary' & _ & Hstep).
  apply bind_inv in Hstep as (total_taxes & _ & Hstep).
  destruct (total_taxes <? min_total_tax st); [|now injection Hstep as <-].
  apply bind_inv in Hstep as (summary'' & _ & Hstep).
  apply bind_inv in Hstep as (total_taxes' & _ & Hstep).
  injection Hstep as <-. cbn [best_dividends].
  apply FloatSign.half_not_neg, FloatSign.add_not_neg; assumption.
Qed.

End OptimizerDividends.

(** X14.  The dividends that [optimize_remuneration] proposes are never
    negative, for any calculator, inputs and constraints: they are 0 or the
    middle of a bracket that the bisection keeps between 0 and a positive
    amount available. *)
Theorem optimizer_dividends_never_negative (self : FrenchTaxCalculator)
    (fuel : nat) (target revenue expenses : float)
    (constraints : option (gmap string float)) (r : OptimizationResult) :
  optimize_remuneration self fuel target revenue expenses constraints = Ok r ->
  (optimal_dividends r <? 0) = false.
Proof.
  unfold optimize_remuneration. cbv zeta. intros Hrun.
  apply bind_inv in Hrun as (st & Hloop & Hrun).
  apply (for_each_invariant (fun st => (best_dividends st <? 0) = false))
    in Hloop;
    [|intros st0 i st1 _; apply salary_loop_body_dividends|reflexivity].
  apply bind_inv in Hrun as ([[salary dividends] best] & Hbest & Hrun).
  assert (Hdividends : (dividends <? 0) = false).
  { destruct (best_result st).
    - now injection Hbest as <- <- <-.
    - apply bind_inv in Hbest as (fallback & _ & Hbest).
      now injection Hbest as <- <- <-. }
  apply bind_inv in Hrun as (summary & _ & Hrun).
  apply bind_inv in Hrun as (net_income & _ & Hrun).
  apply bind_inv in Hrun as (summary1 & _ & Hrun).
  apply bind_inv in Hrun as (total_taxes & _ & Hrun).
  apply bind_inv in Hrun as (summary2 & _ & Hrun).
  apply bind_inv in Hrun as (rate & _ & Hrun).
  apply bind_inv in Hrun as (summary3 & _ & Hrun).
  injection Hrun as <-. exact Hdividends.
Qed.

Lemma optimizer_dividends_never_negative_witness :
  exists r : OptimizationResult,
    optimize_remuneration (init settings) 9 50000 120000 30000 (Some ∅) = Ok r
    /\ optimal_dividends r = 48600.321765624998
    /\ (optimal_dividends r <? 0) = false.
Proof.
  destruct (optimum_inv _ _ _ _ scenario_optimizer_run)
    as (r & Hrun & _ & Hdividends & _).
  exists r. split; [exact Hrun|]. split; [exact Hdividends|].
  exact (optimizer_dividends_never_negative _ _ _ _ _ _ _ Hrun).
Defined.

(** *** The figures of the result *)

(** The four figures read from the summary of the best result. *)
Lemma optimize_remuneration_fields (self : FrenchTaxCalculator) fuel
    target revenue expenses constraints r :
  optimize_remuneration self fuel target revenue expenses constraints = Ok r ->
  full_calculation r !! "summary" = Some (breakdown r)
  /\ breakdown r !! "net_income" = Some (net_income_achieved r)
  /\ breakdown r !! "total_taxes" = Some (total_tax_burden r)
  /\ breakdown r !! "effective_tax_rate" = Some (effective_tax_rate r).
Proof.
  unfold optimize_remuneration. cbv zeta. intros Hrun.
  apply bind_inv in Hrun as (st & _ & Hrun).
  apply bind_inv in Hrun as ([[salary dividends] best] & _ & Hrun).
  apply bind_inv in Hrun as (summary & Hsummary%getitem_inv & Hrun).
  apply bind_inv in Hrun as (net_income & Hnet%getitem_inv & Hrun).
  apply bind_inv in Hrun as (summary1 & Hsummary1%getitem_inv & Hrun).
  apply bind_inv in Hrun as (total_taxes & Htotal%getitem_inv & Hrun).
  apply bind_inv in Hrun as (summary2 & Hsummary2%getitem_inv & Hrun).
  apply bind_inv in Hrun as (rate & Hrate%getitem_inv & Hrun).
  apply bind_inv in Hrun as (summary3 & Hsummary3%getitem_inv & Hrun).
  injection Hrun as <-. cbn.
  assert (summary = summary3) as -> by congruence.
  assert (summary1 = summary3) as -> by congruence.
  assert (summary2 = summary3) as -> by congruence.
  auto.
Qed.

(** X15.  The result of [optimize_remuneration] is consistent: its full
    calculation is made for the salary and dividends it proposes, its
    breakdown is the summary of that calculation, its three figures are the
    net income, total taxes and effective rate of that summary, and so the
    effective rate is the total tax burden divided by the revenue, or 0
    when the revenue is not positive. *)
Theorem optimizer_result_is_consistent (s : Settings) (fuel : nat)
    (target revenue expenses : float)
    (constraints : option (gmap string float)) (r : OptimizationResult) :
  optimize_remuneration (init s) fuel target revenue expenses constraints = Ok r ->
  field (full_calculation r) "input" "gross_salary"
  = Some (optimal_gross_salary r)
  /\ field (full_calculation r) "input" "dividends"
     = Some (optimal_dividends r)
  /\ full_calculation r !! "summary" = Some (breakdown r)
  /\ breakdown r !! "net_income" = Some (net_income_achieved r)
  /\ breakdown r !! "total_taxes" = Some (total_tax_burden r)
  /\ breakdown r !! "effective_tax_rate" = Some (effective_tax_rate r)
  /\ effective_tax_rate r
     = (if 0 <? revenue then total_tax_burden r / revenue else 0).
Proof.
  intros Hrun.
  destruct (optimize_remuneration_result _ _ _ _ _ _ _ Hrun) as (Hcalc & _).
  destruct (optimize_remuneration_fields _ _ _ _ _ _ _ Hrun)
    as (Hsummary & Hnet & Htotal & Hrate).
  destruct (complete_taxation_eq s (optimal_gross_salary r)
              (optimal_dividends r) revenue expenses default_vat_rate)
    as (dividend_tax & social & flat & total & net & _ & _ & _ & _ & _ & Heq).
  cbv zeta in Heq. rewrite Heq in Hcalc. injection Hcalc as Hfull.
  split; [rewrite <- Hfull; field_literal; reflexivity|].
  split; [rewrite <- Hfull; field_literal; reflexivity|].
  repeat (split; [assumption|]).
  revert Hsummary. rewrite <- Hfull. lookup_literal. intros [= Hbreakdown].
  revert Htotal Hrate. rewrite <- Hbreakdown. lookup_literal.
  now intros [= <-] [= <-].
Qed.

Lemma optimizer_result_is_consistent_witness :
  exists r : OptimizationResult,
    optimize_remuneration (init settings) 9 50000 120000 30000 (Some ∅) = Ok r
    /\ field (full_calculation r) "input" "gross_salary"
       = Some 20966.399999999998
    /\ field (full_calculation r) "input" "dividends"
       = Some 48600.321765624998
    /\ breakdown r !! "net_income" = Some 49997.331827937494
    /\ effective_tax_rate r = total_tax_burden r / 120000.
Proof.
  destruct (optimum_inv _ _ _ _ scenario_optimizer_run)
    as (r & Hrun & Hsalary & Hdividends & Hnet).
  exists r. split; [exact Hrun|].
  destruct (optimizer_result_is_consistent settings 9 50000 120000 30000
              (Some ∅) r Hrun)
    as (Hinput_salary & Hinput_dividends & _ & Hnet_income & _ & _ & Hrate).
  rewrite Hsalary in Hinput_salary. rewrite Hdividends in Hinput_dividends.
  rewrite Hnet in Hnet_income.
  split; [exact Hinput_salary|]. split; [exact Hinput_dividends|].
  split; [exact Hnet_income|exact Hrate].
Defined.

(** *** The least total tax *)

(** X16.  None of the 21 sampled salaries improves on what
    [optimize_remuneration] returns: from any state whose least total tax
    is the returned total tax burden, the body of the salary loop leaves
    the state as it is, for every sample.  Each sample is skipped, or
    misses the target by 1000 or more, or has a total tax that is not
    below the returned one. *)
Theorem optimizer_result_not_improved (self : FrenchTaxCalculator)
    (fuel : nat) (target revenue expenses : float)
    (constraints : option (gmap string float)) (r : OptimizationResult) :
  optimize_remuneration self fuel target revenue expenses constraints = Ok r ->
  let min_salary :=
    Py.get (default ∅ constraints) "min_salary" (smic_annual self) in
  let max_salary :=
    Py.get (default ∅ constraints) "max_salary" (revenue * 0.8) in
  forall (i : nat) (st : search_state),
    In i salary_range ->
    min_total_tax st = total_tax_burden r ->
    salary_loop_body self fuel target revenue expenses min_salary max_salary
      st i = Ok st.
Proof.
  exact (optimize_remuneration_no_gain self fuel target revenue expenses
           constraints r).
Qed.

Lemma optimizer_result_not_improved_witness :
  exists r : OptimizationResult,
    optimize_remuneration (init settings) 9 50000 120000 30000 (Some ∅) = Ok r
    /\ forall (i : nat) (st : search_state),
         In i salary_range ->
         min_total_tax st = total_tax_burden r ->
         salary_loop_body (init settings) 9 50000 120000 30000
           (Py.get (default ∅ (Some ∅)) "min_salary"
              (smic_annual (init settings)))
           (Py.get (default ∅ (Some ∅)) "max_salary" (120000 * 0.8))
           st i = Ok st.
Proof.
  destruct (optimum_inv _ _ _ _ scenario_optimizer_run) as (r & Hrun & _).
  exists r. split; [exact Hrun|].
  exact (optimizer_result_not_improved _ _ _ _ _ _ _ Hrun).
Defined.

(** ** The endpoints *)

(** The tax on dividends is the sum of its two parts. *)
Lemma dividends_total_tax (s : Settings) (dividends : float) :
  exists (dividend_tax : gmap string float) (social flat net : float),
    calculate_dividends_taxation (init s) dividends = Ok dividend_tax
    /\ dividend_tax !! "social_charges" = Some social
    /\ dividend_tax !! "income_tax" = Some flat
    /\ dividend_tax !! "total_tax" = Some (social + flat)
    /\ dividend_tax !! "net_dividends" = Some net.
Proof.
  destruct (dividends <=? 0) eqn:Hsign.
  - rewrite dividends_taxation_nonpos by exact Hsign.
    exists zero_breakdown, 0, 0, 0. unfold zero_breakdown.
    split; [reflexivity|]. repeat split; lookup_literal; reflexivity.
  - rewrite dividends_taxation_pos by exact Hsign.
    do 4 eexists. split; [reflexivity|].
    repeat split; lookup_literal; reflexivity.
Qed.

(** Reads entries of dictionary literals and of dictionaries that the
    hypotheses describe. *)
Ltac getitem_any :=
  repeat (first [ rewrite bind_Ok
                | erewrite getitem_Some
                    by first [ eassumption | lookup_literal; reflexivity ] ];
          cbv beta).

Section EndpointFacts.

Variable Company : Type.
Variable first_company : Z -> Z -> option Company.
Variable s : Settings.

(** The answer of [calculate_taxes] to the check on the company. *)
Lemma calculate_taxes_check (request : TaxCalculationRequest.t)
    (current_user_id : Z) :
  (exists company_id : Z,
     TaxCalculationRequest.company_id request = Some company_id
     /\ company_id <> 0%Z
     /\ first_company company_id current_user_id = None
     /\ calculate_taxes Company first_company s request current_user_id
        = inl {| status_code := 404; detail := "Company not found" |})
  \/ ((TaxCalculationRequest.company_id request = None
       \/ TaxCalculationRequest.company_id request = Some 0%Z
       \/ exists (company_id : Z) (company : Company),
            TaxCalculationRequest.company_id request = Some company_id
            /\ first_company company_id current_user_id = Some company)
      /\ forall e : HTTPException,
           calculate_taxes Company first_company s request current_user_id
           <> inl e).
Proof.
  unfold calculate_taxes. cbv zeta.
  destruct (TaxCalculationRequest.company_id request) as [company_id|].
  - destruct (Z.eqb_spec company_id 0) as [->|Hnonzero].
    + right. split; [auto|]. intros e [=].
    + destruct (first_company company_id current_user_id) as [company|] eqn:Hq.
      * right. split; [eauto 6|]. intros e [=].
      * left. exists company_id. auto.
  - right. split; [auto|]. intros e [=].
Qed.

(** [calculate_taxes] past the check, in closed form. *)
Lemma calculate_taxes_accepted (request : TaxCalculationRequest.t)
    (current_user_id : Z) :
  let gross_salary := TaxCalculationRequest.gross_salary request in
  let dividends := TaxCalculationRequest.dividends request in
  let revenue := TaxCalculationRequest.revenue request in
  let expenses := TaxCalculationRequest.expenses request in
  (forall e : HTTPException,
     calculate_taxes Company first_company s request current_user_id <> inl e) ->
  exists (result : gmap string (gmap string float))
         (advice : list recommendation)
         (tax_on_salary social flat net_income rate : float),
    calculate_complete_taxation (init s)
      gross_salary dividends revenue expenses 0.20 = Ok result
    /\ generate_recommendations (init s) result = Ok advice
    /\ field result "income_tax" "tax_on_salary" = Some tax_on_salary
    /\ field result "dividends" "social_charges" = Some social
    /\ field result "dividends" "income_tax" = Some flat
    /\ calculate_taxes Company first_company s request current_user_id
       = inr (Ok
           {| TaxCalculationResult.gross_salary := gross_salary;
              TaxCalculationResult.dividends := dividends;
              TaxCalculationResult.revenue := revenue;
              TaxCalculationResult.expenses := expenses;
              TaxCalculationResult.profit_before_tax :=
                revenue - expenses - (gross_salary + gross_salary * 0.42);
              TaxCalculationResult.net_salary :=
                gross_salary - gross_salary * 0.22;
              TaxCalculationResult.employer_social_charges :=
                gross_salary * 0.42;
              TaxCalculationResult.employee_social_charges :=
                gross_salary * 0.22;
              TaxCalculationResult.total_social_charges :=
                gross_salary * 0.42 + gross_salary * 0.22 + social;
              TaxCalculationResult.corporate_tax :=
                calculate_corporate_tax (init s)
                  (revenue - expenses - (gross_salary + gross_salary * 0.42));
              TaxCalculationResult.income_tax := tax_on_salary + flat;
              TaxCalculationResult.dividend_tax := social + flat;
              TaxCalculationResult.vat_to_pay :=
                Py.max 0 (revenue * 0.20 - expenses * 0.20);
              TaxCalculationResult.total_taxes :=
                gross_salary * 0.42 + gross_salary * 0.22
                + calculate_corporate_tax (init s)
                    (revenue - expenses
                     - (gross_salary + gross_salary * 0.42))
                + (social + flat) + tax_on_salary
                + Py.max 0 (revenue * 0.20 - expenses * 0.20);
              TaxCalculationResult.net_income_after_tax := net_income;
              TaxCalculationResult.effective_tax_rate := rate;
              TaxCalculationResult.optimization_potential := 0;
              TaxCalculationResult.suggested_salary := None;
              TaxCalculationResult.suggested_dividends := None;
              TaxCalculationResult.calculation_details := result;
              TaxCalculationResult.recommendations :=
                if TaxCalculationRequest.include_recommendations request
                then Some advice else None |}).
Proof.
  intros gross_salary dividends revenue expenses Haccepted.
  revert Haccepted. unfold calculate_taxes. cbv zeta.
  match goal with
  | |- context [if ?check then inl ?e else _] =>
      destruct check; [intros Haccepted; now destruct (Haccepted e)|]
  end.
  intros _.
  fold gross_salary. fold dividends. fold revenue. fold expenses.
  destruct (complete_taxation_eq s gross_salary dividends revenue
              expenses 0.20)
    as (dividend_tax & social & flat & total & net & Hdividends & Hsocial
        & Hflat & Htotal & Hnet & Heq).
  cbv zeta in Heq.
  destruct (dividends_total_tax s
              (Py.min dividends
                 (Py.max 0
                    (revenue - expenses - (gross_salary + gross_salary * 0.42)
                     - calculate_corporate_tax (init s)
                         (revenue - expenses
                          - (gross_salary + gross_salary * 0.42))))))
    as (dividend_tax' & social' & flat' & net' & Hdividends' & Hsocial'
        & Hflat' & Htotal' & _).
  rewrite Hdividends in Hdividends'. injection Hdividends' as <-.
  rewrite Hsocial in Hsocial'. injection Hsocial' as <-.
  rewrite Hflat in Hflat'. injection Hflat' as <-.
  rewrite Htotal in Htotal'. injection Htotal' as ->.
  unfold default_vat_rate. rewrite Heq, bind_Ok.
  match goal with
  | |- context [generate_recommendations _ ?r] => set (result := r)
  end.
  assert (Hadvice : exists advice,
             generate_recommendations (init s) result = Ok advice).
  { eexists. subst result.
    erewrite generate_recommendations_eq;
      [reflexivity|unfold calculate_vat; lookup_literal; reflexivity..]. }
  destruct Hadvice as (advice & Hadvice).
  eexists result, advice, _, social, flat, _, _.
  split; [reflexivity|]. split; [exact Hadvice|].
  split; [subst result; field_literal; reflexivity|].
  split; [subst result; field_literal; exact Hsocial|].
  split; [subst result; field_literal; exact Hflat|].
  rewrite Hadvice.
  destruct (TaxCalculationRequest.include_recommendations request);
    rewrite !bind_Ok; subst result; unfold calculate_vat; getitem_any;
    reflexivity.
Qed.

End EndpointFacts.

(** X17.  In every environment, that is for all the settings that the
    calculator is built from, [calculate_taxes] checks the company only
    when the request names one with an id other than 0: then, if the query
    finds no such company of the user, the answer is the 404 "Company not
    found", whatever the amounts.  Without a company id, with the id 0, or
    with a company that is found, it always returns a response, for any
    amounts: no entry it reads is missing.  The response echoes the four amounts, carries the
    complete taxation at the VAT rate 0.20 as its details, the
    recommendations drawn from it by the calculator of the configured
    settings exactly when they are asked for, and an optimization potential
    of 0. *)
Theorem calculate_taxes_answers (Company : Type)
    (first_company : Z -> Z -> option Company) (s : Settings)
    (request : TaxCalculationRequest.t) (current_user_id : Z) :
  (forall company_id : Z,
     TaxCalculationRequest.company_id request = Some company_id ->
     company_id <> 0%Z ->
     first_company company_id current_user_id = None ->
     calculate_taxes Company first_company s request current_user_id
     = inl {| status_code := 404; detail := "Company not found" |})
  /\ (TaxCalculationRequest.company_id request = None
      \/ TaxCalculationRequest.company_id request = Some 0%Z
      \/ (exists (company_id : Z) (company : Company),
            TaxCalculationRequest.company_id request = Some company_id
            /\ first_company company_id current_user_id = Some company) ->
      exists (response : TaxCalculationResult.t)
             (result : gmap string (gmap string float))
             (advice : list recommendation),
        calculate_taxes Company first_company s request current_user_id
        = inr (Ok response)
        /\ calculate_complete_taxation (init s)
             (TaxCalculationRequest.gross_salary request)
             (TaxCalculationRequest.dividends request)
             (TaxCalculationRequest.revenue request)
             (TaxCalculationRequest.expenses request) 0.20 = Ok result
        /\ generate_recommendations (init s) result = Ok advice
        /\ TaxCalculationResult.calculation_details response = result
        /\ TaxCalculationResult.recommendations response
           = (if TaxCalculationRequest.include_recommendations request
              then Some advice else None)
        /\ TaxCalculationResult.gross_salary response
           = TaxCalculationRequest.gross_salary request
        /\ TaxCalculationResult.dividends response
           = TaxCalculationRequest.dividends request
        /\ TaxCalculationResult.revenue response
           = TaxCalculationRequest.revenue request
        /\ TaxCalculationResult.expenses response
           = TaxCalculationRequest.expenses request
        /\ TaxCalculationResult.optimization_potential response = 0).
Proof.
  destruct (calculate_taxes_check Company first_company s request current_user_id)
    as [(company_id & Hid & Hnonzero & Hquery & Hanswer)|[Hpass Haccepted]].
  - split.
    + intros company_id' Hid' _ _. exact Hanswer.
    + intros [Hnone|[Hzero|(company_id' & company & Hid' & Hquery')]];
        congruence.
  - split.
    + intros company_id Hid Hnonzero Hquery.
      destruct Hpass as [Hnone|[Hzero|(company_id' & company & Hid' & Hquery')]];
        congruence.
    + intros _.
      destruct (calculate_taxes_accepted Company first_company s request
                  current_user_id Haccepted)
        as (result & advice & tax_on_salary & social & flat & net_income
            & rate & Hresult & Hadvice & _ & _ & _ & Hanswer).
      eexists _, result, advice. split; [exact Hanswer|].
      split; [exact Hresult|]. split; [exact Hadvice|].
      repeat split.
Qed.

Lemma calculate_taxes_answers_witness :
  calculate_taxes unit (fun _ _ => None) settings
    {| TaxCalculationRequest.company_id := Some 7%Z;
       TaxCalculationRequest.calculation_type := "mixed";
       TaxCalculationRequest.tax_year := 2024;
       TaxCalculationRequest.gross_salary := 40000;
       TaxCalculationRequest.dividends := 0;
       TaxCalculationRequest.revenue := 120000;
       TaxCalculationRequest.expenses := 30000;
       TaxCalculationRequest.optimize := false;
       TaxCalculationRequest.include_recommendations := true;
       TaxCalculationRequest.scenario_name := None |} 1
  = inl {| status_code := 404; detail := "Company not found" |}
  /\ exists response : TaxCalculationResult.t,
       calculate_taxes unit (fun _ _ => None) settings
         {| TaxCalculationRequest.company_id := Some 0%Z;
            TaxCalculationRequest.calculation_type := "mixed";
            TaxCalculationRequest.tax_year := 2024;
            TaxCalculationRequest.gross_salary := 40000;
            TaxCalculationRequest.dividends := 0;
            TaxCalculationRequest.revenue := 120000;
            TaxCalculationRequest.expenses := 30000;
            TaxCalculationRequest.optimize := false;
            TaxCalculationRequest.include_recommendations := true;
            TaxCalculationRequest.scenario_name := None |} 1
       = inr (Ok response)
       /\ TaxCalculationResult.gross_salary response = 40000
       /\ TaxCalculationResult.recommendations response <> None.
Proof.
  split.
  - apply (proj1 (calculate_taxes_answers unit (fun _ _ => None) settings
                    {| TaxCalculationRequest.company_id := Some 7%Z;
                       TaxCalculationRequest.calculation_type := "mixed";
                       TaxCalculationRequest.tax_year := 2024;
                       TaxCalculationRequest.gross_salary := 40000;
                       TaxCalculationRequest.dividends := 0;
                       TaxCalculationRequest.revenue := 120000;
                       TaxCalculationRequest.expenses := 30000;
                       TaxCalculationRequest.optimize := false;
                       TaxCalculationRequest.include_recommendations := true;
                       TaxCalculationRequest.scenario_name := None |} 1) 7%Z);
      [reflexivity|discriminate|reflexivity].
  - destruct (proj2 (calculate_taxes_answers unit (fun _ _ => None) settings
                       {| TaxCalculationRequest.company_id := Some 0%Z;
                          TaxCalculationRequest.calculation_type := "mixed";
                          TaxCalculationRequest.tax_year := 2024;
                          TaxCalculationRequest.gross_salary := 40000;
                          TaxCalculationRequest.dividends := 0;
                          TaxCalculationRequest.revenue := 120000;
                          TaxCalculationRequest.expenses := 30000;
                          TaxCalculationRequest.optimize := false;
                          TaxCalculationRequest.include_recommendations := true;
                          TaxCalculationRequest.scenario_name := None |} 1))
      as (response & result & advice & Hanswer & _ & _ & _ & Hadvice
          & Hsalary & _).
    + right. left. reflexivity.
    + exists response. split; [exact Hanswer|]. split; [exact Hsalary|].
      rewrite Hadvice. discriminate.
Defined.

(** X18.  The figures of a response of [calculate_taxes], in every
    environment.  The charges on
    the salary are 42% and 22% of the gross salary, the profit before tax
    is the revenue less the expenses and the cost of the salary, the VAT to
    pay is 20% of the revenue less 20% of the expenses, or 0.  The flat tax
    on the dividends is in two figures: [income_tax] is the income tax on
    the salary plus the flat tax, and [dividend_tax] is the social charges
    on the dividends plus the flat tax.  [total_taxes] counts it once: it is
    the sum of the two charges on the salary, the corporate tax, the
    dividend tax, the income tax on the salary and the VAT to pay. *)
Theorem calculate_taxes_figures (Company : Type)
    (first_company : Z -> Z -> option Company) (s : Settings)
    (request : TaxCalculationRequest.t) (current_user_id : Z)
    (response : TaxCalculationResult.t) :
  calculate_taxes Company first_company s request current_user_id
  = inr (Ok response) ->
  let gross_salary := TaxCalculationRequest.gross_salary request in
  let revenue := TaxCalculationRequest.revenue request in
  let expenses := TaxCalculationRequest.expenses request in
  let details := TaxCalculationResult.calculation_details response in
  TaxCalculationResult.employer_social_charges response = gross_salary * 0.42
  /\ TaxCalculationResult.employee_social_charges response
     = gross_salary * 0.22
  /\ TaxCalculationResult.net_salary response
     = gross_salary - gross_salary * 0.22
  /\ TaxCalculationResult.profit_before_tax response
     = revenue - expenses - (gross_salary + gross_salary * 0.42)
  /\ TaxCalculationResult.corporate_tax response
     = calculate_corporate_tax (init s)
         (TaxCalculationResult.profit_before_tax response)
  /\ TaxCalculationResult.vat_to_pay response
     = Py.max 0 (revenue * 0.20 - expenses * 0.20)
  /\ exists tax_on_salary social flat : float,
       field details "income_tax" "tax_on_salary" = Some tax_on_salary
       /\ field details "dividends" "social_charges" = Some social
       /\ field details "dividends" "income_tax" = Some flat
       /\ TaxCalculationResult.income_tax response = tax_on_salary + flat
       /\ TaxCalculationResult.dividend_tax response = social + flat
       /\ TaxCalculationResult.total_social_charges response
          = TaxCalculationResult.employer_social_charges response
            + TaxCalculationResult.employee_social_charges response + social
       /\ TaxCalculationResult.total_taxes response
          = TaxCalculationResult.employer_social_charges response
            + TaxCalculationResult.employee_social_charges response
            + TaxCalculationResult.corporate_tax response
            + TaxCalculationResult.dividend_tax response
            + tax_on_salary
            + TaxCalculationResult.vat_to_pay response.
Proof.
  intros Hanswer.
  destruct (calculate_taxes_check Company first_company s request current_user_id)
    as [(company_id & _ & _ & _ & Hrejected)|[_ Haccepted]];
    [congruence|].
  destruct (calculate_taxes_accepted Company first_company s request
              current_user_id Haccepted)
    as (result & advice & tax_on_salary & social & flat & net_income
        & rate & _ & _ & Htax & Hsocial & Hflat & Hclosed).
  rewrite Hclosed in Hanswer. injection Hanswer as <-.
  cbn -[calculate_corporate_tax Py.max field].
  repeat (split; [reflexivity|]).
  exists tax_on_salary, social, flat. repeat split; assumption.
Qed.

Lemma calculate_taxes_figures_witness :
  exists response : TaxCalculationResult.t,
    calculate_taxes unit (fun _ _ => None) settings
      {| TaxCalculationRequest.company_id := None;
         TaxCalculationRequest.calculation_type := "mixed";
         TaxCalculationRequest.tax_year := 2024;
         TaxCalculationRequest.gross_salary := 40000;
         TaxCalculationRequest.dividends := 20000;
         TaxCalculationRequest.revenue := 120000;
         TaxCalculationRequest.expenses := 30000;
         TaxCalculationRequest.optimize := false;
         TaxCalculationRequest.include_recommendations := false;
         TaxCalculationRequest.scenario_name := None |} 1
    = inr (Ok response)
    /\ TaxCalculationResult.vat_to_pay response = 18000
    /\ TaxCalculationResult.profit_before_tax response = 33200.
Proof.
  destruct (calculate_taxes_check unit (fun _ _ => None) settings
              {| TaxCalculationRequest.company_id := None;
                 TaxCalculationRequest.calculation_type := "mixed";
                 TaxCalculationRequest.tax_year := 2024;
                 TaxCalculationRequest.gross_salary := 40000;
                 TaxCalculationRequest.dividends := 20000;
                 TaxCalculationRequest.revenue := 120000;
                 TaxCalculationRequest.expenses := 30000;
                 TaxCalculationRequest.optimize := false;
                 TaxCalculationRequest.include_recommendations := false;
                 TaxCalculationRequest.scenario_name := None |} 1)
    as [(company_id & Hid & _)|[_ Haccepted]]; [discriminate Hid|].
  destruct (calculate_taxes_accepted _ _ _ _ _ Haccepted)
    as (result & advice & tax_on_salary & social & flat & net_income
        & rate & _ & _ & _ & _ & _ & Hclosed).
  eexists. split; [exact Hclosed|].
  destruct (calculate_taxes_figures _ _ _ _ _ _ Hclosed)
    as (_ & _ & _ & Hprofit & _ & Hvat & _).
  split; [exact Hvat|exact Hprofit].
Defined.

(** [max(0, x)] is at least 0, and is not NaN. *)
Lemma max_zero_nonneg (x : float) : (0 <=? Py.max 0 x) = true.
Proof.
  unfold Py.max. destruct (0 <? x) eqn:Hx; [|reflexivity].
  revert Hx. rewrite FloatAxioms.ltb_spec, FloatAxioms.leb_spec.
  change (Prim2SF 0) with (S754_zero false). FloatOrder.by_class x.
Qed.

Section OptimizeTaxes.

Variable Company : Type.
Variable first_company : Z -> Z -> option Company.
Variable s : Settings.

(** [optimize_taxes] once the company is found and the optimizer has
    returned, in closed form. *)
Lemma optimize_taxes_accepted (fuel : nat) (request : TaxOptimizationRequest.t)
    (current_user_id : Z) (company : Company) (r : OptimizationResult)
    (constraints : gmap string float) :
  let target := TaxOptimizationRequest.target_net_income request in
  let revenue := TaxOptimizationRequest.revenue request in
  let expenses := TaxOptimizationRequest.expenses request in
  first_company (TaxOptimizationRequest.company_id request) current_user_id
  = Some company ->
  constraints
  = match TaxOptimizationRequest.max_salary request with
    | Some max_salary =>
        <["max_salary" := max_salary]>
          match TaxOptimizationRequest.min_salary request with
          | Some min_salary => <["min_salary" := min_salary]> ∅
          | None => ∅
          end
    | None =>
        match TaxOptimizationRequest.min_salary request with
        | Some min_salary => <["min_salary" := min_salary]> ∅
        | None => ∅
        end
    end ->
  optimize_remuneration (init s) fuel target revenue expenses
    (Some constraints) = Ok r ->
  exists (all_salary all_dividends : gmap string (gmap string float))
         (all_salary_taxes all_dividends_taxes : float),
    calculate_complete_taxation (init s)
      (target * 1.8) 0 revenue expenses 0.20 = Ok all_salary
    /\ field all_salary "summary" "total_taxes" = Some all_salary_taxes
    /\ calculate_complete_taxation (init s)
         (smic_annual (init s)) (target * 1.4) revenue expenses 0.20
       = Ok all_dividends
    /\ field all_dividends "summary" "total_taxes" = Some all_dividends_taxes
    /\ optimize_taxes Company first_company s fuel request current_user_id
       = inr (Ok
           {| TaxOptimizationResult.optimal_gross_salary :=
                optimal_gross_salary r;
              TaxOptimizationResult.optimal_dividends := optimal_dividends r;
              TaxOptimizationResult.net_income_achieved :=
                net_income_achieved r;
              TaxOptimizationResult.total_tax_burden := total_tax_burden r;
              TaxOptimizationResult.effective_tax_rate :=
                effective_tax_rate r;
              TaxOptimizationResult.savings_vs_all_salary :=
                Py.max 0 (all_salary_taxes - total_tax_burden r);
              TaxOptimizationResult.savings_vs_all_dividends :=
                Py.max 0 (all_dividends_taxes - total_tax_burden r);
              TaxOptimizationResult.breakdown := breakdown r;
              TaxOptimizationResult.recommendations :=
                [ OptimalSalary (optimal_gross_salary r);
                  OptimalDividends (optimal_dividends r);
                  SavingsVsAllSalary (all_salary_taxes - total_tax_burden r);
                  SavingsVsAllDividends
                    (all_dividends_taxes - total_tax_burden r) ];
              TaxOptimizationResult.warnings :=
                if optimal_gross_salary r <? smic_annual (init s)
                then Some [OptimizedSalaryBelowSmic] else None |}).
Proof.
  intros target revenue expenses Hquery Hconstraints Hrun.
  unfold optimize_taxes. rewrite Hquery. cbv zeta.
  fold target. fold revenue. fold expenses.
  replace (match TaxOptimizationRequest.max_salary request with
           | Some max_salary => _
           | None => _
           end) with constraints
    by (rewrite Hconstraints;
        now destruct (TaxOptimizationRequest.max_salary request)).
  rewrite Hrun, bind_Ok.
  destruct (complete_taxation_summary s (target * 1.8) 0
              revenue expenses default_vat_rate)
    as (all_salary & summary & net_income & all_salary_taxes & rate
        & Hsalary & Hsummary & _ & Htaxes & _).
  destruct (complete_taxation_summary s (smic_annual (init s))
              (target * 1.4) revenue expenses default_vat_rate)
    as (all_dividends & summary' & net_income' & all_dividends_taxes & rate'
        & Hdividends & Hsummary' & _ & Htaxes' & _).
  rewrite Hsalary, Hdividends. getitem_known.
  exists all_salary, all_dividends, all_salary_taxes, all_dividends_taxes.
  split; [exact Hsalary|].
  split; [unfold field; rewrite Hsummary; exact Htaxes|].
  split; [exact Hdividends|].
  split; [unfold field; rewrite Hsummary'; exact Htaxes'|].
  now destruct (optimal_gross_salary r <? smic_annual (init s)).
Qed.

(** [optimize_taxes] raises nothing but its 404. *)
Lemma optimize_taxes_never_raises (fuel : nat)
    (request : TaxOptimizationRequest.t) (current_user_id : Z) (e : exn) :
  optimize_taxes Company first_company s fuel request current_user_id
  <> inr (Raise e).
Proof.
  unfold optimize_taxes.
  destruct (first_company _ _) as [company|]; [|intros [=]]. cbv zeta.
  intros [= Hraise]. revert Hraise.
  intros [Hraise|(r & _ & Hraise)]%bind_raise;
    [exact (optimize_remuneration_never_raises _ _ _ _ _ _ _ Hraise)|].
  revert Hraise.
  destruct (complete_taxation_summary s
              (TaxOptimizationRequest.target_net_income request * 1.8) 0
              (TaxOptimizationRequest.revenue request)
              (TaxOptimizationRequest.expenses request) default_vat_rate)
    as (all_salary & summary & net_income & all_salary_taxes & rate
        & Hsalary & Hsummary & _ & Htaxes & _).
  rewrite Hsalary, bind_Ok.
  match goal with
  | |- context [calculate_complete_taxation _ ?a ?b ?c ?d ?v] =>
      destruct (complete_taxation_summary s a b c d v)
        as (all_dividends & summary' & net_income' & all_dividends_taxes
            & rate' & Hdividends & Hsummary' & _ & Htaxes' & _)
  end.
  rewrite Hdividends. getitem_known. intros [=].
Qed.

End OptimizeTaxes.

(** X19.  In every environment, that is for all the settings that the
    calculator is built from, [optimize_taxes] always checks the company,
    the id 0 included:
    when the query finds no such company of the user, the answer is the 404
    "Company not found".  It raises nothing else.  A response carries the
    figures of the optimizer, which was run with the bounds of the request
    as its only constraints; its two savings compare the total taxes of an
    all-salary and of an all-dividends remuneration with the total tax
    burden and are never negative nor NaN, while the recommendation lines
    quote the two differences as they are; and there is a warning exactly
    when the optimal salary is below the annual minimum wage of the
    configured settings, which is also the salary of the all-dividends
    comparison. *)
Theorem optimize_taxes_answers (Company : Type)
    (first_company : Z -> Z -> option Company) (s : Settings) (fuel : nat)
    (request : TaxOptimizationRequest.t) (current_user_id : Z) :
  let target := TaxOptimizationRequest.target_net_income request in
  let revenue := TaxOptimizationRequest.revenue request in
  let expenses := TaxOptimizationRequest.expenses request in
  (first_company (TaxOptimizationRequest.company_id request) current_user_id
   = None ->
   optimize_taxes Company first_company s fuel request current_user_id
   = inl {| status_code := 404; detail := "Company not found" |})
  /\ (forall e : exn,
        optimize_taxes Company first_company s fuel request current_user_id
        <> inr (Raise e))
  /\ (forall response : TaxOptimizationResult.t,
        optimize_taxes Company first_company s fuel request current_user_id
        = inr (Ok response) ->
        exists (constraints : gmap string float) (r : OptimizationResult)
               (all_salary all_dividends : gmap string (gmap string float))
               (all_salary_taxes all_dividends_taxes : float),
          constraints !! "min_salary" = TaxOptimizationRequest.min_salary request
          /\ constraints !! "max_salary"
             = TaxOptimizationRequest.max_salary request
          /\ (forall key : string,
                key <> "min_salary" -> key <> "max_salary" ->
                constraints !! key = None)
          /\ optimize_remuneration (init s) fuel target revenue expenses
               (Some constraints) = Ok r
          /\ TaxOptimizationResult.optimal_gross_salary response
             = optimal_gross_salary r
          /\ TaxOptimizationResult.optimal_dividends response
             = optimal_dividends r
          /\ TaxOptimizationResult.net_income_achieved response
             = net_income_achieved r
          /\ TaxOptimizationResult.total_tax_burden response
             = total_tax_burden r
          /\ TaxOptimizationResult.effective_tax_rate response
             = effective_tax_rate r
          /\ TaxOptimizationResult.breakdown response = breakdown r
          /\ calculate_complete_taxation (init s)
               (target * 1.8) 0 revenue expenses 0.20 = Ok all_salary
          /\ field all_salary "summary" "total_taxes" = Some all_salary_taxes
          /\ calculate_complete_taxation (init s)
               (smic_annual (init s)) (target * 1.4) revenue expenses
               0.20 = Ok all_dividends
          /\ field all_dividends "summary" "total_taxes"
             = Some all_dividends_taxes
          /\ TaxOptimizationResult.savings_vs_all_salary response
             = Py.max 0 (all_salary_taxes - total_tax_burden r)
          /\ TaxOptimizationResult.savings_vs_all_dividends response
             = Py.max 0 (all_dividends_taxes - total_tax_burden r)
          /\ (0 <=? TaxOptimizationResult.savings_vs_all_salary response)
             = true
          /\ (0 <=? TaxOptimizationResult.savings_vs_all_dividends response)
             = true
          /\ TaxOptimizationResult.recommendations response
             = [ OptimalSalary (optimal_gross_salary r);
                 OptimalDividends (optimal_dividends r);
                 SavingsVsAllSalary (all_salary_taxes - total_tax_burden r);
                 SavingsVsAllDividends
                   (all_dividends_taxes - total_tax_burden r) ]
          /\ TaxOptimizationResult.warnings response
             = (if optimal_gross_salary r <? smic_annual (init s)
                then Some [OptimizedSalaryBelowSmic] else None)).
Proof.
  intros target revenue expenses.
  split; [unfold optimize_taxes; now intros ->|].
  split; [intros e; apply optimize_taxes_never_raises|].
  intros response Hanswer.
  destruct (first_company (TaxOptimizationRequest.company_id request)
              current_user_id) as [company|] eqn:Hquery;
    [|unfold optimize_taxes in Hanswer; rewrite Hquery in Hanswer;
      discriminate Hanswer].
  set (constraints :=
         match TaxOptimizationRequest.max_salary request with
         | Some max_salary =>
             <["max_salary" := max_salary]>
               match TaxOptimizationRequest.min_salary request with
               | Some min_salary => <["min_salary" := min_salary]> ∅
               | None => (∅ : gmap string float)
               end
         | None =>
             match TaxOptimizationRequest.min_salary request with
             | Some min_salary => <["min_salary" := min_salary]> ∅
             | None => ∅
             end
         end).
  assert (Hrun : exists r,
             optimize_remuneration (init s) fuel target revenue expenses
               (Some constraints) = Ok r).
  { revert Hanswer. unfold optimize_taxes. rewrite Hquery. cbv zeta.
    replace (match TaxOptimizationRequest.max_salary request with
             | Some max_salary => _
             | None => _
             end) with constraints
      by (subst constraints;
          now destruct (TaxOptimizationRequest.max_salary request)).
    intros [= Hanswer]. apply bind_inv in Hanswer as (r & Hrun & _). eauto. }
  destruct Hrun as (r & Hrun).
  destruct (optimize_taxes_accepted Company first_company s fuel request
              current_user_id company r constraints Hquery eq_refl Hrun)
    as (all_salary & all_dividends & all_salary_taxes & all_dividends_taxes
        & Hsalary & Htaxes & Hdividends & Htaxes' & Hclosed).
  rewrite Hclosed in Hanswer. injection Hanswer as <-.
  exists constraints, r, all_salary, all_dividends, all_salary_taxes,
    all_dividends_taxes.
  cbn -[Py.max].
  split; [subst constraints;
          destruct (TaxOptimizationRequest.max_salary request),
            (TaxOptimizationRequest.min_salary request);
          lookup_literal; rewrite ?lookup_empty; reflexivity|].
  split; [subst constraints;
          destruct (TaxOptimizationRequest.max_salary request),
            (TaxOptimizationRequest.min_salary request);
          lookup_literal; rewrite ?lookup_empty; reflexivity|].
  split; [intros key Hmin Hmax; subst constraints;
          destruct (TaxOptimizationRequest.max_salary request),
            (TaxOptimizationRequest.min_salary request);
          rewrite ?lookup_insert_ne by congruence; apply lookup_empty|].
  split; [exact Hrun|]. do 6 (split; [reflexivity|]).
  split; [exact Hsalary|]. split; [exact Htaxes|].
  split; [exact Hdividends|]. split; [exact Htaxes'|].
  do 2 (split; [reflexivity|]).
  do 2 (split; [apply max_zero_nonneg|]).
  split; reflexivity.
Qed.

Lemma optimize_taxes_answers_witness :
  optimize_taxes unit (fun _ _ => None) settings 9
    {| TaxOptimizationRequest.company_id := 0;
       TaxOptimizationRequest.target_net_income := 50000;
       TaxOptimizationRequest.tax_year := 2024;
       TaxOptimizationRequest.min_salary := None;
       TaxOptimizationRequest.max_salary := None;
       TaxOptimizationRequest.min_dividends := None;
       TaxOptimizationRequest.max_dividends := None;
       TaxOptimizationRequest.revenue := 120000;
       TaxOptimizationRequest.expenses := 30000 |} 1
  = inl {| status_code := 404; detail := "Company not found" |}
  /\ exists response : TaxOptimizationResult.t,
       optimize_taxes unit (fun _ _ => Some tt) settings 9
         {| TaxOptimizationRequest.company_id := 0;
            TaxOptimizationRequest.target_net_income := 50000;
            TaxOptimizationRequest.tax_year := 2024;
            TaxOptimizationRequest.min_salary := None;
            TaxOptimizationRequest.max_salary := None;
            TaxOptimizationRequest.min_dividends := None;
            TaxOptimizationRequest.max_dividends := None;
            TaxOptimizationRequest.revenue := 120000;
            TaxOptimizationRequest.expenses := 30000 |} 1
       = inr (Ok response)
       /\ (0 <=? TaxOptimizationResult.savings_vs_all_salary response) = true
       /\ length (TaxOptimizationResult.recommendations response) = 4%nat.
Proof.
  split.
  - apply (proj1 (optimize_taxes_answers unit (fun _ _ => None) settings 9
                    {| TaxOptimizationRequest.company_id := 0;
                       TaxOptimizationRequest.target_net_income := 50000;
                       TaxOptimizationRequest.tax_year := 2024;
                       TaxOptimizationRequest.min_salary := None;
                       TaxOptimizationRequest.max_salary := None;
                       TaxOptimizationRequest.min_dividends := None;
                       TaxOptimizationRequest.max_dividends := None;
                       TaxOptimizationRequest.revenue := 120000;
                       TaxOptimizationRequest.expenses := 30000 |} 1)).
    reflexivity.
  - destruct (optimum_inv _ _ _ _ scenario_optimizer_run) as (r & Hrun & _).
    destruct (optimize_taxes_accepted unit (fun _ _ => Some tt) settings 9
                {| TaxOptimizationRequest.company_id := 0;
                   TaxOptimizationRequest.target_net_income := 50000;
                   TaxOptimizationRequest.tax_year := 2024;
                   TaxOptimizationRequest.min_salary := None;
                   TaxOptimizationRequest.max_salary := None;
                   TaxOptimizationRequest.min_dividends := None;
                   TaxOptimizationRequest.max_dividends := None;
                   TaxOptimizationRequest.revenue := 120000;
                   TaxOptimizationRequest.expenses := 30000 |} 1 tt r ∅
                eq_refl eq_refl Hrun)
      as (all_salary & all_dividends & all_salary_taxes & all_dividends_taxes
          & _ & _ & _ & _ & Hclosed).
    eexists. split; [exact Hclosed|].
    destruct (proj2 (proj2 (optimize_taxes_answers unit (fun _ _ => Some tt) settings 9
                              _ 1)) _ Hclosed)
      as (constraints & r' & all_salary' & all_dividends' & taxes & taxes'
          & _ & _ & _ & _ & _ & _ & _ & _ & _ & _ & _ & _ & _ & _ & _ & _
          & Hsavings & _ & Hlines & _).
    split; [exact Hsavings|]. now rewrite Hlines.
Defined.
